(** * OpenVPN 3: tun interface properties (tunprop.hpp) and IPv4 addresses (ipv4.hpp)

    A shallow embedding of [openvpn/addr/ipv4.hpp] and of
    [openvpn/tun/client/tunprop.hpp].

    - 32-bit unsigned values are integers of [Z] in [0, 2^32), with the
      wrap-around of the C++ arithmetic written out.
    - C++ exceptions are values of [exn]; a computation that may throw returns
      a [result].
    - The calls made on the [TunBuilderBase] object are recorded, with the
      value each one returned, in a chronological trace; the builder itself is
      a function from the trace so far and the call to the returned [bool].
    - Code that throws, catches and mutates is written in a state and
      exception monad [M]. *)

From Stdlib Require Import ZArith List String Ascii Bool Lia.
From Stdlib Require Import DecimalString HexadecimalString RelationClasses.
Import ListNotations.
Open Scope string_scope.
Open Scope list_scope.
Open Scope Z_scope.

Set Implicit Arguments.

(** ** Exceptions *)

(** The exception classes of the two files (all derive from [std::exception]).
    [external_error] stands for whatever a collaborator that is not part of
    these two files throws (option accessors, address parsers, port
    validation); it is a [std::exception] too. *)
Inductive exn : Type :=
| ipv4_malformed_netmask
| ipv4_bad_prefix_len
| tun_prop_error (msg : string)
| tun_prop_route_error (msg : string)
| tun_prop_dhcp_option_error (msg : string)
| option_error (msg : string)
| external_error (origin : string).

Inductive result (A : Type) : Type :=
| Ok (a : A)
| Err (e : exn).
Arguments Ok {A} a.
Arguments Err {A} e.

Definition is_ok {A} (r : result A) : bool :=
  match r with Ok _ => true | Err _ => false end.

(** Sequencing of two computations that may throw. *)
Definition rbind {A B} (r : result A) (k : A -> result B) : result B :=
  match r with Ok a => k a | Err e => Err e end.

(** ** IPv4 addresses: [openvpn/addr/ipv4.hpp] *)

Module IPv4.

(** [base_type] is [boost::uint32_t]. *)
Definition base_type_bound : Z := 2 ^ 32.

(** Conversion of an integer to [uint32_t] and to (two's complement)
    [int]. *)
Definition to_uint32 (z : Z) : Z := z mod 2 ^ 32.
Definition to_int32 (z : Z) : Z := (z + 2 ^ 31) mod 2 ^ 32 - 2 ^ 31.

(** [class Addr]: the union [u] read through its [addr] member. *)
Record Addr : Type := from_uint32 { u_addr : Z }.

Definition from_zero : Addr := from_uint32 0.

Definition negate (a : Addr) : Addr :=
  from_uint32 (to_uint32 (Z.lnot (u_addr a))).

Definition from_zero_complement : Addr := negate from_zero.

Definition bit_and (a b : Addr) : Addr :=
  from_uint32 (Z.land (u_addr a) (u_addr b)).

Definition bit_or (a b : Addr) : Addr :=
  from_uint32 (Z.lor (u_addr a) (u_addr b)).

Definition eqb (a b : Addr) : bool := u_addr a =? u_addr b.

Definition unspecified (a : Addr) : bool := u_addr a =? 0.

(** [~((1 << (32 - prefix_len)) - 1)], converted to [base_type].  The
    literal [1] is an [int], so the shift, the subtraction and the
    complement are [int] operations; their results are wrapped to 32-bit
    two's complement ([prefix_len = 1] gives [INT_MIN - 1], which wraps to
    [INT_MAX]).  Both callers keep [1 <= prefix_len <= 32], where
    [32 - prefix_len] does not wrap and the shift count is below 32. *)
Definition prefix_len_to_netmask_unchecked (prefix_len : Z) : Z :=
  to_uint32 (Z.lnot (to_int32 (to_int32 (Z.shiftl 1 (32 - prefix_len)) - 1))).

Definition prefix_len_to_netmask (prefix_len : Z) : result Z :=
  if (1 <=? prefix_len) && (prefix_len <=? 32)
  then Ok (prefix_len_to_netmask_unchecked prefix_len)
  else Err ipv4_bad_prefix_len.

Definition netmask_from_prefix_len (prefix_len : Z) : result Addr :=
  match prefix_len_to_netmask prefix_len with
  | Ok m => Ok (from_uint32 m)
  | Err e => Err e
  end.

(** The [for] loop of [prefix_len]: [i] counts the iterations that are
    left; leaving the loop without a [return] throws. *)
Fixpoint prefix_len_search (i : nat) (addr high low : Z) : result Z :=
  match i with
  | O => Err ipv4_malformed_netmask
  | S i' =>
      let mid := (high + low) / 2 in
      let test := prefix_len_to_netmask_unchecked mid in
      if addr =? test then Ok mid
      else if addr >? test then prefix_len_search i' addr high mid
      else prefix_len_search i' addr mid low
  end.

Definition prefix_len (a : Addr) : result Z :=
  if negb (u_addr a =? to_uint32 (Z.lnot 0))
  then prefix_len_search 5 (u_addr a) 32 1
  else Ok 32.

End IPv4.

(** ** A state and exception monad

    [M S A]: a computation over a store [S] that returns an [A] or throws.
    What was written to the store before a [throw] stays written, as in C++:
    a builder call made before the exception has been made. *)

Definition M (S A : Type) : Type := S -> result A * S.

Definition ret {S A} (a : A) : M S A := fun s => (Ok a, s).

Definition bind {S A B} (m : M S A) (k : A -> M S B) : M S B :=
  fun s => match m s with
           | (Ok a, s') => k a s'
           | (Err e, s') => (Err e, s')
           end.

Definition throw {S A} (e : exn) : M S A := fun s => (Err e, s).

(** [try { body } catch (const std::exception& e) { handler }] *)
Definition try_catch {S A} (body : M S A) (handler : exn -> M S A) : M S A :=
  fun s => match body s with
           | (Ok a, s') => (Ok a, s')
           | (Err e, s') => handler e s'
           end.

Definition gets {S A} (f : S -> A) : M S A := fun s => (Ok (f s), s).
Definition modify {S} (f : S -> S) : M S unit := fun s => (Ok tt, f s).

(** A value that was computed without the store. *)
Definition lift {S A} (r : result A) : M S A := fun s => (r, s).

(** A computation on the second component of a store made of two. *)
Definition zoom {L S A} (m : M S A) : M (L * S) A :=
  fun ls => match m (snd ls) with (r, s') => (r, (fst ls, s')) end.

Declare Scope monad_scope.
Delimit Scope monad_scope with monad.
Notation "x <- m ;; k" := (bind m (fun x => k))
  (at level 61, m at next level, right associativity) : monad_scope.
Notation "m ;;; k" := (bind m (fun _ => k))
  (at level 61, right associativity) : monad_scope.
Open Scope monad_scope.

Definition when {S} (b : bool) (m : M S unit) : M S unit :=
  if b then m else ret tt.

(** A [for] loop over a container, the body run for its effects. *)
Fixpoint for_each {S A} (l : list A) (body : A -> M S unit) : M S unit :=
  match l with
  | [] => ret tt
  | x :: l' => body x ;;; for_each l' body
  end.

(** ** The collaborators of [TunProp] *)

(** *** Dual-family addresses ([IP::Addr], [IP::AddrMaskPair]) *)

Module IP.

Inductive Version : Type := V4 | V6.

Definition Version_eqb (a b : Version) : bool :=
  match a, b with V4, V4 | V6, V6 => true | _, _ => false end.

(** Modelled from the spec: [IP::Addr] is declared outside the two files.
    "Attributes: address family tag {V4, V6}; 32-bit or 128-bit binary
    value"; "a tagged variant {V4(4 bytes), V6(16 bytes)} with
    family-checked operations". *)
Inductive Addr : Type :=
| addr_v4 (a : IPv4.Addr)
| addr_v6 (a : Z).

Definition version (a : Addr) : Version :=
  match a with addr_v4 _ => V4 | addr_v6 _ => V6 end.

Definition eqb (a b : Addr) : bool :=
  match a, b with
  | addr_v4 x, addr_v4 y => IPv4.eqb x y
  | addr_v6 x, addr_v6 y => x =? y
  | _, _ => false
  end.

(** Modelled from the spec: "bitwise operators (AND, OR, NOT) are only
    defined between addresses of the same family (operating on the opposite
    family is an error, not undefined behavior)". *)
Definition bit_and (a b : Addr) : result Addr :=
  match a, b with
  | addr_v4 x, addr_v4 y => Ok (addr_v4 (IPv4.bit_and x y))
  | addr_v6 x, addr_v6 y => Ok (addr_v6 (Z.land x y))
  | _, _ => Err (external_error "IP::Addr::operator&: version inconsistency")
  end.

(** Modelled from the spec: [IP::Addr::version_size] is declared outside
    the two files; "prefix = full address width for the family", 32 bits for
    V4 and 128 bits for V6. *)
Definition version_size (v : Version) : Z :=
  match v with V4 => 32 | V6 => 128 end.

(** [IP::Addr::VersionMask] and its two bits; the constants are declared
    outside the two files, the code only needs them to be distinct single
    bits. *)
Definition V4_MASK : Z := Z.shiftl 1 0.
Definition V6_MASK : Z := Z.shiftl 1 1.

(** Modelled from the spec: [IP::AddrMaskPair], "Attributes: address,
    netmask (both Address, same family)". *)
Record AddrMaskPair : Type := { addr : Addr; netmask : Addr }.

(** Modelled from the spec: both components have the same family, which is
    the pair's. *)
Definition pair_version (p : AddrMaskPair) : Version := version (addr p).

(** Modelled from the spec: "Invariant canonical: address & netmask ==
    address". *)
Definition is_canonical (p : AddrMaskPair) : result bool :=
  match bit_and (addr p) (netmask p) with
  | Ok a => Ok (eqb a (addr p))
  | Err e => Err e
  end.

End IP.

(** *** Directives ([Option], [OptionList]) *)

(** Modelled from the spec: "each occurrence an ordered sequence of string
    tokens. Token 0 is implicitly the keyword; tokens are 1-indexed
    arguments". *)
Definition Option : Type := list string.
Definition OptionList : Type := list Option.

(** [o.size()]: the number of tokens, the keyword included. *)
Definition Option_size (o : Option) : nat := List.length o.

(** [o.ref(i)], used under [o.size() >= i+1]. *)
Definition Option_ref (o : Option) (i : nat) : string := nth i o "".

(** [o.exact_args(n)] and [o.min_args(n)]: the directive has exactly, or at
    least, [n] tokens (as in [add_dhcp_options], where
    [[dhcp-option] [DNS] [172.16.0.23]] passes [exact_args(3)]); they throw
    otherwise. *)
Definition exact_args (o : Option) (n : nat) : result unit :=
  if Nat.eqb (Option_size o) n then Ok tt
  else Err (external_error "Option::exact_args").

Definition min_args (o : Option) (n : nat) : result unit :=
  if Nat.leb n (Option_size o) then Ok tt
  else Err (external_error "Option::min_args").

(** Token 0 of a directive is its keyword. *)
Definition Option_name_is (name : string) (o : Option) : bool :=
  match o with
  | k :: _ => String.eqb k name
  | [] => false
  end.

(** Modelled from the spec: [opt.map().find(name)], "a mapping from
    directive keyword to an ordered sequence of occurrences"; [None] is
    [opt.map().end()]. *)
Definition OptionList_find (opt : OptionList) (name : string) : option (list Option) :=
  match filter (Option_name_is name) opt with
  | [] => None
  | l => Some l
  end.

(** Modelled from the spec: [opt.exists(name)], "presence of the
    directive". *)
Definition OptionList_exists (opt : OptionList) (name : string) : bool :=
  existsb (Option_name_is name) opt.

(** *** Version flags, the builder, the emulator *)

(** Modelled from the spec: [IPVerFlags] is declared outside the two files;
    these are the values [TunProp] reads from it. *)
Record IPVerFlags : Type := {
  v4 : bool;
  v6 : bool;
  rgv4 : bool;
  rgv6 : bool;
  api_flags : Z
}.

(** The methods of [TunBuilderBase] that [TunProp] calls, with their
    arguments.  The port of the two proxy calls is [None] when the local
    variable it is read from was never assigned. *)
Inductive BuilderCall : Type :=
| tun_builder_add_address (address : string) (prefix_length : Z)
                          (gateway : string) (ipv6 net30 : bool)
| tun_builder_add_route (address : string) (prefix_length : Z) (ipv6 : bool)
| tun_builder_exclude_route (address : string) (prefix_length : Z) (ipv6 : bool)
| tun_builder_reroute_gw (ipv4 ipv6 : bool) (flags : Z)
| tun_builder_add_dns_server (address : string) (ipv6 : bool)
| tun_builder_add_wins_server (address : string)
| tun_builder_add_search_domain (domain : string)
| tun_builder_add_proxy_bypass (bypass_host : string)
| tun_builder_set_proxy_http (host : string) (port : option Z)
| tun_builder_set_proxy_https (host : string) (port : option Z)
| tun_builder_set_proxy_auto_config_url (url : string)
| tun_builder_set_block_ipv6 (block_ipv6 : bool)
| tun_builder_set_remote_address (address : string) (ipv6 : bool)
| tun_builder_set_mtu (mtu : Z)
| tun_builder_set_session_name (name : string).

(** A builder answers a call with a [bool]; its answer may depend on the
    calls it has received so far. *)
Definition Trace : Type := list (BuilderCall * bool).
Definition TunBuilderBase : Type := Trace -> BuilderCall -> bool.

(** What [EmulateExcludeRoute::add_route(add, addr, prefix_len)] records. *)
Record EerRoute : Type := {
  eer_add : bool;
  eer_addr : IP.Addr;
  eer_prefix_len : Z
}.

(** [Error::REROUTE_GW_NO_DNS], the one event [TunProp] reports. *)
Inductive ErrorType : Type := REROUTE_GW_NO_DNS.

(** The lines written with [OPENVPN_LOG]. *)
Inductive LogLine : Type :=
| log_ipv4_route_error (o : Option) (e : exn)
| log_ipv6_route_error (o : Option) (e : exn)
| log_remote_bypass_error (addr : IP.Addr) (e : exn)
| log_unknown_dhcp_option (o : Option)
| log_dhcp_option_error (o : Option) (e : exn)
| log_proxy_error (e : exn)
| log_google_dns_fallback.

(** The functions of other files that [TunProp] calls and that are not part
    of the two files.  The development is parametric in them. *)
Class Externals : Type := {
  (** [Option::validate_arg]: is a token acceptable under a length limit *)
  arg_ok : string -> nat -> bool;
  (** [OptionList::get_ptr(name)] *)
  get_ptr : OptionList -> string -> option Option;
  (** [IP::Addr::from_string], [None] when it throws *)
  addr_from_string : string -> option IP.Addr;
  (** [IP::Addr::to_string] *)
  addr_to_string : IP.Addr -> string;
  (** [IP::AddrMaskPair::from_string(s1, s2, title)] *)
  pair_from_string2 : string -> string -> option IP.AddrMaskPair;
  (** [IP::AddrMaskPair::from_string(s, title)] *)
  pair_from_string : string -> option IP.AddrMaskPair;
  (** [prefix_len()] of a 128-bit netmask *)
  ipv6_prefix_len : Z -> result Z;
  (** [HostPort::validate_port], [None] when it throws *)
  validate_port : string -> option Z;
  (** [Split::by_space] *)
  by_space : string -> list string;
  (** the constructor [IPVerFlags(opt, ip_ver_flags)] *)
  IPVerFlags_new : OptionList -> Z -> IPVerFlags;
  (** [EmulateExcludeRoute::enabled(ipv)], on the routes recorded so far *)
  eer_enabled : list EerRoute -> IPVerFlags -> bool;
  (** Modelled from the spec: [EmulateExcludeRoute::emulate], "invoked once
      at finalize to perform its own translation (emits its own add-route
      calls) when enabled": the routes it adds, from the recorded routes, the
      flags and the server address. *)
  eer_emulate : list EerRoute -> IPVerFlags -> IP.Addr -> list (IP.Addr * Z)
}.

(** ** [TunProp]: [openvpn/tun/client/tunprop.hpp] *)

Module TunProp.

(** [add_dns flags] *)
Definition F_ADD_DNS : Z := Z.shiftl 1 0.

Record Config : Type := {
  session_name : string;
  mtu : Z;
  google_dns_fallback : bool;
  (** the result of [cached_ip_address_list] on [remote_list], [None] for a
      null [RemoteList::Ptr] *)
  remote_list : option (list IP.Addr);
  remote_bypass : bool
}.

(** [TunProp::State]; an address not yet assigned is [None]. *)
Record State : Type := {
  iface_name : string;
  vpn_ip4_addr : option IP.Addr;
  vpn_ip6_addr : option IP.Addr;
  tun_prefix : bool
}.

(** Everything a configuration pass writes to: the builder (through the
    trace of its calls), the emulator's recorded routes, the caller's
    [State] ([None] for a null pointer), the statistics sink and the log. *)
Record World : Type := {
  calls : Trace;
  eer_routes : list EerRoute;
  state : option State;
  stats_errors : list ErrorType;
  log : list LogLine
}.

Definition set_calls (w : World) (c : Trace) : World :=
  {| calls := c; eer_routes := eer_routes w; state := state w;
     stats_errors := stats_errors w; log := log w |}.

Definition set_eer_routes (w : World) (r : list EerRoute) : World :=
  {| calls := calls w; eer_routes := r; state := state w;
     stats_errors := stats_errors w; log := log w |}.

Definition set_state (w : World) (st : option State) : World :=
  {| calls := calls w; eer_routes := eer_routes w; state := st;
     stats_errors := stats_errors w; log := log w |}.

Definition set_stats_errors (w : World) (e : list ErrorType) : World :=
  {| calls := calls w; eer_routes := eer_routes w; state := state w;
     stats_errors := e; log := log w |}.

Definition set_log (w : World) (l : list LogLine) : World :=
  {| calls := calls w; eer_routes := eer_routes w; state := state w;
     stats_errors := stats_errors w; log := l |}.

(** Worlds that differ from [w] by one effect: a builder call [c] that
    returned [r], a route recorded by the emulator, a log line unless
    [quiet]. *)
Definition called (c : BuilderCall) (r : bool) (w : World) : World :=
  set_calls w (calls w ++ [(c, r)]).

Definition recorded (add : bool) (a : IP.Addr) (p : Z) (w : World) : World :=
  set_eer_routes w (eer_routes w ++
    [{| eer_add := add; eer_addr := a; eer_prefix_len := p |}]).

Definition logged (quiet : bool) (l : LogLine) (w : World) : World :=
  if quiet then w else set_log w (log w ++ [l]).

(** Two worlds that agree on everything but the log. *)
Definition same_effects (w w' : World) : Prop :=
  calls w = calls w' /\ eer_routes w = eer_routes w'
  /\ state w = state w' /\ stats_errors w = stats_errors w'.

(** [OPENVPN_LOG(...)] *)
Definition OPENVPN_LOG (l : LogLine) : M World unit :=
  modify (fun w => set_log w (log w ++ [l])).

Definition set_vpn_ip4_addr (a : IP.Addr) (st : State) : State :=
  {| iface_name := iface_name st; vpn_ip4_addr := Some a;
     vpn_ip6_addr := vpn_ip6_addr st; tun_prefix := tun_prefix st |}.

Definition set_vpn_ip6_addr (a : IP.Addr) (st : State) : State :=
  {| iface_name := iface_name st; vpn_ip4_addr := vpn_ip4_addr st;
     vpn_ip6_addr := Some a; tun_prefix := tun_prefix st |}.

(** [if (state) state->vpn_ip4_addr = a] and its IPv6 twin *)
Definition store_vpn_ip4_addr (a : IP.Addr) : M World unit :=
  modify (fun w => set_state w (option_map (set_vpn_ip4_addr a) (state w))).

Definition store_vpn_ip6_addr (a : IP.Addr) : M World unit :=
  modify (fun w => set_state w (option_map (set_vpn_ip6_addr a) (state w))).

(** [eer->add_route(add, addr, prefix_length)] *)
Definition eer_add_route (add : bool) (a : IP.Addr) (prefix_length : Z)
  : M World unit :=
  modify (fun w =>
    set_eer_routes w
      (eer_routes w ++ [{| eer_add := add; eer_addr := a;
                           eer_prefix_len := prefix_length |}])).

(** [stats->error(e)] *)
Definition stats_error (e : ErrorType) : M World unit :=
  modify (fun w => set_stats_errors w (stats_errors w ++ [e])).

Inductive Topology : Type := NET30 | SUBNET.

(** The local variables of [add_dhcp_options]; a port is [None] until it
    is first assigned. *)
Record DhcpLocals : Type := {
  flags : Z;
  auto_config_url : string;
  http_host : string;
  http_port : option Z;
  https_host : string;
  https_port : option Z
}.

Definition dhcp_locals_init : DhcpLocals :=
  {| flags := 0; auto_config_url := ""; http_host := ""; http_port := None;
     https_host := ""; https_port := None |}.

Definition set_flags (l : DhcpLocals) (f : Z) : DhcpLocals :=
  {| flags := f; auto_config_url := auto_config_url l;
     http_host := http_host l; http_port := http_port l;
     https_host := https_host l; https_port := https_port l |}.

Definition set_auto_config_url (l : DhcpLocals) (u : string) : DhcpLocals :=
  {| flags := flags l; auto_config_url := u;
     http_host := http_host l; http_port := http_port l;
     https_host := https_host l; https_port := https_port l |}.

Definition set_http_host (l : DhcpLocals) (h : string) : DhcpLocals :=
  {| flags := flags l; auto_config_url := auto_config_url l;
     http_host := h; http_port := http_port l;
     https_host := https_host l; https_port := https_port l |}.

Definition set_http_port (l : DhcpLocals) (p : Z) : DhcpLocals :=
  {| flags := flags l; auto_config_url := auto_config_url l;
     http_host := http_host l; http_port := Some p;
     https_host := https_host l; https_port := https_port l |}.

Definition set_https_host (l : DhcpLocals) (h : string) : DhcpLocals :=
  {| flags := flags l; auto_config_url := auto_config_url l;
     http_host := http_host l; http_port := http_port l;
     https_host := h; https_port := https_port l |}.

Definition set_https_port (l : DhcpLocals) (p : Z) : DhcpLocals :=
  {| flags := flags l; auto_config_url := auto_config_url l;
     http_host := http_host l; http_port := http_port l;
     https_host := https_host l; https_port := Some p |}.

Definition string_empty (s : string) : bool :=
  match s with EmptyString => true | _ => false end.

Section Engine.

Context {ext : Externals}.

(** [TunBuilderBase* tb], the first argument of every function below. *)
Variable tb : TunBuilderBase.

(** A call [tb->method(args)]: the builder answers, the trace grows. *)
Definition call (c : BuilderCall) : M World bool :=
  fun w => let r := tb (calls w) c in
           (Ok r, set_calls w (calls w ++ [(c, r)])).

(** *** Accessors of [Option] and [IP::Addr] used by the code *)

(** Modelled from the spec: [o.get(index, max_len)], the token at
    [index], an error when it is absent or not acceptable. *)
Definition Option_get (o : Option) (index max_len : nat) : result string :=
  match nth_error o index with
  | Some s => if arg_ok s max_len then Ok s
              else Err (external_error "Option::get: validation")
  | None => Err (external_error "Option::get: missing argument")
  end.

(** Modelled from the spec: [o.get_optional(index, max_len)], the empty
    string for an absent token. *)
Definition Option_get_optional (o : Option) (index max_len : nat)
  : result string :=
  match nth_error o index with
  | Some s => if arg_ok s max_len then Ok s
              else Err (external_error "Option::get_optional: validation")
  | None => Ok ""
  end.

Definition Addr_from_string (s : string) : result IP.Addr :=
  match addr_from_string s with
  | Some a => Ok a
  | None => Err (external_error "IP::Addr::from_string")
  end.

Definition AddrMaskPair_from_string2 (s1 s2 : string)
  : result IP.AddrMaskPair :=
  match pair_from_string2 s1 s2 with
  | Some p => Ok p
  | None => Err (external_error "IP::AddrMaskPair::from_string")
  end.

Definition AddrMaskPair_from_string (s : string) : result IP.AddrMaskPair :=
  match pair_from_string s with
  | Some p => Ok p
  | None => Err (external_error "IP::AddrMaskPair::from_string")
  end.

(** [IP::Addr::prefix_len()]: the IPv4 one is that of [ipv4.hpp]. *)
Definition Addr_prefix_len (a : IP.Addr) : result Z :=
  match a with
  | IP.addr_v4 x => IPv4.prefix_len x
  | IP.addr_v6 x => ipv6_prefix_len x
  end.

Definition is_v6 (a : IP.Addr) : bool :=
  IP.Version_eqb (IP.version a) IP.V6.

(** *** [route_gateway] *)
Definition route_gateway (opt : OptionList) : M World string :=
  match get_ptr opt "route-gateway" with
  | Some o =>
      s <- lift (Option_get o 1 256) ;;
      gateway <- lift (Addr_from_string s) ;;
      if negb (IP.Version_eqb (IP.version gateway) IP.V4)
      then throw (tun_prop_error "route-gateway is not IPv4 (IPv6 route-gateway is passed with ifconfig-ipv6 directive)")
      else ret (addr_to_string gateway)
  | None => ret ""
  end.

(** *** [tun_ifconfig] *)

(** The block "get topology". *)
Definition tun_ifconfig_topology (opt : OptionList) : M World Topology :=
  match get_ptr opt "topology" with
  | Some o =>
      topstr <- lift (Option_get o 1 16) ;;
      if String.eqb topstr "subnet" then ret SUBNET
      else if String.eqb topstr "net30" then ret NET30
      else throw (option_error "only topology 'subnet' and 'net30' supported")
  | None => ret NET30
  end.

(** The netmask of the net30 branch, [IP::Addr::from_string
    ("255.255.255.252")]. *)
Definition net30_netmask : IP.Addr :=
  IP.addr_v4 (IPv4.from_uint32 0xFFFFFFFC).

(** The first two statements of the net30 branch: [remote] is parsed
    from token 2, then [local] from token 1; the result is
    [(local, remote)]. *)
Definition net30_addresses (o : Option) : result (IP.Addr * IP.Addr) :=
  rbind (Option_get o 2 256) (fun rs =>
  rbind (Addr_from_string rs) (fun remote =>
  rbind (Option_get o 1 256) (fun ls =>
  rbind (Addr_from_string ls) (fun local =>
  Ok (local, remote))))).

(** The block of the [ifconfig] directive; returns [ip_ver_flags].  The
    arguments of a builder call are evaluated from left to right here
    (C++ leaves the order open; it only decides which of two exceptions
    is seen).  The last [else] of the source ("internal topology error")
    has no counterpart: [Topology] has two values. *)
Definition tun_ifconfig_ipv4 (opt : OptionList) (top : Topology) : M World Z :=
  match get_ptr opt "ifconfig" with
  | Some o =>
      match top with
      | SUBNET =>
          s1 <- lift (Option_get o 1 256) ;;
          s2 <- lift (Option_get_optional o 2 256) ;;
          pair <- lift (AddrMaskPair_from_string2 s1 s2) ;;
          if negb (IP.Version_eqb (IP.pair_version pair) IP.V4)
          then throw (tun_prop_error "ifconfig address is not IPv4 (topology subnet)")
          else
            p <- lift (Addr_prefix_len (IP.netmask pair)) ;;
            gw <- route_gateway opt ;;
            ok <- call (tun_builder_add_address
                          (addr_to_string (IP.addr pair)) p gw false false) ;;
            if negb ok
            then throw (tun_prop_error "tun_builder_add_address IPv4 failed (topology subnet)")
            else
              store_vpn_ip4_addr (IP.addr pair) ;;;
              ret (Z.lor 0 IP.V4_MASK)
      | NET30 =>
          lr <- lift (net30_addresses o) ;;
          let remote := snd lr in
          let local := fst lr in
          let netmask := net30_netmask in
          if negb (IP.Version_eqb (IP.version local) IP.V4)
             || negb (IP.Version_eqb (IP.version remote) IP.V4)
          then throw (tun_prop_error "ifconfig address is not IPv4 (topology net30)")
          else
            ln <- lift (IP.bit_and local netmask) ;;
            rn <- lift (IP.bit_and remote netmask) ;;
            if negb (IP.eqb ln rn)
            then throw (tun_prop_error "ifconfig addresses are not in the same /30 subnet (topology net30)")
            else
              p <- lift (Addr_prefix_len netmask) ;;
              ok <- call (tun_builder_add_address
                            (addr_to_string local) p
                            (addr_to_string remote) false true) ;;
              if negb ok
              then throw (tun_prop_error "tun_builder_add_address IPv4 failed (topology net30)")
              else
                store_vpn_ip4_addr local ;;;
                ret (Z.lor 0 IP.V4_MASK)
      end
  | None => ret 0
  end.

(** The block of the [ifconfig-ipv6] directive and the final check, given
    the flags set so far. *)
Definition tun_ifconfig_ipv6 (opt : OptionList) (ip_ver_flags : Z) : M World Z :=
  f <- match get_ptr opt "ifconfig-ipv6" with
       | Some o =>
           s <- lift (Option_get o 1 256) ;;
           pair <- lift (AddrMaskPair_from_string s) ;;
           if negb (IP.Version_eqb (IP.pair_version pair) IP.V6)
           then throw (tun_prop_error "ifconfig-ipv6 address is not IPv6")
           else
             gateway_str <-
               (if Nat.leb 3 (Option_size o)
                then
                  gs <- lift (Option_get o 2 256) ;;
                  gateway <- lift (Addr_from_string gs) ;;
                  if negb (IP.Version_eqb (IP.version gateway) IP.V6)
                  then throw (tun_prop_error "ifconfig-ipv6 gateway is not IPv6")
                  else ret (addr_to_string gateway)
                else ret "") ;;
             p <- lift (Addr_prefix_len (IP.netmask pair)) ;;
             ok <- call (tun_builder_add_address
                           (addr_to_string (IP.addr pair)) p gateway_str
                           true false) ;;
             if negb ok
             then throw (tun_prop_error "tun_builder_add_address IPv6 failed")
             else
               store_vpn_ip6_addr (IP.addr pair) ;;;
               ret (Z.lor ip_ver_flags IP.V6_MASK)
       | None => ret ip_ver_flags
       end ;;
  if f =? 0
  then throw (tun_prop_error "one of ifconfig or ifconfig-ipv6 must be specified")
  else ret f.

Definition tun_ifconfig (opt : OptionList) : M World Z :=
  top <- tun_ifconfig_topology opt ;;
  ip_ver_flags <- tun_ifconfig_ipv4 opt top ;;
  tun_ifconfig_ipv6 opt ip_ver_flags.

(** *** [add_exclude_route]; [eer] is [true] for a non-null pointer *)
Definition add_exclude_route (add : bool) (addr : IP.Addr)
           (prefix_length : Z) (ipv6 : bool) (eer : bool) : M World unit :=
  let addr_str := addr_to_string addr in
  (if add then
     ok <- call (tun_builder_add_route addr_str prefix_length ipv6) ;;
     if negb ok then throw (tun_prop_route_error "tun_builder_add_route failed")
     else ret tt
   else if negb eer then
     ok <- call (tun_builder_exclude_route addr_str prefix_length ipv6) ;;
     if negb ok then throw (tun_prop_route_error "tun_builder_exclude_route failed")
     else ret tt
   else ret tt) ;;;
  if eer then eer_add_route add addr prefix_length else ret tt.

(** *** [route_target] *)
Definition route_target (o : Option) (target_index : nat) : result bool :=
  if Nat.leb (target_index + 1) (Option_size o) then
    let target := Option_ref o target_index in
    if String.eqb target "vpn_gateway" then Ok true
    else if String.eqb target "net_gateway" then Ok false
    else Err (tun_prop_route_error "route destinations other than vpn_gateway or net_gateway are not supported")
  else Ok true.

(** *** [add_routes] *)

(** [IP::AddrMaskPair::from_string(o.get(1, 256), o.get_optional(2, 256),
    "route")] *)
Definition route_ipv4_pair (o : Option) : result IP.AddrMaskPair :=
  rbind (Option_get o 1 256) (fun s1 =>
  rbind (Option_get_optional o 2 256) (fun s2 =>
  AddrMaskPair_from_string2 s1 s2)).

(** [IP::AddrMaskPair::from_string(o.get(1, 256), "route-ipv6")] *)
Definition route_ipv6_pair (o : Option) : result IP.AddrMaskPair :=
  rbind (Option_get o 1 256) AddrMaskPair_from_string.

(** The [try] block of the IPv4 loop. *)
Definition add_routes_ipv4_try (o : Option) (ipv : IPVerFlags) (eer : bool)
  : M World unit :=
  pair <- lift (route_ipv4_pair o) ;;
  canonical <- lift (IP.is_canonical pair) ;;
  if negb canonical then throw (tun_prop_error "route is not canonical")
  else if negb (IP.Version_eqb (IP.pair_version pair) IP.V4)
  then throw (tun_prop_error "route is not IPv4")
  else
    add <- lift (route_target o 3) ;;
    if negb (rgv4 ipv) || negb add then
      p <- lift (Addr_prefix_len (IP.netmask pair)) ;;
      add_exclude_route add (IP.addr pair) p false eer
    else ret tt.

(** One iteration of the IPv4 loop: the [try] block and its [catch]. *)
Definition add_routes_ipv4_iter (ipv : IPVerFlags) (eer quiet : bool)
           (o : Option) : M World unit :=
  try_catch (add_routes_ipv4_try o ipv eer)
            (fun e => when (negb quiet) (OPENVPN_LOG (log_ipv4_route_error o e))).

(** The [try] block of the IPv6 loop. *)
Definition add_routes_ipv6_try (o : Option) (ipv : IPVerFlags) (eer : bool)
  : M World unit :=
  pair <- lift (route_ipv6_pair o) ;;
  canonical <- lift (IP.is_canonical pair) ;;
  if negb canonical then throw (tun_prop_error "route is not canonical")
  else if negb (IP.Version_eqb (IP.pair_version pair) IP.V6)
  then throw (tun_prop_error "route is not IPv6")
  else
    add <- lift (route_target o 2) ;;
    if negb (rgv6 ipv) || negb add then
      p <- lift (Addr_prefix_len (IP.netmask pair)) ;;
      add_exclude_route add (IP.addr pair) p true eer
    else ret tt.

Definition add_routes_ipv6_iter (ipv : IPVerFlags) (eer quiet : bool)
           (o : Option) : M World unit :=
  try_catch (add_routes_ipv6_try o ipv eer)
            (fun e => when (negb quiet) (OPENVPN_LOG (log_ipv6_route_error o e))).

Definition add_routes (opt : OptionList) (server_addr : IP.Addr)
           (ipv : IPVerFlags) (eer quiet : bool) : M World unit :=
  when (v4 ipv)
       match OptionList_find opt "route" with
       | Some dopt => for_each dopt (add_routes_ipv4_iter ipv eer quiet)
       | None => ret tt
       end ;;;
  when (v6 ipv)
       match OptionList_find opt "route-ipv6" with
       | Some dopt => for_each dopt (add_routes_ipv6_iter ipv eer quiet)
       | None => ret tt
       end.

(** *** [add_remote_bypass_routes]; [addrlist] is the cached address list *)

(** One iteration of the loop. *)
Definition add_remote_bypass_routes_iter (server_addr : IP.Addr)
           (eer quiet : bool) (addr : IP.Addr) : M World unit :=
  when (negb (IP.eqb addr server_addr))
       (try_catch
          (let ver := IP.version addr in
           add_exclude_route false addr (IP.version_size ver)
                             (IP.Version_eqb ver IP.V6) eer)
          (fun e => when (negb quiet)
                         (OPENVPN_LOG (log_remote_bypass_error addr e)))).

Definition add_remote_bypass_routes (addrlist : list IP.Addr)
           (server_addr : IP.Addr) (eer quiet : bool) : M World unit :=
  for_each addrlist (add_remote_bypass_routes_iter server_addr eer quiet).

(** *** [add_dhcp_options]

    The loop runs on the local variables and the world together: what a
    [try] block assigned before it threw stays assigned. *)

Definition DhcpM : Type -> Type := M (DhcpLocals * World).

Definition update_locals (f : DhcpLocals -> DhcpLocals) : DhcpM unit :=
  modify (fun lw => (f (fst lw), snd lw)).

(** The two nested loops of [DOMAIN] and [PROXY_BYPASS]: every
    space-separated word of every argument from index 2 on goes to the
    builder; [mk] is the builder method, [msg] the error message. *)
Definition dhcp_forward_words (o : Option) (mk : string -> BuilderCall)
           (msg : string) : DhcpM unit :=
  for_each (seq 2 (Option_size o - 2))
    (fun j =>
       s <- lift (Option_get o j 256) ;;
       for_each (by_space s)
         (fun vk =>
            ok <- zoom (call (mk vk)) ;;
            if negb ok then throw (tun_prop_dhcp_option_error msg)
            else ret tt)).

(** The [try] block of the loop. *)
Definition add_dhcp_options_try (o : Option) (quiet : bool) : DhcpM unit :=
  type <- lift (Option_get o 1 64) ;;
  if String.eqb type "DNS" then
    lift (exact_args o 3) ;;;
    s <- lift (Option_get o 2 256) ;;
    ip <- lift (Addr_from_string s) ;;
    ok <- zoom (call (tun_builder_add_dns_server (addr_to_string ip) (is_v6 ip))) ;;
    if negb ok
    then throw (tun_prop_dhcp_option_error "tun_builder_add_dns_server failed")
    else update_locals (fun l => set_flags l (Z.lor (flags l) F_ADD_DNS))
  else if String.eqb type "DOMAIN" then
    lift (min_args o 3) ;;;
    dhcp_forward_words o tun_builder_add_search_domain
                       "tun_builder_add_search_domain failed"
  else if String.eqb type "PROXY_BYPASS" then
    lift (min_args o 3) ;;;
    dhcp_forward_words o tun_builder_add_proxy_bypass
                       "tun_builder_add_proxy_bypass"
  else if String.eqb type "PROXY_AUTO_CONFIG_URL" then
    lift (exact_args o 3) ;;;
    s <- lift (Option_get o 2 256) ;;
    update_locals (fun l => set_auto_config_url l s)
  else if String.eqb type "PROXY_HTTP" then
    lift (exact_args o 4) ;;;
    h <- lift (Option_get o 2 256) ;;
    update_locals (fun l => set_http_host l h) ;;;
    ps <- lift (Option_get o 3 256) ;;
    match validate_port ps with
    | Some p => update_locals (fun l => set_http_port l p)
    | None => throw (external_error "HostPort::validate_port PROXY_HTTP")
    end
  else if String.eqb type "PROXY_HTTPS" then
    lift (exact_args o 4) ;;;
    h <- lift (Option_get o 2 256) ;;
    update_locals (fun l => set_https_host l h) ;;;
    ps <- lift (Option_get o 3 256) ;;
    match validate_port ps with
    | Some p => update_locals (fun l => set_https_port l p)
    | None => throw (external_error "HostPort::validate_port PROXY_HTTPS")
    end
  else if String.eqb type "WINS" then
    lift (exact_args o 3) ;;;
    s <- lift (Option_get o 2 256) ;;
    ip <- lift (Addr_from_string s) ;;
    if negb (IP.Version_eqb (IP.version ip) IP.V4)
    then throw (tun_prop_dhcp_option_error "WINS addresses must be IPv4")
    else
      ok <- zoom (call (tun_builder_add_wins_server (addr_to_string ip))) ;;
      if negb ok
      then throw (tun_prop_dhcp_option_error "tun_builder_add_wins_server failed")
      else ret tt
  else when (negb quiet) (zoom (OPENVPN_LOG (log_unknown_dhcp_option o))).

(** One iteration of the loop: the [try] block and its [catch]. *)
Definition add_dhcp_options_iter (quiet : bool) (o : Option) : DhcpM unit :=
  try_catch (add_dhcp_options_try o quiet)
            (fun e => when (negb quiet)
                           (zoom (OPENVPN_LOG (log_dhcp_option_error o e)))).

(** The [try] block after the loop, which applies the proxy settings. *)
Definition add_dhcp_options_proxy_try : DhcpM unit :=
  l <- gets fst ;;
  when (negb (string_empty (http_host l)))
       (ok <- zoom (call (tun_builder_set_proxy_http (http_host l) (http_port l))) ;;
        if negb ok
        then throw (tun_prop_dhcp_option_error "tun_builder_set_proxy_http")
        else ret tt) ;;;
  when (negb (string_empty (https_host l)))
       (ok <- zoom (call (tun_builder_set_proxy_https (https_host l) (https_port l))) ;;
        if negb ok
        then throw (tun_prop_dhcp_option_error "tun_builder_set_proxy_https")
        else ret tt) ;;;
  when (negb (string_empty (auto_config_url l)))
       (ok <- zoom (call (tun_builder_set_proxy_auto_config_url (auto_config_url l))) ;;
        if negb ok
        then throw (tun_prop_dhcp_option_error "tun_builder_set_proxy_auto_config_url")
        else ret tt).

(** The body of [add_dhcp_options] on its local variables. *)
Definition add_dhcp_options_body (dopt : list Option) (quiet : bool)
  : DhcpM unit :=
  for_each dopt (add_dhcp_options_iter quiet) ;;;
  try_catch add_dhcp_options_proxy_try
            (fun e => when (negb quiet) (zoom (OPENVPN_LOG (log_proxy_error e)))).

(** Returns [flags]; the other local variables end with the call. *)
Definition add_dhcp_options (opt : OptionList) (quiet : bool) : M World Z :=
  match OptionList_find opt "dhcp-option" with
  | Some dopt =>
      fun w =>
        match add_dhcp_options_body dopt quiet (dhcp_locals_init, w) with
        | (Ok _, (l, w')) => (Ok (flags l), w')
        | (Err e, (_, w')) => (Err e, w')
        end
  | None => ret 0
  end.

(** *** [add_google_dns]; [||] does not evaluate its right operand when
    the left one is true *)
Definition add_google_dns : M World unit :=
  ok1 <- call (tun_builder_add_dns_server "8.8.8.8" false) ;;
  if negb ok1
  then throw (tun_prop_dhcp_option_error "tun_builder_add_dns_server failed for Google DNS")
  else
    ok2 <- call (tun_builder_add_dns_server "8.8.4.4" false) ;;
    if negb ok2
    then throw (tun_prop_dhcp_option_error "tun_builder_add_dns_server failed for Google DNS")
    else ret tt.

(** *** [configure_builder]

    [stats] and [eer_factory] are [true] for non-null pointers; the
    caller's [State] is in the world.  The function is cut in two at the
    comment "Block IPv6?": [configure_builder_head] is what comes before
    it and returns [ipv] and [dhcp_option_flags], which the rest reads;
    [configure_builder_tail] is the rest, its last three blocks being
    [configure_builder_settings]. *)

(** Modelled from the spec: the emulator "performs its own translation
    into one or more add calls"; a refused call is an error of the
    emulator. *)
Definition eer_run_emulate (ipv : IPVerFlags) (server_addr : IP.Addr)
  : M World unit :=
  routes <- gets eer_routes ;;
  when (eer_enabled routes ipv)
       (for_each (eer_emulate routes ipv server_addr)
          (fun r =>
             ok <- call (tun_builder_add_route (addr_to_string (fst r))
                                               (snd r) (is_v6 (fst r))) ;;
             if negb ok
             then throw (external_error "EmulateExcludeRoute::emulate")
             else ret tt)).

(** The block "add remote bypass routes". *)
Definition configure_remote_bypass (config : Config) (server_addr : IP.Addr)
           (eer quiet : bool) : M World unit :=
  match remote_list config with
  | Some addrlist =>
      when (remote_bypass config)
           (add_remote_bypass_routes addrlist server_addr eer quiet)
  | None => ret tt
  end.

Definition configure_builder_head (server_addr : IP.Addr) (config : Config)
           (opt : OptionList) (eer_factory quiet : bool)
  : M World (IPVerFlags * Z) :=
  (* if eer_factory is defined, we must emulate exclude routes *)
  let eer := eer_factory in
  when eer_factory (modify (fun w => set_eer_routes w [])) ;;;
  (* do ifconfig *)
  ip_ver_flags <- tun_ifconfig opt ;;
  (* get IP version and redirect-gateway flags *)
  let ipv := IPVerFlags_new opt ip_ver_flags in
  (* add remote bypass routes *)
  configure_remote_bypass config server_addr eer quiet ;;;
  (* add routes *)
  add_routes opt server_addr ipv eer quiet ;;;
  (* emulate exclude routes *)
  when eer (eer_run_emulate ipv server_addr) ;;;
  (* configure redirect-gateway *)
  ok <- call (tun_builder_reroute_gw (rgv4 ipv) (rgv6 ipv) (api_flags ipv)) ;;
  if negb ok
  then throw (tun_prop_route_error "tun_builder_reroute_gw for redirect-gateway failed")
  else
    (* add DNS servers and domain prefixes *)
    dhcp_option_flags <- add_dhcp_options opt quiet ;;
    ret (ipv, dhcp_option_flags).

(** The block "DNS fallback". *)
Definition dns_fallback (stats : bool) (config : Config) (ipv : IPVerFlags)
           (dhcp_option_flags : Z) (quiet : bool) : M World unit :=
  when (rgv4 ipv && (Z.land dhcp_option_flags F_ADD_DNS =? 0))
       (if google_dns_fallback config then
          when (negb quiet) (OPENVPN_LOG log_google_dns_fallback) ;;;
          add_google_dns
        else when stats (stats_error REROUTE_GW_NO_DNS)).

(** The blocks "set remote server address", "set MTU" and "set session
    name". *)
Definition configure_builder_settings (server_addr : IP.Addr)
           (config : Config) : M World unit :=
  (* set remote server address *)
  ok <- call (tun_builder_set_remote_address (addr_to_string server_addr)
                                             (is_v6 server_addr)) ;;
  if negb ok then throw (tun_prop_error "tun_builder_set_remote_address failed")
  else
    (* set MTU *)
    when (negb (mtu config =? 0))
         (ok <- call (tun_builder_set_mtu (mtu config)) ;;
          if negb ok then throw (tun_prop_error "tun_builder_set_mtu failed")
          else ret tt) ;;;
    (* set session name *)
    when (negb (string_empty (session_name config)))
         (ok <- call (tun_builder_set_session_name (session_name config)) ;;
          if negb ok
          then throw (tun_prop_error "tun_builder_set_session_name failed")
          else ret tt).

Definition configure_builder_tail (stats : bool) (server_addr : IP.Addr)
           (config : Config) (opt : OptionList) (quiet : bool)
           (ipv : IPVerFlags) (dhcp_option_flags : Z) : M World unit :=
  (* Block IPv6? *)
  call (tun_builder_set_block_ipv6 (OptionList_exists opt "block-ipv6")) ;;;
  (* DNS fallback *)
  dns_fallback stats config ipv dhcp_option_flags quiet ;;;
  configure_builder_settings server_addr config.

Definition configure_builder (stats : bool) (server_addr : IP.Addr)
           (config : Config) (opt : OptionList) (eer_factory quiet : bool)
  : M World unit :=
  r <- configure_builder_head server_addr config opt eer_factory quiet ;;
  configure_builder_tail stats server_addr config opt quiet (fst r) (snd r).

(** *** [search_domains_exist]

    The loop returns [true] at the first directive whose type is
    [DOMAIN]; a directive whose type cannot be read is logged and passed
    over. *)
Fixpoint search_domains_exist_loop (dopt : list Option) (quiet : bool)
  : M World bool :=
  match dopt with
  | [] => ret false
  | o :: rest =>
      found <- try_catch
                 (type <- lift (Option_get o 1 64) ;;
                  ret (String.eqb type "DOMAIN"))
                 (fun e =>
                    when (negb quiet)
                         (OPENVPN_LOG (log_dhcp_option_error o e)) ;;;
                    ret false) ;;
      if found then ret true else search_domains_exist_loop rest quiet
  end.

Definition search_domains_exist (opt : OptionList) (quiet : bool)
  : M World bool :=
  match OptionList_find opt "dhcp-option" with
  | Some dopt => search_domains_exist_loop dopt quiet
  | None => ret false
  end.

(** [configure_builder] up to the comment "configure redirect-gateway":
    the address assignment and the routes; returns [ipv]. *)
Definition configure_builder_routes (server_addr : IP.Addr) (config : Config)
           (opt : OptionList) (eer_factory quiet : bool)
  : M World IPVerFlags :=
  let eer := eer_factory in
  when eer_factory (modify (fun w => set_eer_routes w [])) ;;;
  ip_ver_flags <- tun_ifconfig opt ;;
  let ipv := IPVerFlags_new opt ip_ver_flags in
  configure_remote_bypass config server_addr eer quiet ;;;
  add_routes opt server_addr ipv eer quiet ;;;
  when eer (eer_run_emulate ipv server_addr) ;;;
  ret ipv.

End Engine.

End TunProp.

(** ** Relations between the world before and after a computation *)

(** [m] takes every store to one that is [R]-related to it, whether it
    returns or throws. *)
Definition preserves {S A} (R : S -> S -> Prop) (m : M S A) : Prop :=
  forall s, R s (snd (m s)).

(** A relation on worlds, seen on the stores of [add_dhcp_options]. *)
Definition on_world {L} (R : TunProp.World -> TunProp.World -> Prop)
  : L * TunProp.World -> L * TunProp.World -> Prop :=
  fun a b => R (snd a) (snd b).

(** The builder trace only grew, and by calls that satisfy [P]. *)
Definition trace_extends (P : BuilderCall -> bool) (w w' : TunProp.World) : Prop :=
  exists d, TunProp.calls w' = TunProp.calls w ++ d
            /\ forallb (fun cr => P (fst cr)) d = true.

(** Nothing was reported to the statistics sink. *)
Definition same_stats (w w' : TunProp.World) : Prop :=
  TunProp.stats_errors w' = TunProp.stats_errors w.

Definition is_exclude_route (c : BuilderCall) : bool :=
  match c with tun_builder_exclude_route _ _ _ => true | _ => false end.

Definition not_exclude_route (c : BuilderCall) : bool :=
  negb (is_exclude_route c).

Definition is_add_dns_server (c : BuilderCall) : bool :=
  match c with tun_builder_add_dns_server _ _ => true | _ => false end.

Definition is_set_block_ipv6 (c : BuilderCall) : bool :=
  match c with tun_builder_set_block_ipv6 _ => true | _ => false end.

Definition is_set_remote_address (c : BuilderCall) : bool :=
  match c with tun_builder_set_remote_address _ _ => true | _ => false end.

(** The two calls of [add_google_dns] and the error it throws. *)
Definition google1 : BuilderCall := tun_builder_add_dns_server "8.8.8.8" false.
Definition google2 : BuilderCall := tun_builder_add_dns_server "8.8.4.4" false.
Definition google_error : exn :=
  tun_prop_dhcp_option_error "tun_builder_add_dns_server failed for Google DNS".

(** A DNS server that the builder accepted. *)
Definition dns_accepted (cr : BuilderCall * bool) : bool :=
  is_add_dns_server (fst cr) && snd cr.

(** [dhcp_option_flags & F_ADD_DNS] is not zero. *)
Definition has_F_ADD_DNS (flags : Z) : bool :=
  negb (Z.land flags TunProp.F_ADD_DNS =? 0).

(** The relation kept by the loop of [add_dhcp_options]: the trace grew by
    calls that satisfy [P], and [F_ADD_DNS] is set at the end exactly when
    it was set before or the builder accepted a DNS server in between. *)
Definition dns_flag_tracks (P : BuilderCall -> bool)
           (a b : TunProp.DhcpLocals * TunProp.World) : Prop :=
  exists d, TunProp.calls (snd b) = TunProp.calls (snd a) ++ d
            /\ forallb (fun cr => P (fst cr)) d = true
            /\ has_F_ADD_DNS (TunProp.flags (fst b)) =
               has_F_ADD_DNS (TunProp.flags (fst a)) || existsb dns_accepted d.

(** A computation on the world whose result carries the DHCP option flags:
    [F_ADD_DNS] is set in them exactly when the builder accepted a DNS server
    among the calls [d] that the computation made. *)
Definition tracks_dns_flag {A} (proj : A -> Z) (m : M TunProp.World A) : Prop :=
  forall w, exists d,
    TunProp.calls (snd (m w)) = TunProp.calls w ++ d
    /\ forall a, fst (m w) = Ok a ->
                 has_F_ADD_DNS (proj a) = existsb dns_accepted d.

Definition not_add_dns_server (c : BuilderCall) : bool :=
  negb (is_add_dns_server c).

(** Unfolds the monad's operations, so that a computation applied to a world
    reduces to the world it ends in. *)
Ltac unfold_monad :=
  unfold bind, ret, throw, try_catch, lift, when, gets, modify, zoom,
         TunProp.OPENVPN_LOG, TunProp.eer_add_route, TunProp.stats_error,
         TunProp.call in *.

(** ** Relations between two runs *)

(** [m1] and [m2] started from [R]-related stores end with the same result
    and in [R]-related stores. *)
Definition sim {S A} (R : S -> S -> Prop) (m1 m2 : M S A) : Prop :=
  forall s s', R s s' ->
    fst (m1 s) = fst (m2 s') /\ R (snd (m1 s)) (snd (m2 s')).

(** The same local variables, and worlds that agree on everything but the
    log. *)
Definition same_effects_dhcp
           (a b : TunProp.DhcpLocals * TunProp.World) : Prop :=
  fst a = fst b /\ TunProp.same_effects (snd a) (snd b).

(** ** What a computation leaves alone *)

(** The part [proj] of the world was not changed. *)
Definition keeps {A} (proj : TunProp.World -> A) (w w' : TunProp.World) : Prop :=
  proj w' = proj w.

(** The caller's state is still absent, or still present with the same
    interface name and prefix flag. *)
Definition same_state_frame (w w' : TunProp.World) : Prop :=
  match TunProp.state w, TunProp.state w' with
  | None, None => True
  | Some s, Some s' =>
      TunProp.iface_name s' = TunProp.iface_name s
      /\ TunProp.tun_prefix s' = TunProp.tun_prefix s
  | _, _ => False
  end.

Definition is_add_address (c : BuilderCall) : bool :=
  match c with tun_builder_add_address _ _ _ _ _ => true | _ => false end.

Definition is_route_call (c : BuilderCall) : bool :=
  match c with
  | tun_builder_add_route _ _ _ | tun_builder_exclude_route _ _ _ => true
  | _ => false
  end.

Definition is_reroute_gw (c : BuilderCall) : bool :=
  match c with tun_builder_reroute_gw _ _ _ => true | _ => false end.

(** The calls of [add_dhcp_options]. *)
Definition is_dhcp_call (c : BuilderCall) : bool :=
  match c with
  | tun_builder_add_dns_server _ _ | tun_builder_add_wins_server _
  | tun_builder_add_search_domain _ | tun_builder_add_proxy_bypass _
  | tun_builder_set_proxy_http _ _ | tun_builder_set_proxy_https _ _
  | tun_builder_set_proxy_auto_config_url _ => true
  | _ => false
  end.

(** The calls of the end of [configure_builder], from "Block IPv6?" on. *)
Definition is_final_call (c : BuilderCall) : bool :=
  match c with
  | tun_builder_set_block_ipv6 _ | tun_builder_add_dns_server _ _
  | tun_builder_set_remote_address _ _ | tun_builder_set_mtu _
  | tun_builder_set_session_name _ => true
  | _ => false
  end.

(** A [tun_builder_add_address] call for the given family. *)
Definition is_add_address_for (v6 : bool) (c : BuilderCall) : bool :=
  match c with
  | tun_builder_add_address _ _ _ ipv6 _ => Bool.eqb ipv6 v6
  | _ => false
  end.

(** The worlds [tun_ifconfig] can leave, field by field: after an accepted
    [tun_builder_add_address] call for the address [a], which is then written
    to the caller's state (when there is one), and after a refused call. *)
Definition add_address_call {ext : Externals} (v6 : bool) (a : IP.Addr)
           (p : Z) (gw : string) (net30 : bool) : BuilderCall :=
  tun_builder_add_address (addr_to_string a) p gw v6 net30.

Definition assigned {ext : Externals} (v6 : bool) (a : IP.Addr) (p : Z)
           (gw : string) (net30 : bool) (w : TunProp.World) : TunProp.World :=
  {| TunProp.calls :=
       TunProp.calls w ++ [(add_address_call v6 a p gw net30, true)];
     TunProp.eer_routes := TunProp.eer_routes w;
     TunProp.state :=
       match TunProp.state w with
       | Some st =>
           Some {| TunProp.iface_name := TunProp.iface_name st;
                   TunProp.vpn_ip4_addr :=
                     if v6 then TunProp.vpn_ip4_addr st else Some a;
                   TunProp.vpn_ip6_addr :=
                     if v6 then Some a else TunProp.vpn_ip6_addr st;
                   TunProp.tun_prefix := TunProp.tun_prefix st |}
       | None => None
       end;
     TunProp.stats_errors := TunProp.stats_errors w;
     TunProp.log := TunProp.log w |}.

Definition refused {ext : Externals} (v6 : bool) (a : IP.Addr) (p : Z)
           (gw : string) (net30 : bool) (w : TunProp.World) : TunProp.World :=
  {| TunProp.calls :=
       TunProp.calls w ++ [(add_address_call v6 a p gw net30, false)];
     TunProp.eer_routes := TunProp.eer_routes w;
     TunProp.state := TunProp.state w;
     TunProp.stats_errors := TunProp.stats_errors w;
     TunProp.log := TunProp.log w |}.

(** The two values the flags of [add_dhcp_options] can have. *)
Definition flags_small (f : Z) : Prop := f = 0 \/ f = TunProp.F_ADD_DNS.

Definition keeps_flags_small (a b : TunProp.DhcpLocals * TunProp.World) : Prop :=
  flags_small (TunProp.flags (fst a)) -> flags_small (TunProp.flags (fst b)).

(** Builder calls made one after the other, up to the first one that the
    builder refuses: the trace they leave, and whether all were accepted. *)
Fixpoint run_calls (tb : TunBuilderBase) (tr : Trace) (cs : list BuilderCall)
  : Trace * bool :=
  match cs with
  | [] => (tr, true)
  | c :: rest =>
      if tb tr c then run_calls tb (tr ++ [(c, true)]) rest
      else (tr ++ [(c, false)], false)
  end.

(** The calls that the proxy settings left by the loop of
    [add_dhcp_options] stand for. *)
Definition proxy_calls (l : TunProp.DhcpLocals) : list BuilderCall :=
  (if TunProp.string_empty (TunProp.http_host l) then []
   else [tun_builder_set_proxy_http (TunProp.http_host l) (TunProp.http_port l)])
  ++ (if TunProp.string_empty (TunProp.https_host l) then []
      else [tun_builder_set_proxy_https (TunProp.https_host l)
                                        (TunProp.https_port l)])
  ++ (if TunProp.string_empty (TunProp.auto_config_url l) then []
      else [tun_builder_set_proxy_auto_config_url (TunProp.auto_config_url l)]).

Definition is_add_route (c : BuilderCall) : bool :=
  match c with tun_builder_add_route _ _ _ => true | _ => false end.

(** What a relation [R] on worlds has to allow for a configuration pass to
    keep it: every builder call, a log line unless in quiet mode, a change
    of the emulator's routes when there is an emulator, and a report to the
    statistics sink when there is one. *)
Definition frame_ok (tb : TunBuilderBase)
           (R : TunProp.World -> TunProp.World -> Prop)
           (eer quiet stats : bool) : Prop :=
  (forall c, preserves R (TunProp.call tb c))
  /\ (quiet = false -> forall l, preserves R (TunProp.OPENVPN_LOG l))
  /\ (eer = true -> forall add a p, preserves R (TunProp.eer_add_route add a p))
  /\ (eer = true ->
      preserves R (modify (fun w => TunProp.set_eer_routes w [])))
  /\ (stats = true -> forall e, preserves R (TunProp.stats_error e)).

(** What follows the route calls in the trace of a pass: nothing; or the
    [tun_builder_reroute_gw] call, followed, when it was accepted, by the
    calls [d4] and [d5] of the later stages. *)
Definition after_routes (d3 d4 d5 : Trace) : Prop :=
  match d3 with
  | [] => d4 = [] /\ d5 = []
  | [(c, r)] => is_reroute_gw c = true /\ (r = false -> d4 = [] /\ d5 = [])
  | _ => False
  end.

Definition all_calls (P : BuilderCall -> bool) (d : Trace) : Prop :=
  forallb (fun cr => P (fst cr)) d = true.

(** A [dhcp-option] directive whose type can be read and is [DOMAIN]. *)
Definition is_domain_option {ext : Externals} (o : Option) : bool :=
  match TunProp.Option_get o 1 64 with
  | Ok type => String.eqb type "DOMAIN"
  | Err _ => false
  end.

(** The name of the builder method of a proxy setting, which is the text of
    the error thrown when the builder refuses it. *)
Definition proxy_call_name (c : BuilderCall) : string :=
  match c with
  | tun_builder_set_proxy_http _ _ => "tun_builder_set_proxy_http"
  | tun_builder_set_proxy_https _ _ => "tun_builder_set_proxy_https"
  | tun_builder_set_proxy_auto_config_url _ =>
      "tun_builder_set_proxy_auto_config_url"
  | _ => ""
  end.

(** The last call of a trace. *)
Definition last_call (tr : Trace) : BuilderCall :=
  fst (last tr (tun_builder_set_block_ipv6 false, false)).

(** The words that a [DOMAIN] or [PROXY_BYPASS] option carries: the
    space-separated words of its tokens from index 2 on. *)
Definition dhcp_words {ext : Externals} (o : Option) : list string :=
  flat_map by_space (skipn 2 o).

(** The world [w'] is [w] with the calls [d] added to the trace, the routes
    [rs] to the emulator and the lines [ls] to the log, and nothing else
    changed. *)
Definition leaves (w w' : TunProp.World) (d : Trace)
           (rs : list EerRoute) (ls : list LogLine) : Prop :=
  TunProp.calls w' = TunProp.calls w ++ d
  /\ TunProp.eer_routes w' = TunProp.eer_routes w ++ rs
  /\ TunProp.state w' = TunProp.state w
  /\ TunProp.stats_errors w' = TunProp.stats_errors w
  /\ TunProp.log w' = TunProp.log w ++ ls.

(** ** A reference implementation of the collaborators

    A small, executable implementation of [Externals], used to run the
    engine on concrete directive lists.  It reads and writes IPv4 addresses
    in dotted-decimal form, writes IPv6 addresses in the shortened form of
    [inet_ntop], accepts an address/netmask pair as two addresses or as
    [address/prefix], and takes the last occurrence of a directive for
    [get_ptr]. *)

Module Reference.

Definition digit_of (c : ascii) : option Z :=
  let n := Z.of_nat (nat_of_ascii c) in
  if (48 <=? n) && (n <=? 57) then Some (n - 48) else None.

Fixpoint parse_digits (s : string) (acc : Z) : option Z :=
  match s with
  | EmptyString => Some acc
  | String c s' =>
      match digit_of c with
      | Some d => parse_digits s' (10 * acc + d)
      | None => None
      end
  end.

(** A non-empty string of at most [max_len] decimal digits. *)
Definition parse_number (s : string) (max_len : nat) : option Z :=
  match s with
  | EmptyString => None
  | _ => if Nat.leb (String.length s) max_len then parse_digits s 0 else None
  end.

Fixpoint split_on (sep : ascii) (s : string) : list string :=
  match s with
  | EmptyString => [EmptyString]
  | String c s' =>
      if Ascii.eqb c sep then EmptyString :: split_on sep s'
      else match split_on sep s' with
           | h :: t => String c h :: t
           | [] => [String c EmptyString]
           end
  end.

(** One part of a dotted address, as [inet_pton] reads it: one to three
    digits, at most 255, with no zero in front of another digit. *)
Definition octet (s : string) : option Z :=
  match s with
  | String "0" (String _ _) => None
  | _ =>
      match parse_number s 3 with
      | Some n => if n <=? 255 then Some n else None
      | None => None
      end
  end.

Definition ipv4_from_string (s : string) : option IPv4.Addr :=
  match split_on "."%char s with
  | [a; b; c; d] =>
      match octet a, octet b, octet c, octet d with
      | Some a, Some b, Some c, Some d =>
          Some (IPv4.from_uint32 (Z.lor (Z.shiftl a 24)
                                 (Z.lor (Z.shiftl b 16) (Z.lor (Z.shiftl c 8) d))))
      | _, _, _, _ => None
      end
  | _ => None
  end.

Definition dec (z : Z) : string :=
  DecimalString.NilZero.string_of_uint (N.to_uint (Z.to_N z)).

Definition hex (z : Z) : string :=
  HexadecimalString.NilZero.string_of_uint (N.to_hex_uint (Z.to_N z)).

Definition ipv4_to_string (a : IPv4.Addr) : string :=
  let v := IPv4.u_addr a in
  dec (Z.land (Z.shiftr v 24) 255) ++ "." ++ dec (Z.land (Z.shiftr v 16) 255)
  ++ "." ++ dec (Z.land (Z.shiftr v 8) 255) ++ "." ++ dec (Z.land v 255).

(** The eight 16-bit groups of a 128-bit address, first group first. *)
Definition ipv6_words (v : Z) : list Z :=
  map (fun i => Z.land (Z.shiftr v (16 * (7 - Z.of_nat i))) 0xFFFF) (seq 0 8).

(** The text of a V6 address as [inet_ntop] writes it (which is what
    [address_v6::to_string] gives for a zero scope id): lower-case
    hexadecimal groups without leading zeros, the first longest run of two
    or more zero groups written as [::], and the last 32 bits in dotted
    form after six zero groups, or after five of them and [ffff]. *)
Definition longer_run (cur best : option (nat * nat)) : option (nat * nat) :=
  match cur, best with
  | Some (_, l), Some (_, bl) => if Nat.ltb bl l then cur else best
  | Some _, None => cur
  | None, _ => best
  end.

(** [(base, len)] of the first longest run of zero groups. *)
Fixpoint zero_run_scan (ws : list Z) (i : nat) (cur best : option (nat * nat))
  : option (nat * nat) :=
  match ws with
  | [] => longer_run cur best
  | x :: ws' =>
      if x =? 0
      then zero_run_scan ws' (S i)
             (match cur with
              | None => Some (i, 1%nat)
              | Some (b, l) => Some (b, S l)
              end) best
      else zero_run_scan ws' (S i) None (longer_run cur best)
  end.

Definition zero_run (ws : list Z) : option (nat * nat) :=
  match zero_run_scan ws 0 None None with
  | Some (b, l) => if Nat.leb 2 l then Some (b, l) else None
  | None => None
  end.

Definition in_run (best : option (nat * nat)) (i : nat) : bool :=
  match best with
  | Some (b, l) => Nat.leb b i && Nat.ltb i (b + l)
  | None => false
  end.

(** The last 32 bits are written in dotted form. *)
Definition ends_dotted (ws : list Z) (best : option (nat * nat)) : bool :=
  match best with
  | Some (O, l) =>
      Nat.eqb l 6 || (Nat.eqb l 5 && (nth 5 ws 0 =? 0xFFFF))
  | _ => false
  end.

Definition dotted_of_words (hi lo : Z) : string :=
  dec (Z.shiftr hi 8) ++ "." ++ dec (Z.land hi 255) ++ "."
  ++ dec (Z.shiftr lo 8) ++ "." ++ dec (Z.land lo 255).

Fixpoint ipv6_render (all ws : list Z) (i : nat) (best : option (nat * nat))
  : string :=
  match ws with
  | [] => ""
  | x :: ws' =>
      if in_run best i
      then (if Nat.eqb i (match best with Some (b, _) => b | None => 0%nat end)
            then ":" else "") ++ ipv6_render all ws' (S i) best
      else (if Nat.eqb i 0 then "" else ":")
           ++ (if Nat.eqb i 6 && ends_dotted all best
               then dotted_of_words x (nth 7 all 0)
               else hex x ++ ipv6_render all ws' (S i) best)
  end.

Definition ipv6_to_string (v : Z) : string :=
  let ws := ipv6_words v in
  let best := zero_run ws in
  ipv6_render ws ws 0 best
  ++ (match best with
      | Some (b, l) => if Nat.eqb (b + l) 8 then ":" else ""
      | None => ""
      end).

Definition addr_from_string (s : string) : option IP.Addr :=
  option_map IP.addr_v4 (ipv4_from_string s).

Definition addr_to_string (a : IP.Addr) : string :=
  match a with
  | IP.addr_v4 x => ipv4_to_string x
  | IP.addr_v6 x => ipv6_to_string x
  end.

Definition pair_of (a : option IP.Addr) (m : option IPv4.Addr)
  : option IP.AddrMaskPair :=
  match a, m with
  | Some a, Some m => Some {| IP.addr := a; IP.netmask := IP.addr_v4 m |}
  | _, _ => None
  end.

Definition netmask_of_prefix (s : string) : option IPv4.Addr :=
  match parse_number s 3 with
  | Some p => match IPv4.netmask_from_prefix_len p with
              | Ok m => Some m
              | Err _ => None
              end
  | None => None
  end.

Definition pair_from_string (s : string) : option IP.AddrMaskPair :=
  match split_on "/"%char s with
  | [a] => pair_of (addr_from_string a) (Some IPv4.from_zero_complement)
  | [a; p] => pair_of (addr_from_string a) (netmask_of_prefix p)
  | _ => None
  end.

Definition pair_from_string2 (s1 s2 : string) : option IP.AddrMaskPair :=
  match s2 with
  | EmptyString => pair_from_string s1
  | _ => pair_of (addr_from_string s1) (ipv4_from_string s2)
  end.

(** The 128-bit twin of [IPv4::Addr::prefix_len]: "binary search over
    candidate prefix lengths (5 iterations suffice for 32 bits, 7 for
    128)". *)
Fixpoint ipv6_prefix_len_search (i : nat) (addr high low : Z) : result Z :=
  match i with
  | O => Err (external_error "ipv6_malformed_netmask")
  | S i' =>
      let mid := (high + low) / 2 in
      let test := 2 ^ 128 - 2 ^ (128 - mid) in
      if addr =? test then Ok mid
      else if addr >? test then ipv6_prefix_len_search i' addr high mid
      else ipv6_prefix_len_search i' addr mid low
  end.

Definition ipv6_prefix_len (addr : Z) : result Z :=
  if addr =? 2 ^ 128 - 1 then Ok 128
  else ipv6_prefix_len_search 7 addr 128 1.

(** A TCP port: at most five digits, from 1 to 65535. *)
Definition validate_port (s : string) : option Z :=
  match parse_number s 5 with
  | Some n => if (1 <=? n) && (n <=? 65535) then Some n else None
  | None => None
  end.

Definition by_space (s : string) : list string :=
  filter (fun w => negb (TunProp.string_empty w)) (split_on " "%char s).

Definition get_ptr (opt : OptionList) (name : string) : option Option :=
  last (map Some (filter (Option_name_is name) opt)) None.

(** Redirect-gateway is requested by the presence of the directive, for
    the IPv4 family when it is configured. *)
Definition IPVerFlags_new (opt : OptionList) (ip_ver_flags : Z) : IPVerFlags :=
  let has4 := negb (Z.land ip_ver_flags IP.V4_MASK =? 0) in
  let has6 := negb (Z.land ip_ver_flags IP.V6_MASK =? 0) in
  {| v4 := has4; v6 := has6;
     rgv4 := has4 && OptionList_exists opt "redirect-gateway";
     rgv6 := false; api_flags := 0 |}.

(** An emulator that records and never asks for its translation. *)
Definition externals : Externals :=
  Build_Externals
    (fun s max_len => Nat.leb (String.length s) max_len)
    get_ptr addr_from_string addr_to_string pair_from_string2
    pair_from_string ipv6_prefix_len validate_port by_space IPVerFlags_new
    (fun _ _ => false) (fun _ _ _ => []).

(** Builders: one that accepts every call, and one that refuses the calls
    a predicate selects. *)
Definition accept_all : TunBuilderBase := fun _ _ => true.

Definition refuse (p : BuilderCall -> bool) : TunBuilderBase :=
  fun _ c => negb (p c).

Definition empty_state : TunProp.State :=
  {| TunProp.iface_name := ""; TunProp.vpn_ip4_addr := None;
     TunProp.vpn_ip6_addr := None; TunProp.tun_prefix := false |}.

(** The world before a pass: nothing called, recorded or logged yet, and a
    fresh [State] supplied by the caller. *)
Definition world0 : TunProp.World :=
  {| TunProp.calls := []; TunProp.eer_routes := [];
     TunProp.state := Some empty_state;
     TunProp.stats_errors := []; TunProp.log := [] |}.

Definition config0 : TunProp.Config :=
  {| TunProp.session_name := ""; TunProp.mtu := 0;
     TunProp.google_dns_fallback := false;
     TunProp.remote_list := None; TunProp.remote_bypass := false |}.

End Reference.

(** ** The reference implementation, with IPv6 text

    [Reference] reads IPv4 text only.  This one also reads the text of an
    IPv6 address, with an optional [/prefix]. *)

Module Reference6.

Definition hex_digit_of (c : ascii) : option Z :=
  let n := Z.of_nat (nat_of_ascii c) in
  if (48 <=? n) && (n <=? 57) then Some (n - 48)
  else if (97 <=? n) && (n <=? 102) then Some (n - 87)
  else if (65 <=? n) && (n <=? 70) then Some (n - 55)
  else None.

Fixpoint parse_hex_digits (s : string) (acc : Z) : option Z :=
  match s with
  | EmptyString => Some acc
  | String c s' =>
      match hex_digit_of c with
      | Some d => parse_hex_digits s' (16 * acc + d)
      | None => None
      end
  end.

(** One to four hexadecimal digits. *)
Definition group (s : string) : option Z :=
  match s with
  | EmptyString => None
  | _ => if Nat.leb (String.length s) 4 then parse_hex_digits s 0 else None
  end.

Definition has_dot (s : string) : bool :=
  existsb (Ascii.eqb "."%char) (list_ascii_of_string s).

(** The groups of a colon-separated text; the last part may be a dotted
    IPv4 address, which stands for two groups. *)
Fixpoint groups_of_tokens (l : list string) : option (list Z) :=
  match l with
  | [] => Some []
  | [t] =>
      if has_dot t
      then match Reference.ipv4_from_string t with
           | Some a => Some [Z.shiftr (IPv4.u_addr a) 16;
                             Z.land (IPv4.u_addr a) 0xFFFF]
           | None => None
           end
      else option_map (fun v => [v]) (group t)
  | t :: l' =>
      match group t, groups_of_tokens l' with
      | Some v, Some vs => Some (v :: vs)
      | _, _ => None
      end
  end.

Definition groups_of (s : string) : option (list Z) :=
  match s with
  | EmptyString => Some []
  | _ => groups_of_tokens (Reference.split_on ":"%char s)
  end.

(** The text before and after the first [::]. *)
Fixpoint split_gap (s : string) : option (string * string) :=
  match s with
  | EmptyString => None
  | String c s' =>
      match c, s' with
      | ":"%char, String ":"%char rest => Some (EmptyString, rest)
      | _, _ =>
          match split_gap s' with
          | Some (l, r) => Some (String c l, r)
          | None => None
          end
      end
  end.

Definition join_words (ws : list Z) : Z :=
  fold_left (fun acc x => Z.lor (Z.shiftl acc 16) x) ws 0.

(** The text of a V6 address as [inet_pton] reads it: eight groups, or
    fewer with one [::] standing for the missing zero groups, the last 32
    bits possibly in dotted form.  A scope id is not read. *)
Definition ipv6_from_string (s : string) : option Z :=
  match split_gap s with
  | None =>
      match groups_of s with
      | Some ws => if Nat.eqb (List.length ws) 8 then Some (join_words ws)
                   else None
      | None => None
      end
  | Some (l, r) =>
      if has_dot l then None
      else
        match groups_of l, groups_of r with
        | Some lw, Some rw =>
            let n := (List.length lw + List.length rw)%nat in
            if Nat.leb n 7
            then Some (join_words (lw ++ repeat 0 (8 - n) ++ rw))
            else None
        | _, _ => None
        end
  end.

Definition addr_from_string (s : string) : option IP.Addr :=
  match Reference.addr_from_string s with
  | Some a => Some a
  | None => option_map IP.addr_v6 (ipv6_from_string s)
  end.

Definition ipv6_netmask_of_prefix (s : string) : option Z :=
  match Reference.parse_number s 3 with
  | Some p => if (1 <=? p) && (p <=? 128)
              then Some (2 ^ 128 - 2 ^ (128 - p)) else None
  | None => None
  end.

Definition pair_from_string (s : string) : option IP.AddrMaskPair :=
  match Reference.pair_from_string s with
  | Some p => Some p
  | None =>
      match Reference.split_on "/"%char s with
      | [a] =>
          option_map (fun v => {| IP.addr := IP.addr_v6 v;
                                  IP.netmask := IP.addr_v6 (2 ^ 128 - 1) |})
                     (ipv6_from_string a)
      | [a; p] =>
          match ipv6_from_string a, ipv6_netmask_of_prefix p with
          | Some v, Some m => Some {| IP.addr := IP.addr_v6 v;
                                      IP.netmask := IP.addr_v6 m |}
          | _, _ => None
          end
      | _ => None
      end
  end.

Definition pair_from_string2 (s1 s2 : string) : option IP.AddrMaskPair :=
  match s2 with
  | EmptyString => pair_from_string s1
  | _ => Reference.pair_from_string2 s1 s2
  end.

(** Both families can be redirected: [redirect-gateway] for V4 as in
    [Reference], and a directive [redirect-gateway-ipv6] for V6. *)
Definition IPVerFlags_new (opt : OptionList) (ip_ver_flags : Z) : IPVerFlags :=
  let has4 := negb (Z.land ip_ver_flags IP.V4_MASK =? 0) in
  let has6 := negb (Z.land ip_ver_flags IP.V6_MASK =? 0) in
  {| v4 := has4; v6 := has6;
     rgv4 := has4 && OptionList_exists opt "redirect-gateway";
     rgv6 := has6 && OptionList_exists opt "redirect-gateway-ipv6";
     api_flags := 0 |}.

Definition externals : Externals :=
  Build_Externals
    (fun s max_len => Nat.leb (String.length s) max_len)
    Reference.get_ptr addr_from_string Reference.addr_to_string
    pair_from_string2 pair_from_string Reference.ipv6_prefix_len
    Reference.validate_port Reference.by_space IPVerFlags_new
    (fun _ _ => false) (fun _ _ _ => []).

End Reference6.
(** *** The netmask table, for reference *)

Example netmask_8 : IPv4.prefix_len_to_netmask_unchecked 8 = 0xFF000000.
Proof. reflexivity. Qed.

Example netmask_1 : IPv4.prefix_len_to_netmask_unchecked 1 = 0x80000000.
Proof. reflexivity. Qed.

Example netmask_32 : IPv4.prefix_len_to_netmask_unchecked 32 = 0xFFFFFFFF.
Proof. reflexivity. Qed.

Example prefix_len_30 : IPv4.prefix_len (IPv4.from_uint32 0xFFFFFFFC) = Ok 30.
Proof. reflexivity. Qed.

(** ** Properties of the IPv4 netmask arithmetic *)

Lemma Z_range_cases_1_32 (p : Z) :
  1 <= p <= 32 ->
  In p (map Z.of_nat (seq 1 32)).
Proof.
  intros H.
  replace p with (Z.of_nat (Z.to_nat p)) by lia.
  apply in_map, in_seq. lia.
Qed.

(** The search only ever answers with a length whose netmask is the address
    it was given: an induction on the number of iterations left, keeping the
    bounds of the search interval. *)
Lemma prefix_len_search_exact (i : nat) :
  forall addr high low p,
    1 <= low -> low <= high -> high <= 32 ->
    IPv4.prefix_len_search i addr high low = Ok p ->
    1 <= p <= 32 /\ addr = IPv4.prefix_len_to_netmask_unchecked p.
Proof.
  induction i as [|i IH]; intros addr high low p Hl Hlh Hh; simpl.
  - discriminate.
  - assert (Hmid : low <= (high + low) / 2 <= high).
    { split.
      - apply Z.div_le_lower_bound; lia.
      - apply Z.div_le_upper_bound; lia. }
    destruct (addr =? _) eqn:E.
    + intros [= <-]. apply Z.eqb_eq in E. split; [lia | exact E].
    + destruct (addr >? _).
      * intros H. apply (IH addr high ((high + low) / 2) p); auto; lia.
      * intros H. apply (IH addr ((high + low) / 2) low p); auto; lia.
Qed.

Lemma prefix_len_exact (a : IPv4.Addr) (p : Z) :
  IPv4.prefix_len a = Ok p ->
  1 <= p <= 32 /\ IPv4.u_addr a = IPv4.prefix_len_to_netmask_unchecked p.
Proof.
  unfold IPv4.prefix_len.
  destruct (IPv4.u_addr a =? _) eqn:E; cbn [negb].
  - intros [= <-]. apply Z.eqb_eq in E. split; [lia | rewrite E; reflexivity].
  - apply prefix_len_search_exact; lia.
Qed.

(** C5: for every prefix length [p] with [1 <= p <= 32],
    [netmask_from_prefix_len p] succeeds and [prefix_len] of that netmask is
    [p]. For [p <= 31] the answer comes from the 5-iteration binary search;
    the all-ones netmask ([p = 32]) is answered directly with 32 and is not
    covered by the search, which on its own fails on all-ones. *)
Theorem prefix_len_netmask_roundtrip (p : Z) :
  1 <= p <= 32 ->
  (exists m, IPv4.netmask_from_prefix_len p = Ok m /\ IPv4.prefix_len m = Ok p)
  /\ (p <= 31 ->
      IPv4.prefix_len_search 5 (IPv4.prefix_len_to_netmask_unchecked p) 32 1 = Ok p)
  /\ IPv4.netmask_from_prefix_len 32 = Ok (IPv4.from_uint32 0xFFFFFFFF)
  /\ IPv4.prefix_len (IPv4.from_uint32 0xFFFFFFFF) = Ok 32
  /\ IPv4.prefix_len_search 5 0xFFFFFFFF 32 1 = Err ipv4_malformed_netmask.
Proof.
  intros H. apply Z_range_cases_1_32 in H. simpl in H.
  repeat split.
  - exists (IPv4.from_uint32 (IPv4.prefix_len_to_netmask_unchecked p)).
    repeat (destruct H as [<- | H]; [split; vm_compute; reflexivity |]).
    contradiction.
  - intros Hp.
    repeat (destruct H as [<- | H];
            [first [vm_compute; reflexivity | exfalso; lia] |]).
    contradiction.
Qed.

Lemma prefix_len_netmask_roundtrip_witness :
  1 <= 24 <= 32 /\
  (exists m, IPv4.netmask_from_prefix_len 24 = Ok m /\ IPv4.prefix_len m = Ok 24).
Proof.
  split; [lia |].
  exact (proj1 (prefix_len_netmask_roundtrip (p := 24) ltac:(lia))).
Defined.

(** C6: [netmask_from_prefix_len] throws [ipv4_bad_prefix_len] for [p = 0]
    and for every [p > 32]; [prefix_len] throws [ipv4_malformed_netmask] for
    every value that is not the netmask of a length in [1..32], so a length
    it returns is never an approximation. *)
Theorem prefix_len_rejects_non_netmask :
  (forall p, p = 0 \/ 32 < p ->
     IPv4.netmask_from_prefix_len p = Err ipv4_bad_prefix_len)
  /\ (forall a,
        0 <= IPv4.u_addr a < 2 ^ 32 ->
        (forall p, 1 <= p <= 32 ->
                   IPv4.netmask_from_prefix_len p <> Ok a) ->
        IPv4.prefix_len a = Err ipv4_malformed_netmask).
Proof.
  split.
  - intros p Hp. unfold IPv4.netmask_from_prefix_len, IPv4.prefix_len_to_netmask.
    destruct (1 <=? p) eqn:E1; destruct (p <=? 32) eqn:E2; simpl; try reflexivity.
    apply Z.leb_le in E1, E2. lia.
  - intros a _ Hno.
    destruct (IPv4.prefix_len a) as [p | e] eqn:E.
    + exfalso. apply prefix_len_exact in E. destruct E as [Hp Ea].
      apply (Hno p Hp).
      unfold IPv4.netmask_from_prefix_len, IPv4.prefix_len_to_netmask.
      replace ((1 <=? p) && (p <=? 32)) with true
        by (symmetry; apply andb_true_iff; split; apply Z.leb_le; lia).
      destruct a as [v]. simpl in Ea. rewrite Ea. reflexivity.
    + revert E. unfold IPv4.prefix_len.
      destruct (negb _); [| discriminate].
      generalize (IPv4.u_addr a) 32 1. generalize 5%nat.
      induction n as [|n IH]; intros addr high low; simpl.
      * intros [= <-]. reflexivity.
      * destruct (addr =? _); [discriminate |].
        destruct (addr >? _); apply IH.
Qed.

Lemma prefix_len_rejects_non_netmask_witness :
  IPv4.netmask_from_prefix_len 0 = Err ipv4_bad_prefix_len
  /\ IPv4.netmask_from_prefix_len 33 = Err ipv4_bad_prefix_len
  /\ IPv4.prefix_len (IPv4.from_uint32 0xFFFFFFFA) = Err ipv4_malformed_netmask.
Proof.
  destruct prefix_len_rejects_non_netmask as [Hbad Hmal].
  split; [apply Hbad; lia |]. split; [apply Hbad; lia |].
  apply Hmal.
  - simpl. lia.
  - intros p Hp. apply Z_range_cases_1_32 in Hp. simpl in Hp.
    repeat (destruct Hp as [<- | Hp]; [vm_compute; discriminate |]).
    contradiction.
Defined.

(** ** Properties of [TunProp] *)

Import TunProp.

Lemma for_each_app {S A} (l1 l2 : list A) (body : A -> M S unit) (s : S) :
  for_each (l1 ++ l2) body s =
  match for_each l1 body s with
  | (Ok _, s') => for_each l2 body s'
  | (Err e, s') => (Err e, s')
  end.
Proof.
  revert s. induction l1 as [|x l1 IH]; intros s; simpl.
  - reflexivity.
  - unfold bind. destruct (body x s) as [[[] | e] s']; [apply IH | reflexivity].
Qed.

(** A loop whose body never throws never throws. *)
Lemma for_each_never_throws {S A} (l : list A) (body : A -> M S unit) :
  (forall x s, fst (body x s) = Ok tt) ->
  forall s, fst (for_each l body s) = Ok tt.
Proof.
  intros Hbody. induction l as [|x l IH]; intros s; simpl.
  - reflexivity.
  - unfold bind. specialize (Hbody x s).
    destruct (body x s) as [[[] | e] s']; simpl in Hbody; [apply IH | discriminate].
Qed.

Lemma bind_never_throws {S A} (m : M S A) (k : A -> M S unit) (s : S) :
  (forall s0, is_ok (fst (m s0)) = true) ->
  (forall a s0, fst (k a s0) = Ok tt) ->
  fst (bind m k s) = Ok tt.
Proof.
  intros Hm Hk. unfold bind. specialize (Hm s).
  destruct (m s) as [[a | e] s']; simpl in Hm; [apply Hk | discriminate].
Qed.

Lemma when_never_throws {S} (b : bool) (m : M S unit) (s : S) :
  (forall s0, fst (m s0) = Ok tt) ->
  fst (when b m s) = Ok tt.
Proof.
  intros Hm. unfold when. destruct b; [rewrite Hm |]; reflexivity.
Qed.

Lemma ok_tt_is_ok {S} (x : result unit * S) :
  fst x = Ok tt -> is_ok (fst x) = true.
Proof. intros ->. reflexivity. Qed.

Section Routes.

Context {ext : Externals}.
Variable tb : TunBuilderBase.


Section OneRoute.

Variables (o : Option) (ipv : IPVerFlags) (eer quiet : bool) (w : World).
Variables (pair : IP.AddrMaskPair) (p : Z).
Hypothesis Hparse : route_ipv4_pair o = Ok pair.
Hypothesis Hcanonical : IP.is_canonical pair = Ok true.
Hypothesis Hfamily : IP.pair_version pair = IP.V4.
Hypothesis Hprefix : Addr_prefix_len (IP.netmask pair) = Ok p.

Lemma ipv4_route_added :
  route_target o 3 = Ok true -> rgv4 ipv = false ->
  let c := tun_builder_add_route (addr_to_string (IP.addr pair)) p false in
  let r := tb (calls w) c in
  add_routes_ipv4_iter tb ipv eer quiet o w =
  (Ok tt,
   if r then (if eer then recorded true (IP.addr pair) p (called c r w)
              else called c r w)
   else logged quiet
          (log_ipv4_route_error o
             (tun_prop_route_error "tun_builder_add_route failed"))
          (called c r w)).
Proof.
  intros Ht Hrg.
  unfold add_routes_ipv4_iter, add_routes_ipv4_try, add_exclude_route.
  unfold_monad.
  rewrite Hparse, Hcanonical, Hfamily, Ht, Hrg, Hprefix. cbn.
  destruct (tb (calls w) _); cbn.
  - destruct eer; reflexivity.
  - unfold logged. destruct quiet; reflexivity.
Qed.

Lemma ipv4_route_excluded :
  route_target o 3 = Ok false ->
  let c := tun_builder_exclude_route (addr_to_string (IP.addr pair)) p false in
  let r := tb (calls w) c in
  add_routes_ipv4_iter tb ipv eer quiet o w =
  (Ok tt,
   if eer then recorded false (IP.addr pair) p w
   else if r then called c r w
   else logged quiet
          (log_ipv4_route_error o
             (tun_prop_route_error "tun_builder_exclude_route failed"))
          (called c r w)).
Proof.
  intros Ht.
  unfold add_routes_ipv4_iter, add_routes_ipv4_try, add_exclude_route.
  unfold_monad.
  rewrite Hparse, Hcanonical, Hfamily, Ht, Hprefix.
  rewrite orb_true_r. cbn.
  destruct eer; cbn; [reflexivity |].
  destruct (tb (calls w) _); cbn; [reflexivity |].
  unfold logged. destruct quiet; reflexivity.
Qed.



End OneRoute.

(** A [catch] that only logs leaves nothing thrown. *)
Lemma try_catch_log_never_throws {S} (body : M S unit) (b : bool)
      (logm : exn -> M S unit) (s : S) :
  (forall e s', fst (logm e s') = Ok tt) ->
  fst (try_catch body (fun e => when b (logm e)) s) = Ok tt.
Proof.
  intros Hlog. unfold try_catch.
  destruct (body s) as [[[] | e] s']; [reflexivity |].
  unfold when. destruct b; [apply Hlog | reflexivity].
Qed.

Lemma add_routes_ipv4_iter_never_throws ipv eer quiet o w :
  fst (add_routes_ipv4_iter tb ipv eer quiet o w) = Ok tt.
Proof. apply try_catch_log_never_throws. reflexivity. Qed.

Lemma add_routes_ipv6_iter_never_throws ipv eer quiet o w :
  fst (add_routes_ipv6_iter tb ipv eer quiet o w) = Ok tt.
Proof. apply try_catch_log_never_throws. reflexivity. Qed.

Lemma add_routes_never_throws opt server_addr ipv eer quiet w :
  fst (add_routes tb opt server_addr ipv eer quiet w) = Ok tt.
Proof.
  unfold add_routes.
  apply bind_never_throws; [intros w0; apply ok_tt_is_ok | intros _ w0];
    apply when_never_throws; intros w1.
  - destruct (OptionList_find opt "route"); [| reflexivity].
    apply for_each_never_throws. intros. apply add_routes_ipv4_iter_never_throws.
  - destruct (OptionList_find opt "route-ipv6"); [| reflexivity].
    apply for_each_never_throws. intros. apply add_routes_ipv6_iter_never_throws.
Qed.

(** A directive whose pair does not parse is logged and skipped. *)
Lemma ipv4_route_malformed ipv eer quiet o w e :
  route_ipv4_pair o = Err e ->
  add_routes_ipv4_iter tb ipv eer quiet o w =
  (Ok tt, logged quiet (log_ipv4_route_error o e) w).
Proof.
  intros H. unfold add_routes_ipv4_iter, add_routes_ipv4_try. unfold_monad.
  rewrite H. unfold logged. destruct quiet; reflexivity.
Qed.

(** So is one whose pair is not canonical (or cannot be tested)... *)
Lemma ipv4_route_not_canonical ipv eer quiet o w pair :
  route_ipv4_pair o = Ok pair ->
  IP.is_canonical pair <> Ok true ->
  exists e,
    (IP.is_canonical pair = Ok false ->
     e = tun_prop_error "route is not canonical")
    /\ add_routes_ipv4_iter tb ipv eer quiet o w =
       (Ok tt, logged quiet (log_ipv4_route_error o e) w).
Proof.
  intros H Hc. unfold add_routes_ipv4_iter, add_routes_ipv4_try. unfold_monad.
  rewrite H. destruct (IP.is_canonical pair) as [[|] | e]; [congruence | |].
  - eexists. split; [reflexivity |]. cbn. unfold logged. destruct quiet; reflexivity.
  - exists e. split; [discriminate |]. unfold logged. destruct quiet; reflexivity.
Qed.

(** ... and one of the wrong family. *)
Lemma ipv4_route_wrong_family ipv eer quiet o w pair :
  route_ipv4_pair o = Ok pair ->
  IP.is_canonical pair = Ok true ->
  IP.pair_version pair <> IP.V4 ->
  add_routes_ipv4_iter tb ipv eer quiet o w =
  (Ok tt, logged quiet
            (log_ipv4_route_error o (tun_prop_error "route is not IPv4")) w).
Proof.
  intros H Hc Hv. unfold add_routes_ipv4_iter, add_routes_ipv4_try. unfold_monad.
  rewrite H, Hc. destruct (IP.pair_version pair); [congruence |]. cbn.
  unfold logged. destruct quiet; reflexivity.
Qed.

(** What an iteration does to the builder, the emulator, the state and the
    statistics does not depend on the log. *)
Lemma add_routes_ipv4_iter_same_effects ipv eer quiet o w w' :
  same_effects w w' ->
  same_effects (snd (add_routes_ipv4_iter tb ipv eer quiet o w))
               (snd (add_routes_ipv4_iter tb ipv eer quiet o w')).
Proof.
  destruct w as [c e s st l], w' as [c' e' s' st' l'].
  intros (Hc & He & Hs & Hst). simpl in *. subst c' e' s' st'.
  unfold add_routes_ipv4_iter, add_routes_ipv4_try, add_exclude_route.
  unfold_monad.
  destruct (route_ipv4_pair o) as [pair | ex]; cbn;
    [| destruct quiet; repeat split].
  destruct (IP.is_canonical pair) as [[|] | ex]; cbn;
    try (destruct quiet; repeat split; fail).
  destruct (IP.Version_eqb (IP.pair_version pair) IP.V4); cbn;
    try (destruct quiet; repeat split; fail).
  destruct (route_target o 3) as [add | ex]; cbn;
    try (destruct quiet; repeat split; fail).
  destruct (negb (rgv4 ipv) || negb add); cbn; [| repeat split].
  destruct (Addr_prefix_len (IP.netmask pair)) as [p | ex]; cbn;
    try (destruct quiet; repeat split; fail).
  destruct add; cbn.
  - destruct (tb c _); cbn; destruct eer, quiet; repeat split.
  - destruct eer; cbn; [repeat split |].
    destruct (tb c _); cbn; destruct quiet; repeat split.
Qed.

Lemma for_each_ipv4_same_effects ipv eer quiet l :
  forall w w',
    same_effects w w' ->
    same_effects (snd (for_each l (add_routes_ipv4_iter tb ipv eer quiet) w))
                 (snd (for_each l (add_routes_ipv4_iter tb ipv eer quiet) w')).
Proof.
  induction l as [|o l IH]; intros w w' H; simpl.
  - exact H.
  - unfold bind.
    pose proof (add_routes_ipv4_iter_never_throws ipv eer quiet o w) as H1.
    pose proof (add_routes_ipv4_iter_never_throws ipv eer quiet o w') as H2.
    pose proof (add_routes_ipv4_iter_same_effects ipv eer quiet o H) as H3.
    destruct (add_routes_ipv4_iter tb ipv eer quiet o w) as [[[] | ?] w1];
      [| discriminate].
    destruct (add_routes_ipv4_iter tb ipv eer quiet o w') as [[[] | ?] w1'];
      [| discriminate].
    apply IH. exact H3.
Qed.

Lemma same_effects_logged quiet line w : same_effects (logged quiet line w) w.
Proof. unfold logged. destruct quiet; repeat split. Qed.

End Routes.

(** When no iteration throws, a loop over [l1 ++ x :: l2] runs [l2] from the
    world that [x] leaves after [l1]. *)
Lemma for_each_middle {S A} (body : A -> M S unit) (l1 l2 : list A) (x : A) (s : S) :
  (forall y s0, fst (body y s0) = Ok tt) ->
  for_each (l1 ++ x :: l2) body s =
  for_each l2 body (snd (body x (snd (for_each l1 body s)))).
Proof.
  intros Hbody. rewrite for_each_app.
  pose proof (for_each_never_throws l1 body Hbody s) as H1.
  destruct (for_each l1 body s) as [[[] | e] s1]; [| discriminate].
  simpl. unfold bind. specialize (Hbody x s1).
  destruct (body x s1) as [[[] | e] s2]; [reflexivity | discriminate].
Qed.





(** C7: an IPv4 route directive that is malformed, not canonical or of the
    wrong family is logged (unless quiet) and skipped; so is one whose builder
    call is refused.  The directives after it are still processed, with the
    same effects as if it were not there, and neither the loop nor
    [add_routes] ever throws. *)
Theorem bad_route_is_skipped {ext : Externals} (tb : TunBuilderBase)
        (ipv : IPVerFlags) (eer quiet : bool) (o : Option) :
  (exists e, route_ipv4_pair o = Err e)
  \/ (exists pair, route_ipv4_pair o = Ok pair
                   /\ (IP.is_canonical pair <> Ok true
                       \/ IP.pair_version pair <> IP.V4)) ->
  let iter := add_routes_ipv4_iter tb ipv eer quiet in
  (exists e, forall w,
      iter o w = (Ok tt, logged quiet (log_ipv4_route_error o e) w))
  /\ (forall l1 l2 w,
        fst (for_each (l1 ++ o :: l2) iter w) = Ok tt
        /\ same_effects (snd (for_each (l1 ++ o :: l2) iter w))
                        (snd (for_each (l1 ++ l2) iter w)))
  /\ (forall l1 l2 o' w,
        for_each (l1 ++ o' :: l2) iter w =
        for_each l2 iter (snd (iter o' (snd (for_each l1 iter w)))))
  /\ (forall opt server_addr w,
        fst (add_routes tb opt server_addr ipv eer quiet w) = Ok tt)
  /\ (forall o' pair p w,
        route_ipv4_pair o' = Ok pair ->
        IP.is_canonical pair = Ok true ->
        IP.pair_version pair = IP.V4 ->
        Addr_prefix_len (IP.netmask pair) = Ok p ->
        let a := addr_to_string (IP.addr pair) in
        (route_target o' 3 = Ok true -> rgv4 ipv = false ->
         tb (calls w) (tun_builder_add_route a p false) = false ->
         iter o' w =
         (Ok tt, logged quiet
                   (log_ipv4_route_error o'
                      (tun_prop_route_error "tun_builder_add_route failed"))
                   (called (tun_builder_add_route a p false) false w)))
        /\ (route_target o' 3 = Ok false -> eer = false ->
            tb (calls w) (tun_builder_exclude_route a p false) = false ->
            iter o' w =
            (Ok tt, logged quiet
                      (log_ipv4_route_error o'
                         (tun_prop_route_error "tun_builder_exclude_route failed"))
                      (called (tun_builder_exclude_route a p false) false w)))).
Proof.
  intros Hbad iter. subst iter.
  set (iter := add_routes_ipv4_iter tb ipv eer quiet) in *.
  assert (Hskip : exists e, forall w,
             iter o w = (Ok tt, logged quiet (log_ipv4_route_error o e) w)).
  { destruct Hbad as [[e He] | [pair [Hp [Hc | Hv]]]].
    - exists e. intros w. unfold iter. apply ipv4_route_malformed; exact He.
    - destruct (IP.is_canonical pair) as [[|] | e] eqn:E; [congruence | |].
      + exists (tun_prop_error "route is not canonical"). intros w.
        destruct (@ipv4_route_not_canonical _ tb ipv eer quiet o w pair Hp) as (e & He & Hrun).
        { rewrite E. discriminate. }
        unfold iter. rewrite Hrun, (He E). reflexivity.
      + exists e. intros w.
        unfold iter, add_routes_ipv4_iter, add_routes_ipv4_try. unfold_monad.
        rewrite Hp, E. unfold logged. destruct quiet; reflexivity.
    - destruct (IP.is_canonical pair) as [[|] | e] eqn:E.
      + eexists. intros w. unfold iter. eapply ipv4_route_wrong_family; eassumption.
      + exists (tun_prop_error "route is not canonical"). intros w.
        unfold iter, add_routes_ipv4_iter, add_routes_ipv4_try. unfold_monad.
        rewrite Hp, E. cbn. unfold logged. destruct quiet; reflexivity.
      + exists e. intros w.
        unfold iter, add_routes_ipv4_iter, add_routes_ipv4_try. unfold_monad.
        rewrite Hp, E. unfold logged. destruct quiet; reflexivity. }
  assert (Hnever : forall y s0, fst (iter y s0) = Ok tt)
    by (intros; apply add_routes_ipv4_iter_never_throws).
  split; [exact Hskip |]. split; [| split; [| split]].
  - intros l1 l2 w. split; [apply for_each_never_throws; exact Hnever |].
    rewrite (for_each_middle iter l1 l2 o w Hnever).
    destruct Hskip as [e He]. rewrite He. simpl.
    rewrite for_each_app.
    pose proof (for_each_never_throws l1 iter Hnever w) as H1.
    destruct (for_each l1 iter w) as [[[] | e1] w1]; [| discriminate]. simpl.
    apply for_each_ipv4_same_effects, same_effects_logged.
  - intros l1 l2 o' w. apply for_each_middle. exact Hnever.
  - intros. apply add_routes_never_throws.
  - intros o' pair p w Hp Hc Hv Hpl a. split.
    + intros Ht Hrg Hr. unfold iter.
      erewrite ipv4_route_added by eassumption.
      fold a. rewrite Hr. reflexivity.
    + intros Ht -> Hr. unfold iter.
      erewrite ipv4_route_excluded by eassumption.
      fold a. rewrite Hr. reflexivity.
Qed.

(** One malformed [route] between two valid ones: exactly two successful
    add-route calls, and the loop returns normally. *)
Lemma bad_route_is_skipped_witness :
  let ipv := {| v4 := true; v6 := false; rgv4 := false; rgv6 := false;
                api_flags := 0 |} in
  let iter := add_routes_ipv4_iter (ext := Reference.externals)
                Reference.accept_all ipv false false in
  let routes := [["route"; "10.1.0.0"; "255.255.0.0"];
                 ["route"; "10.300.0.0"; "255.255.0.0"];
                 ["route"; "10.2.0.0"; "255.255.0.0"]] in
  fst (for_each routes iter Reference.world0) = Ok tt
  /\ calls (snd (for_each routes iter Reference.world0)) =
     [(tun_builder_add_route "10.1.0.0" 16 false, true);
      (tun_builder_add_route "10.2.0.0" 16 false, true)].
Proof.
  intros ipv iter routes.
  destruct (@bad_route_is_skipped Reference.externals Reference.accept_all
              ipv false false ["route"; "10.300.0.0"; "255.255.0.0"]
              (or_introl (ex_intro _ _ eq_refl)))
    as (_ & Hrest & _).
  destruct (Hrest [["route"; "10.1.0.0"; "255.255.0.0"]]
                  [["route"; "10.2.0.0"; "255.255.0.0"]] Reference.world0)
    as [Hok [Hcalls _]].
  split; [exact Hok |].
  etransitivity; [exact Hcalls |]. vm_compute. reflexivity.
Defined.

(** ** Relations kept by every step of a computation *)

Section Preserves.

Context {S : Type} (R : S -> S -> Prop) {R_pre : PreOrder R}.

Lemma preserves_ret {A} (a : A) : preserves R (ret a).
Proof. intros s. simpl. reflexivity. Qed.

Lemma preserves_throw {A} (e : exn) : preserves R (@throw S A e).
Proof. intros s. simpl. reflexivity. Qed.

Lemma preserves_lift {A} (r : result A) : preserves R (lift r).
Proof. intros s. simpl. reflexivity. Qed.

Lemma preserves_gets {A} (f : S -> A) : preserves R (gets f).
Proof. intros s. simpl. reflexivity. Qed.

Lemma preserves_modify (f : S -> S) :
  (forall s, R s (f s)) -> preserves R (modify f).
Proof. intros H s. simpl. apply H. Qed.

Lemma preserves_bind {A B} (m : M S A) (k : A -> M S B) :
  preserves R m -> (forall a, preserves R (k a)) -> preserves R (bind m k).
Proof.
  intros Hm Hk s. unfold bind. specialize (Hm s).
  destruct (m s) as [[a | e] s']; simpl in *.
  - transitivity s'; [exact Hm | apply Hk].
  - exact Hm.
Qed.

Lemma preserves_try_catch {A} (body : M S A) (handler : exn -> M S A) :
  preserves R body -> (forall e, preserves R (handler e)) ->
  preserves R (try_catch body handler).
Proof.
  intros Hm Hk s. unfold try_catch. specialize (Hm s).
  destruct (body s) as [[a | e] s']; simpl in *.
  - exact Hm.
  - transitivity s'; [exact Hm | apply Hk].
Qed.

Lemma preserves_when (b : bool) (m : M S unit) :
  preserves R m -> preserves R (when b m).
Proof. intros Hm. unfold when. destruct b; [exact Hm | apply preserves_ret]. Qed.

Lemma preserves_for_each {A} (l : list A) (body : A -> M S unit) :
  (forall x, preserves R (body x)) -> preserves R (for_each l body).
Proof.
  intros Hbody. induction l as [|x l IH]; simpl.
  - apply preserves_ret.
  - apply preserves_bind; [apply Hbody | intros _; exact IH].
Qed.

End Preserves.

#[local] Instance trace_extends_PreOrder (P : BuilderCall -> bool) :
  PreOrder (trace_extends P).
Proof.
  split.
  - intros w. exists []. rewrite app_nil_r. split; reflexivity.
  - intros a b c (d1 & H1 & P1) (d2 & H2 & P2).
    exists (d1 ++ d2). rewrite H2, H1, app_assoc, forallb_app, P1, P2.
    split; reflexivity.
Qed.

#[local] Instance same_stats_PreOrder : PreOrder same_stats.
Proof.
  split.
  - intros w. reflexivity.
  - intros a b c H1 H2. unfold same_stats in *. congruence.
Qed.

#[local] Instance on_world_PreOrder {L} (R : World -> World -> Prop)
         {R_pre : PreOrder R} : PreOrder (@on_world L R).
Proof.
  split.
  - intros a. unfold on_world. reflexivity.
  - intros a b c H1 H2. unfold on_world in *. etransitivity; eassumption.
Qed.

#[local] Instance dns_flag_tracks_PreOrder (P : BuilderCall -> bool) :
  PreOrder (dns_flag_tracks P).
Proof.
  split.
  - intros a. exists []. rewrite app_nil_r, orb_false_r. repeat split.
  - intros a b c (d1 & H1 & P1 & F1) (d2 & H2 & P2 & F2).
    exists (d1 ++ d2).
    rewrite H2, H1, app_assoc, forallb_app, P1, P2, F2, F1, existsb_app, orb_assoc.
    repeat split.
Qed.

Lemma preserves_zoom {L} (R : World -> World -> Prop) {A} (m : M World A) :
  preserves R m -> preserves (@on_world L R) (zoom m).
Proof.
  intros Hm [l w]. unfold zoom, on_world. simpl. specialize (Hm w).
  destruct (m w) as [r w']. exact Hm.
Qed.

Section PreservesWorld.

Variable tb : TunBuilderBase.

Lemma trace_extends_call (P : BuilderCall -> bool) (c : BuilderCall) :
  P c = true -> preserves (trace_extends P) (call tb c).
Proof.
  intros HP w. unfold call. simpl.
  eexists. split; [reflexivity |]. simpl. rewrite HP. reflexivity.
Qed.

Lemma trace_extends_modify (P : BuilderCall -> bool) (f : World -> World) :
  (forall w, calls (f w) = calls w) -> preserves (trace_extends P) (modify f).
Proof.
  intros Hf. apply preserves_modify. intros w.
  exists []. rewrite app_nil_r, Hf. split; reflexivity.
Qed.

Lemma same_stats_call (c : BuilderCall) : preserves same_stats (call tb c).
Proof. intros w. reflexivity. Qed.

Lemma same_stats_modify (f : World -> World) :
  (forall w, stats_errors (f w) = stats_errors w) ->
  preserves same_stats (modify f).
Proof. intros Hf. apply preserves_modify. exact Hf. Qed.

(** In the loop of [add_dhcp_options]: a call that is not a DNS server, a
    change of the local variables that keeps [flags], and the whole of the
    [DNS] case, which sets the flag exactly when the builder accepted. *)
Lemma dns_flag_tracks_call (P : BuilderCall -> bool) (c : BuilderCall) :
  P c = true -> is_add_dns_server c = false ->
  preserves (dns_flag_tracks P) (zoom (call tb c)).
Proof.
  intros HP Hc [l w]. unfold zoom, call. simpl.
  eexists. split; [reflexivity |]. simpl.
  unfold dns_accepted. simpl. rewrite HP, Hc, orb_false_r. repeat split.
Qed.

Lemma dns_flag_tracks_zoom_modify (P : BuilderCall -> bool) (f : World -> World) :
  (forall w, calls (f w) = calls w) ->
  preserves (dns_flag_tracks P) (zoom (modify f)).
Proof.
  intros Hf [l w]. unfold zoom, modify, dns_flag_tracks. simpl.
  exists []. rewrite app_nil_r, Hf, orb_false_r. repeat split.
Qed.

Lemma dns_flag_tracks_update_locals (P : BuilderCall -> bool)
      (f : DhcpLocals -> DhcpLocals) :
  (forall l, flags (f l) = flags l) ->
  preserves (dns_flag_tracks P) (update_locals f).
Proof.
  intros Hf [l w]. unfold update_locals, modify, dns_flag_tracks. simpl.
  exists []. rewrite app_nil_r, Hf, orb_false_r. repeat split.
Qed.

Lemma has_F_ADD_DNS_set (f : Z) : has_F_ADD_DNS (Z.lor f F_ADD_DNS) = true.
Proof.
  unfold has_F_ADD_DNS, F_ADD_DNS. simpl Z.shiftl.
  apply negb_true_iff, Z.eqb_neq. intros H.
  apply (f_equal (fun x => Z.testbit x 0)) in H.
  rewrite Z.land_spec, Z.lor_spec in H. simpl in H.
  rewrite orb_true_r in H. discriminate.
Qed.

Lemma dns_flag_tracks_dns_case (P : BuilderCall -> bool) (a : string)
      (v : bool) (e : exn) :
  P (tun_builder_add_dns_server a v) = true ->
  preserves (dns_flag_tracks P)
    (ok <- zoom (call tb (tun_builder_add_dns_server a v)) ;;
     if negb ok then throw e
     else update_locals (fun l => set_flags l (Z.lor (flags l) F_ADD_DNS))).
Proof.
  intros HP [l w]. unfold bind, zoom, call, update_locals, modify, throw.
  simpl. destruct (tb (calls w) _) eqn:E; simpl.
  - eexists. split; [reflexivity |]. simpl. rewrite HP.
    unfold dns_accepted. simpl.
    rewrite has_F_ADD_DNS_set, orb_true_r. repeat split.
  - eexists. split; [reflexivity |]. simpl. rewrite HP.
    unfold dns_accepted. simpl. rewrite orb_false_r. repeat split.
Qed.

End PreservesWorld.

(** ** Invariants of a whole configuration pass *)

(** Takes a goal [preserves R m] apart along the structure of [m]; [leaf]
    proves it for the primitive computations. *)
Ltac preserves_step leaf :=
  first
    [ solve [apply preserves_ret; try exact _]
    | solve [apply preserves_throw; try exact _]
    | solve [apply preserves_lift; try exact _]
    | solve [apply preserves_gets; try exact _]
    | apply preserves_when; try exact _; []
    | apply preserves_for_each; try exact _; [intros]
    | apply preserves_try_catch; try exact _; [| intros]
    | leaf
    | apply preserves_bind; try exact _; [| intros]
    | progress cbn [negb]
    | match goal with
      | |- preserves _ (if ?b then _ else _) => destruct b
      | |- preserves _ (match ?x with _ => _ end) => destruct x
      end ].

Ltac preserves_tac leaf := repeat (preserves_step leaf).

Ltac unfold_engine :=
  unfold configure_builder, configure_builder_head, configure_builder_tail,
         configure_builder_settings,
         configure_remote_bypass, dns_fallback, add_google_dns,
         eer_run_emulate, tun_ifconfig, tun_ifconfig_topology,
         tun_ifconfig_ipv4, tun_ifconfig_ipv6, route_gateway,
         add_remote_bypass_routes, add_remote_bypass_routes_iter,
         add_routes, add_routes_ipv4_iter, add_routes_ipv4_try,
         add_routes_ipv6_iter, add_routes_ipv6_try, add_exclude_route,
         add_dhcp_options_body, add_dhcp_options_iter, add_dhcp_options_try,
         add_dhcp_options_proxy_try, dhcp_forward_words,
         OPENVPN_LOG, store_vpn_ip4_addr, store_vpn_ip6_addr, eer_add_route,
         stats_error.

Section PassInvariants.

Context {ext : Externals}.
Variable tb : TunBuilderBase.

(** [add_dhcp_options] keeps what its body keeps. *)
Lemma add_dhcp_options_preserves (R : World -> World -> Prop)
      {R_pre : PreOrder R} opt quiet :
  (forall dopt, preserves (on_world R) (add_dhcp_options_body tb dopt quiet)) ->
  preserves R (add_dhcp_options tb opt quiet).
Proof.
  intros Hbody. unfold add_dhcp_options.
  destruct (OptionList_find opt "dhcp-option") as [dopt |];
    [| apply preserves_ret; exact _].
  intros w. specialize (Hbody dopt (dhcp_locals_init, w)).
  unfold on_world in Hbody. simpl in Hbody.
  destruct (add_dhcp_options_body tb dopt quiet (dhcp_locals_init, w))
    as [[[] | e] [l w']]; exact Hbody.
Qed.

Lemma update_locals_preserves (R : World -> World -> Prop)
      {R_pre : PreOrder R} (f : DhcpLocals -> DhcpLocals) :
  preserves (on_world R) (update_locals f).
Proof.
  apply preserves_modify; try exact _. intros [l w]. unfold on_world. simpl.
  reflexivity.
Qed.

(** *** With an emulator, no [tun_builder_exclude_route] call *)

Ltac no_exclude_leaf :=
  first [ apply trace_extends_call; reflexivity
        | apply trace_extends_modify; reflexivity
        | apply preserves_zoom
        | solve [apply update_locals_preserves; try exact _]
        | apply preserves_modify; try exact _;
          intros; unfold on_world; simpl; reflexivity
        | apply add_dhcp_options_preserves; try exact _; [intros] ].

Lemma add_routes_no_exclude_route opt server_addr ipv quiet :
  preserves (trace_extends not_exclude_route)
            (add_routes tb opt server_addr ipv true quiet).
Proof.
  unfold_engine. preserves_tac no_exclude_leaf.
Qed.

Lemma configure_builder_no_exclude_route stats server_addr config opt quiet :
  preserves (trace_extends not_exclude_route)
            (configure_builder tb stats server_addr config opt true quiet).
Proof.
  unfold_engine. preserves_tac no_exclude_leaf.
Qed.

End PassInvariants.

(** ** Exclusions: the emulator and the remote bypass routes *)

Lemma IP_eqb_eq (a b : IP.Addr) : IP.eqb a b = true <-> a = b.
Proof.
  destruct a as [[x] | x], b as [[y] | y]; simpl; unfold IPv4.eqb; simpl;
    rewrite ?Z.eqb_eq; split; intros H; try discriminate; congruence.
Qed.

(** The prefix length of the host route of an address. *)
Lemma version_size_width (a : IP.Addr) :
  IP.version_size (IP.version a) =
  match a with IP.addr_v4 _ => 32 | IP.addr_v6 _ => 128 end.
Proof. destruct a; reflexivity. Qed.

Section Exclusions.

Context {ext : Externals}.
Variable tb : TunBuilderBase.

Lemma add_exclude_route_add addr p ipv6 eer w :
  let c := tun_builder_add_route (addr_to_string addr) p ipv6 in
  add_exclude_route tb true addr p ipv6 eer w =
  if tb (calls w) c
  then (Ok tt, if eer then recorded true addr p (called c true w)
               else called c true w)
  else (Err (tun_prop_route_error "tun_builder_add_route failed"),
        called c false w).
Proof.
  unfold add_exclude_route. unfold_monad. cbn.
  destruct (tb (calls w) _); cbn; [destruct eer |]; reflexivity.
Qed.

Lemma add_exclude_route_exclude addr p ipv6 eer w :
  let c := tun_builder_exclude_route (addr_to_string addr) p ipv6 in
  add_exclude_route tb false addr p ipv6 eer w =
  if eer then (Ok tt, recorded false addr p w)
  else if tb (calls w) c then (Ok tt, called c true w)
  else (Err (tun_prop_route_error "tun_builder_exclude_route failed"),
        called c false w).
Proof.
  unfold add_exclude_route. unfold_monad. cbn.
  destruct eer; cbn; [reflexivity |].
  destruct (tb (calls w) _); reflexivity.
Qed.

Lemma remote_bypass_iter_other server_addr eer quiet addr w :
  IP.eqb addr server_addr = false ->
  let width := IP.version_size (IP.version addr) in
  let c := tun_builder_exclude_route (addr_to_string addr) width (is_v6 addr) in
  add_remote_bypass_routes_iter tb server_addr eer quiet addr w =
  (Ok tt,
   if eer then recorded false addr width w
   else if tb (calls w) c then called c true w
   else logged quiet
          (log_remote_bypass_error addr
             (tun_prop_route_error "tun_builder_exclude_route failed"))
          (called c false w)).
Proof.
  intros Hne. unfold add_remote_bypass_routes_iter, when, try_catch.
  rewrite Hne. cbn [negb]. cbv zeta.
  pose proof (add_exclude_route_exclude addr (IP.version_size (IP.version addr))
                (IP.Version_eqb (IP.version addr) IP.V6) eer w) as Hx.
  cbv zeta in Hx. rewrite Hx.
  unfold is_v6. destruct eer; [reflexivity |].
  destruct (tb (calls w) _); [reflexivity |].
  unfold logged, when, OPENVPN_LOG, modify, ret. destruct quiet; reflexivity.
Qed.

Lemma remote_bypass_iter_never_throws server_addr eer quiet addr w :
  fst (add_remote_bypass_routes_iter tb server_addr eer quiet addr w) = Ok tt.
Proof.
  unfold add_remote_bypass_routes_iter.
  apply when_never_throws. intros w0.
  apply try_catch_log_never_throws. reflexivity.
Qed.

(** The routes the emulator records for a cached address list. *)
Lemma remote_bypass_with_emulator server_addr quiet addrlist :
  forall w,
    add_remote_bypass_routes tb addrlist server_addr true quiet w =
    (Ok tt,
     set_eer_routes w
       (eer_routes w ++
        map (fun a => {| eer_add := false; eer_addr := a;
                         eer_prefix_len := IP.version_size (IP.version a) |})
            (filter (fun a => negb (IP.eqb a server_addr)) addrlist))).
Proof.
  unfold add_remote_bypass_routes.
  induction addrlist as [|a l IH]; intros w; simpl.
  - rewrite app_nil_r. destruct w; reflexivity.
  - unfold bind. destruct (IP.eqb a server_addr) eqn:E; simpl.
    + unfold add_remote_bypass_routes_iter. rewrite E. simpl. apply IH.
    + pose proof (@remote_bypass_iter_other server_addr true quiet a w E) as Hx.
      cbv zeta in Hx. rewrite Hx, IH.
      unfold recorded. simpl. rewrite <- app_assoc. reflexivity.
Qed.

(** The calls an accepting builder receives for a cached address list. *)
Lemma remote_bypass_native server_addr quiet addrlist :
  (forall t c, tb t c = true) ->
  forall w,
    add_remote_bypass_routes tb addrlist server_addr false quiet w =
    (Ok tt,
     set_calls w
       (calls w ++
        map (fun a => (tun_builder_exclude_route
                         (addr_to_string a)
                         (IP.version_size (IP.version a)) (is_v6 a), true))
            (filter (fun a => negb (IP.eqb a server_addr)) addrlist))).
Proof.
  intros Hacc. unfold add_remote_bypass_routes.
  induction addrlist as [|a l IH]; intros w; simpl.
  - rewrite app_nil_r. destruct w; reflexivity.
  - unfold bind. destruct (IP.eqb a server_addr) eqn:E; simpl.
    + unfold add_remote_bypass_routes_iter. rewrite E. simpl. apply IH.
    + pose proof (@remote_bypass_iter_other server_addr false quiet a w E) as Hx.
      cbv zeta in Hx. rewrite Hx, Hacc, IH.
      unfold called. simpl. rewrite <- app_assoc. reflexivity.
Qed.

(** The calls any builder receives for a cached address list: one
    [tun_builder_exclude_route] call for each address that is not the
    server's, in the order of the list, whatever the builder answers. *)
Lemma remote_bypass_native_calls server_addr quiet addrlist :
  forall w,
    let run := add_remote_bypass_routes tb addrlist server_addr false quiet w in
    exists d,
      calls (snd run) = calls w ++ d
      /\ map fst d =
         map (fun a => tun_builder_exclude_route
                         (addr_to_string a)
                         (IP.version_size (IP.version a)) (is_v6 a))
             (filter (fun a => negb (IP.eqb a server_addr)) addrlist)
      /\ eer_routes (snd run) = eer_routes w.
Proof.
  unfold add_remote_bypass_routes.
  induction addrlist as [|a l IH]; intros w; cbv zeta.
  - exists []. simpl. rewrite app_nil_r. repeat split.
  - cbn [for_each filter]. unfold bind.
    destruct (IP.eqb a server_addr) eqn:E; cbn [negb].
    + assert (Hit : add_remote_bypass_routes_iter tb server_addr false quiet a w
                    = (Ok tt, w)).
      { unfold add_remote_bypass_routes_iter. rewrite E. reflexivity. }
      rewrite Hit. apply IH.
    + pose proof (@remote_bypass_iter_other server_addr false quiet a w E) as Hx.
      cbv zeta in Hx. rewrite Hx. clear Hx.
      set (c := tun_builder_exclude_route (addr_to_string a)
                  (IP.version_size (IP.version a)) (is_v6 a)).
      set (w' := if tb (calls w) c then called c true w
                 else logged quiet
                        (log_remote_bypass_error a
                           (tun_prop_route_error
                              "tun_builder_exclude_route failed"))
                        (called c false w)).
      assert (Hw' : calls w' = calls w ++ [(c, tb (calls w) c)]
                    /\ eer_routes w' = eer_routes w).
      { subst w'. destruct (tb (calls w) c); [split; reflexivity |].
        unfold logged. destruct quiet; split; reflexivity. }
      destruct Hw' as [Hc Hr].
      destruct (IH w') as (d & Hd & Hm & He).
      exists ((c, tb (calls w) c) :: d).
      cbn [map fst]. rewrite Hd, He, Hc, Hr, <- app_assoc, Hm.
      repeat split.
Qed.

(** What one route leaves when there is an emulator, field by field. *)
Lemma add_exclude_route_with_emulator add addr p ipv6 w :
  let c := tun_builder_add_route (addr_to_string addr) p ipv6 in
  let run := add_exclude_route tb add addr p ipv6 true w in
  let record := {| eer_add := add; eer_addr := addr; eer_prefix_len := p |} in
  state (snd run) = state w
  /\ stats_errors (snd run) = stats_errors w
  /\ log (snd run) = log w
  /\ (add = false ->
      fst run = Ok tt /\ calls (snd run) = calls w
      /\ eer_routes (snd run) = eer_routes w ++ [record])
  /\ (add = true -> tb (calls w) c = true ->
      fst run = Ok tt /\ calls (snd run) = calls w ++ [(c, true)]
      /\ eer_routes (snd run) = eer_routes w ++ [record])
  /\ (add = true -> tb (calls w) c = false ->
      fst run = Err (tun_prop_route_error "tun_builder_add_route failed")
      /\ calls (snd run) = calls w ++ [(c, false)]
      /\ eer_routes (snd run) = eer_routes w).
Proof.
  intros c run record. subst run.
  destruct add.
  - pose proof (add_exclude_route_add addr p ipv6 true w) as Hx.
    cbv zeta in Hx. fold c in Hx. rewrite Hx.
    destruct (tb (calls w) c); repeat split; intros; try discriminate;
      reflexivity.
  - rewrite (add_exclude_route_exclude addr p ipv6 true w).
    repeat split; intros; try discriminate; reflexivity.
Qed.

End Exclusions.

(** C8: when remote bypass is configured ([remote_list] set and
    [remote_bypass] true) the engine runs [add_remote_bypass_routes] on the
    cached address list.  An address equal to the current server address is
    left alone.  Any other address gets exactly one exclusion, a host route
    of prefix length 32 (V4) or 128 (V6): with an emulator one record is
    added to its routes and the builder is not called; without one, exactly
    one [tun_builder_exclude_route] call is added to the trace and the
    emulator's routes stay as they were; a refused call is logged (unless
    quiet).  The loop never throws and goes on with the remaining addresses:
    over a list, the emulator gets one record, or the builder one call, for
    each address that is not the server's, in the order of the list. *)
Theorem remote_bypass_excludes_other_servers {ext : Externals}
        (tb : TunBuilderBase) (server_addr : IP.Addr) (quiet : bool) :
  let iter := fun eer => add_remote_bypass_routes_iter tb server_addr eer quiet in
  let loop := fun eer addrlist =>
    add_remote_bypass_routes tb addrlist server_addr eer quiet in
  let width := fun a => match a with IP.addr_v4 _ => 32 | IP.addr_v6 _ => 128 end in
  let v6_of := fun a => match a with IP.addr_v4 _ => false | IP.addr_v6 _ => true end in
  let exclude := fun a =>
    tun_builder_exclude_route (addr_to_string a) (width a) (v6_of a) in
  let record := fun a =>
    {| eer_add := false; eer_addr := a; eer_prefix_len := width a |} in
  let others := filter (fun a => negb (IP.eqb a server_addr)) in
  (forall eer config addrlist,
      remote_list config = Some addrlist -> remote_bypass config = true ->
      configure_remote_bypass tb config server_addr eer quiet = loop eer addrlist)
  /\ (forall eer w, iter eer server_addr w = (Ok tt, w))
  /\ (forall addr w,
        addr <> server_addr ->
        let step := iter true addr w in
        fst step = Ok tt
        /\ calls (snd step) = calls w
        /\ eer_routes (snd step) = eer_routes w ++ [record addr]
        /\ state (snd step) = state w
        /\ stats_errors (snd step) = stats_errors w
        /\ log (snd step) = log w)
  /\ (forall addr w,
        addr <> server_addr ->
        let step := iter false addr w in
        let r := tb (calls w) (exclude addr) in
        fst step = Ok tt
        /\ calls (snd step) = calls w ++ [(exclude addr, r)]
        /\ eer_routes (snd step) = eer_routes w
        /\ state (snd step) = state w
        /\ stats_errors (snd step) = stats_errors w
        /\ log (snd step) =
           if r || quiet then log w
           else log w ++ [log_remote_bypass_error addr
                            (tun_prop_route_error
                               "tun_builder_exclude_route failed")])
  /\ (forall eer addrlist w, fst (loop eer addrlist w) = Ok tt)
  /\ (forall eer l1 l2 addr w,
        for_each (l1 ++ addr :: l2) (iter eer) w =
        for_each l2 (iter eer) (snd (iter eer addr (snd (for_each l1 (iter eer) w)))))
  /\ (forall addrlist w,
        calls (snd (loop true addrlist w)) = calls w
        /\ eer_routes (snd (loop true addrlist w)) =
           eer_routes w ++ map record (others addrlist))
  /\ (forall addrlist w,
        exists d,
          calls (snd (loop false addrlist w)) = calls w ++ d
          /\ map fst d = map exclude (others addrlist)
          /\ eer_routes (snd (loop false addrlist w)) = eer_routes w)
  /\ (forall addrlist w,
        (forall t c, tb t c = true) ->
        calls (snd (loop false addrlist w)) =
        calls w ++ map (fun a => (exclude a, true)) (others addrlist)).
Proof.
  intros iter loop width v6_of exclude record others.
  assert (Hw : forall a, IP.version_size (IP.version a) = width a)
    by (intros []; reflexivity).
  assert (Hv : forall a, is_v6 a = v6_of a) by (intros []; reflexivity).
  assert (Hnever : forall eer a w, fst (iter eer a w) = Ok tt)
    by (intros; apply remote_bypass_iter_never_throws).
  assert (Hother : forall eer addr w,
             addr <> server_addr ->
             iter eer addr w =
             (Ok tt,
              if eer then recorded false addr (width addr) w
              else if tb (calls w) (exclude addr)
                   then called (exclude addr) true w
                   else logged quiet
                          (log_remote_bypass_error addr
                             (tun_prop_route_error
                                "tun_builder_exclude_route failed"))
                          (called (exclude addr) false w))).
  { intros eer addr w Hne. unfold iter.
    assert (E : IP.eqb addr server_addr = false).
    { destruct (IP.eqb addr server_addr) eqn:E; [| reflexivity].
      apply IP_eqb_eq in E. contradiction. }
    pose proof (@remote_bypass_iter_other _ tb server_addr eer quiet addr w E) as Hx.
    cbv zeta in Hx. rewrite Hx. unfold exclude. rewrite Hw, Hv. reflexivity. }
  split; [| split; [| split; [| split; [| split; [| split; [| split; [| split]]]]]]].
  - intros eer config addrlist Hl Hb. unfold configure_remote_bypass.
    rewrite Hl, Hb. reflexivity.
  - intros eer w. unfold iter, add_remote_bypass_routes_iter.
    rewrite (proj2 (IP_eqb_eq server_addr server_addr) eq_refl). reflexivity.
  - intros addr w Hne step. subst step. rewrite (Hother true addr w Hne).
    repeat split.
  - intros addr w Hne step r. subst step r. rewrite (Hother false addr w Hne).
    cbn [fst snd]. destruct (tb (calls w) (exclude addr)); cbn [orb].
    + repeat split.
    + unfold logged. destruct quiet; repeat split.
  - intros eer addrlist w. unfold loop, add_remote_bypass_routes.
    apply for_each_never_throws. apply Hnever.
  - intros eer l1 l2 addr w. apply for_each_middle. apply Hnever.
  - intros addrlist w. unfold loop. rewrite remote_bypass_with_emulator.
    cbn [snd]. split; [reflexivity |]. cbn [eer_routes set_eer_routes].
    f_equal. apply map_ext. intros a. unfold record. rewrite Hw. reflexivity.
  - intros addrlist w. unfold loop.
    destruct (remote_bypass_native_calls tb server_addr quiet addrlist w)
      as (d & Hd & Hm & He).
    exists d. split; [exact Hd |]. split; [| exact He].
    rewrite Hm. apply map_ext. intros a. unfold exclude. rewrite Hw, Hv.
    reflexivity.
  - intros addrlist w Hacc. unfold loop.
    rewrite remote_bypass_native by exact Hacc. cbn [snd calls set_calls].
    f_equal. apply map_ext. intros a. unfold exclude. rewrite Hw, Hv.
    reflexivity.
Qed.

(** Three cached addresses, the first being the server in use, no emulator:
    two native exclusions, /32 and /128. *)
Lemma remote_bypass_excludes_other_servers_witness :
  let server := IP.addr_v4 (IPv4.from_uint32 0x01020304) in
  let cached := [server; IP.addr_v4 (IPv4.from_uint32 0x05060708);
                 IP.addr_v6 0x20010db8000000000000000000000001] in
  calls (snd (add_remote_bypass_routes (ext := Reference.externals)
                Reference.accept_all cached server false false
                Reference.world0))
  = [(tun_builder_exclude_route "5.6.7.8" 32 false, true);
     (tun_builder_exclude_route "2001:db8::1" 128 true, true)].
Proof.
  intros server cached.
  destruct (@remote_bypass_excludes_other_servers Reference.externals
              Reference.accept_all server false)
    as (_ & _ & _ & _ & _ & _ & _ & _ & Hnative).
  exact (Hnative cached Reference.world0 (fun _ _ => eq_refl)).
Defined.

(** C9, as the code has it: with an emulator, [add_exclude_route] records
    every route it handles without error.  An "add" route is passed to
    [tun_builder_add_route]; when the builder accepts it, the trace has that
    one call more and the emulator one record more, with [is_add = true];
    when the builder refuses it, the call is in the trace, the function
    throws and the emulator's routes are as they were.  An "exclude" route is
    only recorded, with [is_add = false]: the trace is as it was.  With an
    emulator, no [tun_builder_exclude_route] call is made by [add_routes],
    by [add_remote_bypass_routes], or over a whole pass (where the
    emulator's own translation step, which is not part of these files, makes
    add calls as the specification says). *)
Theorem emulator_records_every_route {ext : Externals} (tb : TunBuilderBase) :
  (forall addr p ipv6 w,
      let c := tun_builder_add_route (addr_to_string addr) p ipv6 in
      let run := add_exclude_route tb true addr p ipv6 true w in
      tb (calls w) c = true ->
      fst run = Ok tt
      /\ calls (snd run) = calls w ++ [(c, true)]
      /\ eer_routes (snd run) =
         eer_routes w ++ [{| eer_add := true; eer_addr := addr;
                             eer_prefix_len := p |}]
      /\ state (snd run) = state w
      /\ stats_errors (snd run) = stats_errors w
      /\ log (snd run) = log w)
  /\ (forall addr p ipv6 w,
        let c := tun_builder_add_route (addr_to_string addr) p ipv6 in
        let run := add_exclude_route tb true addr p ipv6 true w in
        tb (calls w) c = false ->
        fst run = Err (tun_prop_route_error "tun_builder_add_route failed")
        /\ calls (snd run) = calls w ++ [(c, false)]
        /\ eer_routes (snd run) = eer_routes w
        /\ state (snd run) = state w
        /\ stats_errors (snd run) = stats_errors w
        /\ log (snd run) = log w)
  /\ (forall addr p ipv6 w,
        let run := add_exclude_route tb false addr p ipv6 true w in
        fst run = Ok tt
        /\ calls (snd run) = calls w
        /\ eer_routes (snd run) =
           eer_routes w ++ [{| eer_add := false; eer_addr := addr;
                               eer_prefix_len := p |}]
        /\ state (snd run) = state w
        /\ stats_errors (snd run) = stats_errors w
        /\ log (snd run) = log w)
  /\ (forall opt server_addr ipv quiet w,
        exists d,
          calls (snd (add_routes tb opt server_addr ipv true quiet w))
            = calls w ++ d
          /\ forall c r, In (c, r) d -> is_exclude_route c = false)
  /\ (forall addrlist server_addr quiet w,
        calls (snd (add_remote_bypass_routes tb addrlist server_addr true
                                             quiet w)) = calls w)
  /\ (forall stats server_addr config opt quiet w,
        exists d,
          calls (snd (configure_builder tb stats server_addr config opt true
                                        quiet w)) = calls w ++ d
          /\ forall c r, In (c, r) d -> is_exclude_route c = false).
Proof.
  assert (Hno : forall d : Trace,
             forallb (fun cr => not_exclude_route (fst cr)) d = true ->
             forall c r, In (c, r) d -> is_exclude_route c = false).
  { intros d Hall c r Hin. rewrite forallb_forall in Hall.
    specialize (Hall (c, r) Hin). unfold not_exclude_route in Hall.
    simpl in Hall. apply negb_true_iff. exact Hall. }
  split; [| split; [| split; [| split; [| split]]]].
  - intros addr p ipv6 w c run Hc.
    destruct (add_exclude_route_with_emulator tb true addr p ipv6 w)
      as (Hst & Hss & Hl & _ & Hacc & _).
    destruct (Hacc eq_refl Hc) as (H1 & H2 & H3).
    repeat split; assumption.
  - intros addr p ipv6 w c run Hc.
    destruct (add_exclude_route_with_emulator tb true addr p ipv6 w)
      as (Hst & Hss & Hl & _ & _ & Href).
    destruct (Href eq_refl Hc) as (H1 & H2 & H3).
    repeat split; assumption.
  - intros addr p ipv6 w run.
    destruct (add_exclude_route_with_emulator tb false addr p ipv6 w)
      as (Hst & Hss & Hl & Hex & _).
    destruct (Hex eq_refl) as (H1 & H2 & H3).
    repeat split; assumption.
  - intros opt server_addr ipv quiet w.
    destruct (add_routes_no_exclude_route tb opt server_addr ipv quiet w)
      as (d & Hd & Hall).
    exists d. split; [exact Hd | exact (Hno d Hall)].
  - intros addrlist server_addr quiet w.
    rewrite remote_bypass_with_emulator. reflexivity.
  - intros stats server_addr config opt quiet w.
    destruct (configure_builder_no_exclude_route tb stats server_addr config
                opt quiet w) as (d & Hd & Hall).
    exists d. split; [exact Hd | exact (Hno d Hall)].
Qed.

(** An "add" route with an emulator and a builder that accepts: one builder
    call and one record. *)
Lemma emulator_records_every_route_witness :
  let addr := IP.addr_v4 (IPv4.from_uint32 0x0A000000) in
  let run := add_exclude_route (ext := Reference.externals)
               Reference.accept_all true addr 8 false true Reference.world0 in
  fst run = Ok tt
  /\ calls (snd run) = [(tun_builder_add_route "10.0.0.0" 8 false, true)]
  /\ eer_routes (snd run) =
     [{| eer_add := true; eer_addr := addr; eer_prefix_len := 8 |}].
Proof.
  intros addr run.
  destruct (proj1 (@emulator_records_every_route Reference.externals
                     Reference.accept_all)
                  addr 8 false Reference.world0 eq_refl)
    as (H1 & H2 & H3 & _).
  split; [exact H1 | split; [exact H2 | exact H3]].
Defined.
(** ** The stages of [tun_ifconfig] *)

Section IfconfigExtras.

Context {ext : Externals}.
Variable tb : TunBuilderBase.

(** Reading the topology does not touch the world. *)
Lemma tun_ifconfig_topology_pure opt w :
snd (tun_ifconfig_topology opt w) = w.
Proof.
unfold tun_ifconfig_topology. destruct (get_ptr opt "topology") as [ot |];
  [| reflexivity].
unfold_monad. destruct (Option_get ot 1 16) as [s | e]; [| reflexivity].
destruct (String.eqb s "subnet"); [reflexivity |].
destruct (String.eqb s "net30"); reflexivity.
Qed.

Lemma tun_ifconfig_topology_ok opt w top :
(top = NET30 /\ (get_ptr opt "topology" = None
                 \/ exists ot, get_ptr opt "topology" = Some ot
                               /\ Option_get ot 1 16 = Ok "net30"))
\/ (top = SUBNET /\ exists ot, get_ptr opt "topology" = Some ot
                               /\ Option_get ot 1 16 = Ok "subnet") ->
tun_ifconfig_topology opt w = (Ok top, w).
Proof.
unfold tun_ifconfig_topology.
intros [[-> [-> | (ot & -> & Hg)]] | [-> (ot & -> & Hg)]];
  try reflexivity; unfold_monad; rewrite Hg; reflexivity.
Qed.

Lemma tun_ifconfig_after_topology opt w top :
tun_ifconfig_topology opt w = (Ok top, w) ->
tun_ifconfig tb opt w =
bind (tun_ifconfig_ipv4 tb opt top) (tun_ifconfig_ipv6 tb opt) w.
Proof.
intros H. unfold tun_ifconfig. unfold bind at 1. rewrite H. reflexivity.
Qed.

Lemma route_gateway_pure opt w : snd (route_gateway opt w) = w.
Proof.
unfold route_gateway. destruct (get_ptr opt "route-gateway") as [o |];
  [| reflexivity].
unfold_monad. destruct (Option_get o 1 256) as [s | e]; [| reflexivity].
destruct (Addr_from_string s) as [g | e]; [| reflexivity].
destruct (negb _); reflexivity.
Qed.

End IfconfigExtras.

Section IfconfigStages.

Context {ext : Externals}.
Variable tb : TunBuilderBase.

(** What the block of the [ifconfig] directive can do: nothing (no
  directive), one accepted call and the state written, an error before
  any call, or an error after a refused call. *)
Lemma tun_ifconfig_ipv4_stage opt top w :
let r := tun_ifconfig_ipv4 tb opt top w in
(get_ptr opt "ifconfig" = None /\ r = (Ok 0, w))
\/ (exists a p gw n30, r = (Ok IP.V4_MASK, assigned false a p gw n30 w))
\/ (get_ptr opt "ifconfig" <> None /\ exists e, r = (Err e, w))
\/ (exists e a p gw n30, r = (Err e, refused false a p gw n30 w)).
Proof.
intros r. subst r. unfold tun_ifconfig_ipv4.
destruct (get_ptr opt "ifconfig") as [o |]; [| left; split; reflexivity].
right. destruct top.
- unfold_monad.
  destruct (net30_addresses o) as [[local remote] | e];
    [| right; left; split; [discriminate | eexists; reflexivity]].
  cbn [fst snd].
  destruct (negb _ || negb _);
    [right; left; split; [discriminate | eexists; reflexivity] |].
  destruct (IP.bit_and local net30_netmask);
    [| right; left; split; [discriminate | eexists; reflexivity]].
  destruct (IP.bit_and remote net30_netmask);
    [| right; left; split; [discriminate | eexists; reflexivity]].
  destruct (negb (IP.eqb _ _));
    [right; left; split; [discriminate | eexists; reflexivity] |].
  destruct (Addr_prefix_len net30_netmask) as [p |];
    [| right; left; split; [discriminate | eexists; reflexivity]].
  cbn [fst snd]. destruct (tb (calls w) _) eqn:E; cbn [negb].
  + left. exists local, p, (addr_to_string remote), true. reflexivity.
  + right. right. eexists. exists local, p, (addr_to_string remote), true.
    reflexivity.
- pose proof (route_gateway_pure opt) as Hgw. unfold_monad.
  destruct (Option_get o 1 256);
    [| right; left; split; [discriminate | eexists; reflexivity]].
  destruct (Option_get_optional o 2 256);
    [| right; left; split; [discriminate | eexists; reflexivity]].
  destruct (AddrMaskPair_from_string2 _ _) as [pr |];
    [| right; left; split; [discriminate | eexists; reflexivity]].
  destruct (negb _);
    [right; left; split; [discriminate | eexists; reflexivity] |].
  destruct (Addr_prefix_len _) as [p |];
    [| right; left; split; [discriminate | eexists; reflexivity]].
  specialize (Hgw w). destruct (route_gateway opt w) as [[gw | e] wg];
    simpl in Hgw; subst wg;
    [| right; left; split; [discriminate | eexists; reflexivity]].
  cbn [fst snd]. destruct (tb (calls w) _) eqn:E; cbn [negb].
  + left. exists (IP.addr pr), p, gw, false. reflexivity.
  + right. right. eexists. exists (IP.addr pr), p, gw, false. reflexivity.
Qed.

(** The same for the [ifconfig-ipv6] directive and the final check. *)
Lemma tun_ifconfig_ipv6_stage opt f w :
let r := tun_ifconfig_ipv6 tb opt f w in
(get_ptr opt "ifconfig-ipv6" = None
 /\ r = (if f =? 0
         then Err (tun_prop_error "one of ifconfig or ifconfig-ipv6 must be specified")
         else Ok f, w))
\/ (get_ptr opt "ifconfig-ipv6" <> None
    /\ exists a p gw,
         r = (Ok (Z.lor f IP.V6_MASK), assigned true a p gw false w))
\/ (get_ptr opt "ifconfig-ipv6" <> None /\ exists e, r = (Err e, w))
\/ (get_ptr opt "ifconfig-ipv6" <> None
    /\ exists e a p gw, r = (Err e, refused true a p gw false w)).
Proof.
intros r. subst r. unfold tun_ifconfig_ipv6.
destruct (get_ptr opt "ifconfig-ipv6") as [o |].
2:{ left. split; [reflexivity |]. unfold_monad.
    destruct (f =? 0); reflexivity. }
right.
assert (Hnz : (Z.lor f IP.V6_MASK =? 0) = false).
{ apply Z.eqb_neq. intros H. apply Z.lor_eq_0_iff in H. destruct H as [_ H].
  discriminate. }
unfold_monad.
destruct (Option_get o 1 256);
  [| right; left; split; [discriminate | eexists; reflexivity]].
destruct (AddrMaskPair_from_string _) as [pr |];
  [| right; left; split; [discriminate | eexists; reflexivity]].
destruct (negb _);
  [right; left; split; [discriminate | eexists; reflexivity] |].
destruct (Nat.leb 3 (Option_size o)).
- destruct (Option_get o 2 256);
    [| right; left; split; [discriminate | eexists; reflexivity]].
  destruct (Addr_from_string _) as [g |];
    [| right; left; split; [discriminate | eexists; reflexivity]].
  destruct (negb _);
    [right; left; split; [discriminate | eexists; reflexivity] |].
  destruct (Addr_prefix_len _) as [p |];
    [| right; left; split; [discriminate | eexists; reflexivity]].
  cbn [fst snd]. destruct (tb (calls w) _) eqn:E; cbn [negb].
  + left. split; [discriminate |]. exists (IP.addr pr), p, (addr_to_string g).
    unfold store_vpn_ip6_addr, modify; cbv beta iota. rewrite Hnz. reflexivity.
  + right. right. split; [discriminate |].
    eexists. exists (IP.addr pr), p, (addr_to_string g). reflexivity.
- destruct (Addr_prefix_len _) as [p |];
    [| right; left; split; [discriminate | eexists; reflexivity]].
  cbn [fst snd]. destruct (tb (calls w) _) eqn:E; cbn [negb].
  + left. split; [discriminate |]. exists (IP.addr pr), p, "".
    unfold store_vpn_ip6_addr, modify; cbv beta iota. rewrite Hnz. reflexivity.
  + right. right. split; [discriminate |].
    eexists. exists (IP.addr pr), p, "". reflexivity.
Qed.

(** What the [ifconfig-ipv6] block reads and writes, field by field, when a
  family is already configured: at most one V6 [tun_builder_add_address]
  call, and in the state only the V6 address. *)
Lemma tun_ifconfig_ipv6_reads opt f w :
f <> 0 ->
let r := tun_ifconfig_ipv6 tb opt f w in
(exists rest,
    calls (snd r) = calls w ++ rest
    /\ (List.length rest <= 1)%nat
    /\ forallb (fun cr => is_add_address_for true (fst cr)) rest = true)
/\ eer_routes (snd r) = eer_routes w
/\ stats_errors (snd r) = stats_errors w
/\ log (snd r) = log w
/\ (state w = None -> state (snd r) = None)
/\ (forall st,
      state w = Some st ->
      exists st',
        state (snd r) = Some st'
        /\ vpn_ip4_addr st' = vpn_ip4_addr st
        /\ iface_name st' = iface_name st
        /\ tun_prefix st' = tun_prefix st)
/\ (get_ptr opt "ifconfig-ipv6" = None -> r = (Ok f, w)).
Proof.
intros Hf r.
destruct (tun_ifconfig_ipv6_stage opt f w)
  as [[Hnone H6] | [[Hsome (a6 & p6 & gw6 & H6)]
      | [[Hsome (e6 & H6)] | [Hsome (e6 & a6 & p6 & gw6 & H6)]]]];
  cbv zeta in H6; subst r; rewrite H6; clear H6; cbn [fst snd].
- apply Z.eqb_neq in Hf. rewrite Hf. cbn [fst snd].
  split; [exists []; rewrite app_nil_r; split; [| split];
          [reflexivity | simpl; lia | reflexivity] |].
  split; [reflexivity |]. split; [reflexivity |]. split; [reflexivity |].
  split; [intros Hn; exact Hn |].
  split; [| reflexivity].
  intros st Hst. exists st. split; [exact Hst |]. split; [| split]; reflexivity.
- unfold assigned, add_address_call.
  cbn [calls eer_routes state stats_errors log].
  split; [eexists; split; [reflexivity | split; [simpl; lia | reflexivity]] |].
  split; [reflexivity |]. split; [reflexivity |]. split; [reflexivity |].
  split; [intros ->; reflexivity |].
  split; [| intros Hn; contradiction].
  intros st ->. eexists. split; [reflexivity |].
  split; [| split]; reflexivity.
- split; [exists []; rewrite app_nil_r; split; [| split];
          [reflexivity | simpl; lia | reflexivity] |].
  split; [reflexivity |]. split; [reflexivity |]. split; [reflexivity |].
  split; [intros Hn; exact Hn |].
  split; [| intros Hn; contradiction].
  intros st Hst. exists st. split; [exact Hst |]. split; [| split]; reflexivity.
- unfold refused, add_address_call.
  cbn [calls eer_routes state stats_errors log].
  split; [eexists; split; [reflexivity | split; [simpl; lia | reflexivity]] |].
  split; [reflexivity |]. split; [reflexivity |]. split; [reflexivity |].
  split; [intros Hn; exact Hn |].
  split; [| intros Hn; contradiction].
  intros st Hst. exists st. split; [exact Hst |]. split; [| split]; reflexivity.
Qed.

(** [tun_ifconfig] when its [ifconfig] block comes to the builder call [c]
  for the address [a]: what the whole function leaves, field by field. *)
Lemma tun_ifconfig_v4_call_reads opt top w a p gw n30 e :
tun_ifconfig_topology opt w = (Ok top, w) ->
let c := add_address_call false a p gw n30 in
tun_ifconfig_ipv4 tb opt top w =
  (if tb (calls w) c
   then (Ok IP.V4_MASK, assigned false a p gw n30 w)
   else (Err e, refused false a p gw n30 w)) ->
let run := tun_ifconfig tb opt w in
(exists rest,
    calls (snd run) = calls w ++ (c, tb (calls w) c) :: rest
    /\ (List.length rest <= 1)%nat
    /\ forallb (fun cr => is_add_address_for true (fst cr)) rest = true)
/\ eer_routes (snd run) = eer_routes w
/\ stats_errors (snd run) = stats_errors w
/\ log (snd run) = log w
/\ (tb (calls w) c = false ->
    fst run = Err e
    /\ calls (snd run) = calls w ++ [(c, false)]
    /\ state (snd run) = state w)
/\ (tb (calls w) c = true ->
    (state w = None -> state (snd run) = None)
    /\ (forall st,
          state w = Some st ->
          exists st',
            state (snd run) = Some st'
            /\ vpn_ip4_addr st' = Some a
            /\ iface_name st' = iface_name st
            /\ tun_prefix st' = tun_prefix st)
    /\ (get_ptr opt "ifconfig-ipv6" = None ->
        fst run = Ok IP.V4_MASK
        /\ calls (snd run) = calls w ++ [(c, true)]
        /\ forall st,
             state w = Some st ->
             exists st',
               state (snd run) = Some st'
               /\ vpn_ip6_addr st' = vpn_ip6_addr st)).
Proof.
intros Htop c H4 run.
assert (Hrun : run = bind (tun_ifconfig_ipv4 tb opt top)
                          (tun_ifconfig_ipv6 tb opt) w)
  by (apply tun_ifconfig_after_topology; exact Htop).
clearbody run. unfold bind in Hrun. rewrite H4 in Hrun. clear H4.
destruct (tb (calls w) c) eqn:Hc.
2:{ rewrite Hrun. cbn [fst snd]. unfold refused.
    cbn [calls eer_routes state stats_errors log]. fold c.
    split; [exists []; split; [| split];
            [reflexivity | simpl; lia | reflexivity] |].
    split; [reflexivity |]. split; [reflexivity |]. split; [reflexivity |].
    split; [intros _; split; [| split]; reflexivity | discriminate]. }
set (w1 := assigned false a p gw n30 w) in *.
assert (Hw1 : calls w1 = calls w ++ [(c, true)]
              /\ eer_routes w1 = eer_routes w
              /\ stats_errors w1 = stats_errors w
              /\ log w1 = log w
              /\ (state w = None -> state w1 = None)
              /\ (forall st, state w = Some st ->
                    state w1 =
                    Some {| iface_name := iface_name st;
                            vpn_ip4_addr := Some a;
                            vpn_ip6_addr := vpn_ip6_addr st;
                            tun_prefix := tun_prefix st |})).
{ subst w1. unfold assigned.
  cbn [calls eer_routes state stats_errors log]. fold c.
  split; [reflexivity |]. split; [reflexivity |]. split; [reflexivity |].
  split; [reflexivity |].
  split; [intros ->; reflexivity | intros st ->; reflexivity]. }
destruct Hw1 as (Hc1 & He1 & Hs1 & Hl1 & Hn1 & Hst1).
cbv beta iota in Hrun.
assert (Hnz : IP.V4_MASK <> 0) by discriminate.
pose proof (tun_ifconfig_ipv6_reads opt w1 Hnz) as H6.
cbv zeta in H6. rewrite <- Hrun in H6.
destruct H6 as ((rest & Hr & Hlen & Hall) & He & Hs & Hl & Hn & Hst & H0).
split.
{ exists rest. rewrite Hr, Hc1, <- app_assoc.
  split; [reflexivity | split; assumption]. }
split; [rewrite He; exact He1 |].
split; [rewrite Hs; exact Hs1 |].
split; [rewrite Hl; exact Hl1 |].
split; [discriminate |]. intros _.
split; [intros Hnone; apply Hn, Hn1, Hnone |].
split.
- intros st Hw. destruct (Hst _ (Hst1 st Hw)) as (st' & E1 & E2 & E3 & E4).
  exists st'. split; [exact E1 |]. split; [exact E2 |].
  split; [exact E3 | exact E4].
- intros Hnone. rewrite (H0 Hnone). cbn [fst snd].
  split; [reflexivity |]. split; [exact Hc1 |].
  intros st Hw. eexists. split; [apply Hst1, Hw | reflexivity].
Qed.

End IfconfigStages.

(** ** Topology net30 *)

(** The [ifconfig] block under topology net30, for two V4 addresses in
    the same /30: one [tun_builder_add_address] call, and the state written
    when the builder accepted it. *)
Lemma net30_ifconfig_ipv4 {ext : Externals} (tb : TunBuilderBase)
      (opt : OptionList) (o : Option) (w : World) (l r : IPv4.Addr) :
  get_ptr opt "ifconfig" = Some o ->
  net30_addresses o = Ok (IP.addr_v4 l, IP.addr_v4 r) ->
  Z.land (IPv4.u_addr l) 0xFFFFFFFC = Z.land (IPv4.u_addr r) 0xFFFFFFFC ->
  let gw := addr_to_string (IP.addr_v4 r) in
  tun_ifconfig_ipv4 tb opt NET30 w =
  if tb (calls w) (add_address_call false (IP.addr_v4 l) 30 gw true)
  then (Ok IP.V4_MASK, assigned false (IP.addr_v4 l) 30 gw true w)
  else (Err (tun_prop_error "tun_builder_add_address IPv4 failed (topology net30)"),
        refused false (IP.addr_v4 l) 30 gw true w).
Proof.
  intros Hif Hlr Heq gw. subst gw.
  assert (Hp : Addr_prefix_len net30_netmask = Ok 30) by reflexivity.
  unfold tun_ifconfig_ipv4. rewrite Hif.
  unfold_monad. rewrite Hlr. cbn [fst snd IP.version IP.Version_eqb negb orb].
  cbn [IP.bit_and net30_netmask]. unfold IP.eqb, IPv4.eqb, IPv4.bit_and.
  cbn [IPv4.u_addr]. rewrite Heq, Z.eqb_refl. cbn [negb].
  fold net30_netmask. rewrite Hp. unfold add_address_call.
  destruct (tb (calls w) _); reflexivity.
Qed.

(** C4, as the code has it: under topology net30 (the default, or
    [topology net30]) the [ifconfig] directive needs a remote and a local
    address that parse, both V4; when [local & 255.255.255.252] differs from
    [remote & 255.255.255.252] the pass fails with the same-subnet error and
    nothing is called; otherwise exactly one V4 [tun_builder_add_address]
    call is added to the trace, with the local address, prefix length 30,
    the remote address as gateway, [ipv6 = false] and [net30 = true].  When
    the builder refuses that call the function throws and the state is as it
    was.  When the builder accepts it, the V4 address of the caller's state
    (if there is one) is the local address from then on, whatever the
    [ifconfig-ipv6] directive does next; without that directive the function
    returns the V4 mask and nothing else has changed. *)
Theorem net30_ifconfig {ext : Externals} (tb : TunBuilderBase)
        (opt : OptionList) (o : Option) (w : World) :
  (get_ptr opt "topology" = None
   \/ exists ot, get_ptr opt "topology" = Some ot
                 /\ Option_get ot 1 16 = Ok "net30") ->
  get_ptr opt "ifconfig" = Some o ->
  let run := tun_ifconfig tb opt w in
  (forall e, net30_addresses o = Err e -> run = (Err e, w))
  /\ (forall local remote,
        net30_addresses o = Ok (local, remote) ->
        (IP.version local <> IP.V4 \/ IP.version remote <> IP.V4 ->
         run = (Err (tun_prop_error "ifconfig address is not IPv4 (topology net30)"), w))
        /\ (forall l r,
              local = IP.addr_v4 l -> remote = IP.addr_v4 r ->
              let mask := 0xFFFFFFFC in
              let c := tun_builder_add_address (addr_to_string local) 30
                         (addr_to_string remote) false true in
              (Z.land (IPv4.u_addr l) mask <> Z.land (IPv4.u_addr r) mask ->
               run = (Err (tun_prop_error "ifconfig addresses are not in the same /30 subnet (topology net30)"), w))
              /\ (Z.land (IPv4.u_addr l) mask = Z.land (IPv4.u_addr r) mask ->
                  (exists rest,
                      calls (snd run) = calls w ++ (c, tb (calls w) c) :: rest
                      /\ (List.length rest <= 1)%nat
                      /\ forallb (fun cr => is_add_address_for true (fst cr))
                                 rest = true)
                  /\ eer_routes (snd run) = eer_routes w
                  /\ stats_errors (snd run) = stats_errors w
                  /\ log (snd run) = log w
                  /\ (tb (calls w) c = false ->
                      fst run = Err (tun_prop_error "tun_builder_add_address IPv4 failed (topology net30)")
                      /\ calls (snd run) = calls w ++ [(c, false)]
                      /\ state (snd run) = state w)
                  /\ (tb (calls w) c = true ->
                      (state w = None -> state (snd run) = None)
                      /\ (forall st,
                             state w = Some st ->
                             exists st',
                               state (snd run) = Some st'
                               /\ vpn_ip4_addr st' = Some local
                               /\ iface_name st' = iface_name st
                               /\ tun_prefix st' = tun_prefix st)
                      /\ (get_ptr opt "ifconfig-ipv6" = None ->
                          fst run = Ok IP.V4_MASK
                          /\ calls (snd run) = calls w ++ [(c, true)]
                          /\ forall st,
                               state w = Some st ->
                               exists st',
                                 state (snd run) = Some st'
                                 /\ vpn_ip6_addr st' = vpn_ip6_addr st))))).
Proof.
  intros Htop Hif run.
  assert (Ht : tun_ifconfig_topology opt w = (Ok NET30, w)).
  { unfold tun_ifconfig_topology.
    destruct Htop as [-> | (ot & -> & Hg)]; [reflexivity |].
    unfold_monad. rewrite Hg. reflexivity. }
  assert (Hrun : run = bind (tun_ifconfig_ipv4 tb opt NET30)
                            (tun_ifconfig_ipv6 tb opt) w).
  { unfold run, tun_ifconfig. unfold bind at 1. rewrite Ht. reflexivity. }
  assert (Hdef : run = tun_ifconfig tb opt w) by reflexivity.
  clearbody run. split.
  - intros e He. rewrite Hrun. unfold tun_ifconfig_ipv4. rewrite Hif.
    unfold_monad. rewrite He. reflexivity.
  - intros local remote Hlr. split.
    + intros Hv. rewrite Hrun. unfold tun_ifconfig_ipv4. rewrite Hif.
      unfold_monad. rewrite Hlr. simpl.
      destruct local, remote; simpl; try reflexivity.
      destruct Hv as [Hv | Hv]; exfalso; apply Hv; reflexivity.
    + intros l r Hl Hr mask c. subst local remote. split.
      * intros Hne. rewrite Hrun. unfold tun_ifconfig_ipv4. rewrite Hif.
        unfold_monad. rewrite Hlr. simpl.
        unfold IPv4.eqb, IPv4.bit_and. simpl.
        apply Z.eqb_neq in Hne. fold mask. rewrite Hne. reflexivity.
      * intros Heq.
        pose proof (net30_ifconfig_ipv4 tb opt w Hif Hlr Heq) as H4.
        cbv zeta in H4.
        rewrite Hdef. subst c mask.
        pose proof (@tun_ifconfig_v4_call_reads _ tb opt NET30 w (IP.addr_v4 l)
                      30 (addr_to_string (IP.addr_v4 r)) true _ Ht H4) as Hreads.
        exact Hreads.
Qed.

(** [ifconfig 10.8.0.1 10.8.0.2] with a builder that accepts: one
    add-address call, and the state holds 10.8.0.1. *)
Lemma net30_ifconfig_witness :
  let opt := [["ifconfig"; "10.8.0.1"; "10.8.0.2"]] in
  let local := IP.addr_v4 (IPv4.from_uint32 0x0A080001) in
  let run := tun_ifconfig (ext := Reference.externals) Reference.accept_all opt
                          Reference.world0 in
  fst run = Ok IP.V4_MASK
  /\ calls (snd run) =
     [(tun_builder_add_address "10.8.0.1" 30 "10.8.0.2" false true, true)]
  /\ exists st', state (snd run) = Some st' /\ vpn_ip4_addr st' = Some local.
Proof.
  intros opt local run.
  destruct (@net30_ifconfig Reference.externals Reference.accept_all opt
              ["ifconfig"; "10.8.0.1"; "10.8.0.2"] Reference.world0
              (or_introl eq_refl) eq_refl) as [_ H].
  destruct (H local (IP.addr_v4 (IPv4.from_uint32 0x0A080002)) eq_refl) as [_ H2].
  destruct (H2 _ _ eq_refl eq_refl) as [_ H3].
  destruct (H3 eq_refl) as (_ & _ & _ & _ & _ & Hacc).
  destruct (Hacc eq_refl) as (_ & Hst & Hnone).
  destruct (Hnone eq_refl) as (Hr & Hc & _).
  destruct (Hst Reference.empty_state eq_refl) as (st' & Hs & Hv & _).
  split; [exact Hr |]. split; [exact Hc |].
  exists st'. split; [exact Hs | exact Hv].
Defined.

(** The second testable property: local 10.8.0.1 and remote 10.8.1.2 are not
    in the same /30. *)
Example net30_not_same_subnet :
  tun_ifconfig (ext := Reference.externals) Reference.accept_all
               [["ifconfig"; "10.8.0.1"; "10.8.1.2"]] Reference.world0
  = (Err (tun_prop_error "ifconfig addresses are not in the same /30 subnet (topology net30)"),
     Reference.world0).
Proof. vm_compute. reflexivity. Qed.

(** ** Finalization *)

Section Finalization.

Context {ext : Externals}.
Variable tb : TunBuilderBase.

Ltac any_call_leaf :=
  first [ apply trace_extends_call; reflexivity
        | apply trace_extends_modify; reflexivity ].

Lemma dns_fallback_extends stats config ipv dhcp_option_flags quiet :
  preserves (trace_extends (fun _ => true))
            (dns_fallback tb stats config ipv dhcp_option_flags quiet).
Proof. unfold_engine. preserves_tac any_call_leaf. Qed.

(** [configure_builder_tail] is the [set_block_ipv6] call, whose answer is
    dropped, then the DNS fallback, then the three checked calls. *)
Lemma configure_builder_tail_unfold stats server_addr config opt quiet ipv
      dhcp_option_flags w :
  let block := tun_builder_set_block_ipv6 (OptionList_exists opt "block-ipv6") in
  let w1 := called block (tb (calls w) block) w in
  configure_builder_tail tb stats server_addr config opt quiet ipv
                         dhcp_option_flags w =
  match dns_fallback tb stats config ipv dhcp_option_flags quiet w1 with
  | (Err e, w2) => (Err e, w2)
  | (Ok _, w2) => configure_builder_settings tb server_addr config w2
  end.
Proof.
  intros block w1. subst w1 block. unfold called, configure_builder_tail.
  unfold bind at 1. unfold call at 1. cbn iota.
  unfold bind at 1.
  match goal with
  | |- context [dns_fallback ?a ?b ?c ?d ?e ?f ?g] =>
      destruct (dns_fallback a b c d e f g) as [[[] | e0] w2]
  end; reflexivity.
Qed.

End Finalization.

(** C2, as the code has it: finalization calls, in this order,
    [tun_builder_set_block_ipv6] (with the presence of [block-ipv6]),
    then, after the DNS fallback, [tun_builder_set_remote_address] (text and
    is-V6 flag), [tun_builder_set_mtu] only when the MTU is not zero and
    [tun_builder_set_session_name] only when the name is not empty.  A
    [false] from any of the last three is a fatal [tun_prop_error] and stops
    the pass; the value returned by [tun_builder_set_block_ipv6] is not
    looked at. *)
Theorem finalization_order_and_failures {ext : Externals} (tb : TunBuilderBase)
        (stats : bool) (server_addr : IP.Addr) (config : Config)
        (opt : OptionList) (quiet : bool) (ipv : IPVerFlags) (flags : Z)
        (w : World) :
  let block := tun_builder_set_block_ipv6 (OptionList_exists opt "block-ipv6") in
  let w1 := called block (tb (calls w) block) w in
  let remote := tun_builder_set_remote_address (addr_to_string server_addr)
                                               (is_v6 server_addr) in
  let set_mtu := tun_builder_set_mtu (mtu config) in
  let set_name := tun_builder_set_session_name (session_name config) in
  let planned :=
    remote :: (if mtu config =? 0 then [] else [set_mtu])
           ++ (if string_empty (session_name config) then [] else [set_name]) in
  let run := configure_builder_tail tb stats server_addr config opt quiet
                                    ipv flags w in
  match dns_fallback tb stats config ipv flags quiet w1 with
  | (Err e, w2) => run = (Err e, w2)
  | (Ok _, w2) =>
      (exists d_fallback,
          calls w2 = calls w ++ (block, tb (calls w) block) :: d_fallback)
      /\ exists d,
          calls (snd run) = calls w2 ++ d
          /\ (exists rest, planned = map fst d ++ rest)
          /\ (forallb snd d = true -> map fst d = planned /\ fst run = Ok tt)
          /\ (In (remote, false) d ->
              fst run = Err (tun_prop_error "tun_builder_set_remote_address failed"))
          /\ (In (set_mtu, false) d ->
              fst run = Err (tun_prop_error "tun_builder_set_mtu failed"))
          /\ (In (set_name, false) d ->
              fst run = Err (tun_prop_error "tun_builder_set_session_name failed"))
  end.
Proof.
  intros block w1 remote set_mtu set_name planned run.
  pose proof (configure_builder_tail_unfold tb stats server_addr config opt
                quiet ipv flags w) as Hrun.
  cbv zeta in Hrun. fold block w1 remote set_mtu set_name run in Hrun.
  pose proof (dns_fallback_extends tb stats config ipv flags quiet w1) as Hext.
  destruct (dns_fallback tb stats config ipv flags quiet w1) as [[[] | e] w2];
    [| exact Hrun].
  split.
  - destruct Hext as (d & Hd & _). simpl in Hd. exists d.
    rewrite Hd. unfold w1, called. simpl. rewrite <- app_assoc. reflexivity.
  - clear Hext. clearbody run. subst run planned.
    unfold configure_builder_settings, when, bind, call, throw, ret.
    fold remote set_mtu set_name.
    repeat (cbn [negb app fst snd calls set_calls];
            match goal with
            | |- context [tb (calls w2) remote] =>
                destruct (tb (calls w2) remote) eqn:?
            | |- context [mtu config =? 0] =>
                destruct (mtu config =? 0) eqn:?
            | |- context [string_empty (session_name config)] =>
                destruct (string_empty (session_name config)) eqn:?
            | |- context [tb ?t set_mtu] => destruct (tb t set_mtu) eqn:?
            | |- context [tb ?t set_name] => destruct (tb t set_name) eqn:?
            end).
    all: eexists; split; [rewrite <- ?app_assoc; reflexivity |]; cbn;
      repeat split; try discriminate; try reflexivity;
      try (eexists; reflexivity);
      try (intros H; repeat (destruct H as [H | H]; try discriminate);
           contradiction).
Qed.

(** ** The DNS fallback *)

Lemma no_dns_call_none_accepted (d : Trace) :
  forallb (fun cr => not_add_dns_server (fst cr)) d = true ->
  existsb dns_accepted d = false.
Proof.
  induction d as [|[c r] d IH]; simpl; [reflexivity |].
  intros H. apply andb_true_iff in H. destruct H as [Hc Hd].
  unfold dns_accepted, not_add_dns_server in *. simpl in *.
  apply negb_true_iff in Hc. rewrite Hc, (IH Hd). reflexivity.
Qed.

Lemma tracks_after {A B} (proj : B -> Z) (m : M World A) (k : A -> M World B) :
  preserves (trace_extends not_add_dns_server) m ->
  (forall a, tracks_dns_flag proj (k a)) ->
  tracks_dns_flag proj (bind m k).
Proof.
  intros Hm Hk w. unfold bind. destruct (Hm w) as (d1 & Hd1 & Hn1).
  destruct (m w) as [[a | e] w1]; simpl in *.
  - destruct (Hk a w1) as (d2 & Hd2 & Hf).
    exists (d1 ++ d2). rewrite Hd2, Hd1, app_assoc. split; [reflexivity |].
    intros b Hb. rewrite existsb_app, (no_dns_call_none_accepted _ Hn1).
    apply Hf. exact Hb.
  - exists d1. split; [exact Hd1 | discriminate].
Qed.

Lemma tracks_throw {A} (proj : A -> Z) (e : exn) :
  tracks_dns_flag proj (throw e).
Proof. intros w. exists []. rewrite app_nil_r. split; [reflexivity | discriminate]. Qed.

Lemma tracks_paired {A} (x : A) (m : M World Z) :
  tracks_dns_flag (fun f => f) m ->
  tracks_dns_flag snd (f <- m ;; ret (x, f)).
Proof.
  intros Hm w. destruct (Hm w) as (d & Hd & Hf). unfold bind, ret.
  destruct (m w) as [[f | e] w1]; simpl in *.
  - exists d. split; [exact Hd |]. intros a [= <-]. apply Hf. reflexivity.
  - exists d. split; [exact Hd | discriminate].
Qed.

Section DnsFlag.

Context {ext : Externals}.
Variable tb : TunBuilderBase.

Ltac dns_body_leaf :=
  first [ apply dns_flag_tracks_dns_case; reflexivity
        | apply dns_flag_tracks_call; reflexivity
        | apply dns_flag_tracks_zoom_modify; reflexivity
        | apply dns_flag_tracks_update_locals; reflexivity ].

Lemma add_dhcp_options_body_tracks dopt quiet :
  preserves (dns_flag_tracks (fun _ => true))
            (add_dhcp_options_body tb dopt quiet).
Proof. unfold_engine. preserves_tac dns_body_leaf. Qed.

Lemma add_dhcp_options_tracks opt quiet :
  tracks_dns_flag (fun f => f) (add_dhcp_options tb opt quiet).
Proof.
  intros w. unfold add_dhcp_options.
  destruct (OptionList_find opt "dhcp-option") as [dopt |].
  - destruct (add_dhcp_options_body_tracks dopt quiet (dhcp_locals_init, w))
      as (d & Hd & _ & Hf).
    destruct (add_dhcp_options_body tb dopt quiet (dhcp_locals_init, w))
      as [[[] | e] [l w']]; simpl in *.
    + exists d. split; [exact Hd |]. intros a [= <-]. exact Hf.
    + exists d. split; [exact Hd | discriminate].
  - exists []. simpl. rewrite app_nil_r. split; [reflexivity |].
    intros a [= <-]. reflexivity.
Qed.

Ltac no_dns_leaf :=
  first [ apply trace_extends_call; reflexivity
        | apply trace_extends_modify; reflexivity ].

Lemma configure_builder_head_tracks server_addr config opt eer_factory quiet :
  tracks_dns_flag snd
    (configure_builder_head tb server_addr config opt eer_factory quiet).
Proof.
  unfold configure_builder_head.
  apply tracks_after;
    [unfold_engine; preserves_tac no_dns_leaf | intros _].
  apply tracks_after;
    [unfold_engine; preserves_tac no_dns_leaf | intros ip_ver_flags].
  cbv zeta.
  apply tracks_after;
    [unfold_engine; preserves_tac no_dns_leaf | intros _].
  apply tracks_after;
    [unfold_engine; preserves_tac no_dns_leaf | intros _].
  apply tracks_after;
    [unfold_engine; preserves_tac no_dns_leaf | intros _].
  apply tracks_after;
    [unfold_engine; preserves_tac no_dns_leaf | intros ok].
  destruct ok; cbn [negb]; [| apply tracks_throw].
  apply tracks_paired, add_dhcp_options_tracks.
Qed.

Ltac same_stats_leaf :=
  first [ apply same_stats_call
        | apply same_stats_modify; reflexivity
        | apply preserves_zoom
        | solve [apply update_locals_preserves; try exact _]
        | apply add_dhcp_options_preserves; try exact _; [intros] ].

Lemma configure_builder_head_same_stats server_addr config opt eer_factory quiet :
  preserves same_stats
    (configure_builder_head tb server_addr config opt eer_factory quiet).
Proof. unfold_engine. preserves_tac same_stats_leaf. Qed.

End DnsFlag.

Section DnsFallback.

Context {ext : Externals}.
Variable tb : TunBuilderBase.

Lemma dns_fallback_result stats config ipv dhcp_option_flags quiet w :
  dns_fallback tb stats config ipv dhcp_option_flags quiet w =
  if rgv4 ipv && negb (has_F_ADD_DNS dhcp_option_flags) then
    if google_dns_fallback config then
      let w1 := logged quiet log_google_dns_fallback w in
      if tb (calls w1) google1 then
        if tb (calls w1 ++ [(google1, true)]) google2
        then (Ok tt, called google2 true (called google1 true w1))
        else (Err google_error, called google2 false (called google1 true w1))
      else (Err google_error, called google1 false w1)
    else (Ok tt, if stats
                 then set_stats_errors w (stats_errors w ++ [REROUTE_GW_NO_DNS])
                 else w)
  else (Ok tt, w).
Proof.
  unfold dns_fallback, has_F_ADD_DNS, add_google_dns. rewrite negb_involutive.
  destruct (rgv4 ipv && (Z.land dhcp_option_flags F_ADD_DNS =? 0));
    [| reflexivity].
  unfold_monad. cbn.
  destruct (google_dns_fallback config); [| destruct stats; reflexivity].
  fold google1 google2 google_error.
  destruct quiet; cbn; fold google1 google2;
    (destruct (tb _ google1); cbn; [| reflexivity]);
    fold google2; destruct (tb _ google2); reflexivity.
Qed.

Ltac no_dns_leaf :=
  first [ apply trace_extends_call; reflexivity
        | apply trace_extends_modify; reflexivity ].

Ltac same_stats_leaf :=
  first [ apply same_stats_call | apply same_stats_modify; reflexivity ].

(** What [configure_builder_tail] does about DNS and the statistics. *)
Lemma configure_builder_tail_dns stats server_addr config opt quiet ipv
      dhcp_option_flags w :
  let run := configure_builder_tail tb stats server_addr config opt quiet
                                    ipv dhcp_option_flags w in
  let block := tun_builder_set_block_ipv6 (OptionList_exists opt "block-ipv6") in
  exists r_block d_fallback d_rest,
    calls (snd run) = calls w ++ (block, r_block) :: d_fallback ++ d_rest
    /\ forallb (fun cr => not_add_dns_server (fst cr)) d_rest = true
    /\ if rgv4 ipv && negb (has_F_ADD_DNS dhcp_option_flags)
       then if google_dns_fallback config
            then stats_errors (snd run) = stats_errors w
                 /\ (d_fallback = [(google1, false)]
                     \/ exists r2, d_fallback = [(google1, true); (google2, r2)])
                 /\ (d_fallback = [(google1, true); (google2, true)]
                     \/ fst run = Err google_error)
            else d_fallback = []
                 /\ stats_errors (snd run) =
                    stats_errors w ++ (if stats then [REROUTE_GW_NO_DNS] else [])
       else d_fallback = [] /\ stats_errors (snd run) = stats_errors w.
Proof.
  intros run block.
  pose proof (configure_builder_tail_unfold tb stats server_addr config opt
                quiet ipv dhcp_option_flags w) as Hrun.
  cbv zeta in Hrun. fold block run in Hrun.
  set (rest := configure_builder_settings tb server_addr config) in Hrun.
  assert (Hr1 : preserves (trace_extends not_add_dns_server) rest)
    by (unfold rest, configure_builder_settings; preserves_tac no_dns_leaf).
  assert (Hr2 : preserves same_stats rest)
    by (unfold rest, configure_builder_settings; preserves_tac same_stats_leaf).
  clearbody rest run.
  rewrite dns_fallback_result in Hrun.
  exists (tb (calls w) block).
  assert (Hlog : forall l w0, calls (logged quiet l w0) = calls w0
                              /\ stats_errors (logged quiet l w0) = stats_errors w0)
    by (intros; unfold logged; destruct quiet; split; reflexivity).
  destruct (rgv4 ipv && negb (has_F_ADD_DNS dhcp_option_flags)).
  - destruct (google_dns_fallback config).
    + cbv zeta in Hrun.
      set (w1 := logged quiet log_google_dns_fallback
                        (called block (tb (calls w) block) w)) in *.
      assert (Hc1 : calls w1 = calls w ++ [(block, tb (calls w) block)])
        by (unfold w1; rewrite (proj1 (Hlog _ _)); reflexivity).
      assert (Hs1 : stats_errors w1 = stats_errors w)
        by (unfold w1; rewrite (proj2 (Hlog _ _)); reflexivity).
      destruct (tb (calls w1) google1).
      * destruct (tb (calls w1 ++ [(google1, true)]) google2).
        -- set (w2 := called google2 true (called google1 true w1)) in *.
           destruct (Hr1 w2) as (d & Hd & Hn). pose proof (Hr2 w2) as Hs.
           exists [(google1, true); (google2, true)], d.
           rewrite Hrun. unfold same_stats in Hs. rewrite Hd, Hs.
           unfold w2, called. simpl. rewrite Hc1, Hs1, <- !app_assoc. simpl.
           repeat split; eauto.
        -- exists [(google1, true); (google2, false)], [].
           rewrite Hrun. unfold called. simpl.
           rewrite Hc1, Hs1, <- !app_assoc. simpl.
           repeat split; eauto.
      * exists [(google1, false)], [].
        rewrite Hrun. unfold called. simpl.
        rewrite Hc1, Hs1, <- !app_assoc. simpl.
        repeat split; eauto.
    + match type of Hrun with
      | context [rest ?w2] =>
          destruct (Hr1 w2) as (d & Hd & Hn); pose proof (Hr2 w2) as Hs
      end.
      exists [], d. rewrite Hrun. unfold same_stats in Hs. rewrite Hd, Hs.
      destruct stats; unfold called; simpl; rewrite <- !app_assoc; simpl;
        rewrite ?app_nil_r; repeat split; eauto.
  - destruct (Hr1 (called block (tb (calls w) block) w)) as (d & Hd & Hn).
    pose proof (Hr2 (called block (tb (calls w) block) w)) as Hs.
    exists [], d. rewrite Hrun. unfold same_stats in Hs. rewrite Hd, Hs.
    unfold called. simpl. rewrite <- !app_assoc. simpl. repeat split; eauto.
Qed.

End DnsFallback.

(** C3, as the code has it: the part of [configure_builder] that ends with
    [add_dhcp_options] reports nothing to the statistics sink, and
    [F_ADD_DNS] is set in the flags it returns exactly when the builder
    accepted a [tun_builder_add_dns_server] call.  After that, if
    redirect-gateway V4 is active and no DNS server was accepted: with the
    fallback enabled the engine calls [tun_builder_add_dns_server] for
    8.8.8.8 and, once accepted, for 8.8.4.4 (a refusal of either is fatal),
    and reports nothing; with the fallback disabled it adds no DNS server
    and reports exactly one [REROUTE_GW_NO_DNS] when a statistics sink was
    supplied.  In every other case it adds no DNS server and reports
    nothing.  No other call of the rest of the pass is a DNS server. *)
Theorem dns_fallback_policy {ext : Externals} (tb : TunBuilderBase)
        (stats : bool) (server_addr : IP.Addr) (config : Config)
        (opt : OptionList) (eer_factory quiet : bool) (w : World) :
  let run := configure_builder tb stats server_addr config opt eer_factory
                               quiet w in
  let google1 := tun_builder_add_dns_server "8.8.8.8" false in
  let google2 := tun_builder_add_dns_server "8.8.4.4" false in
  let block := tun_builder_set_block_ipv6 (OptionList_exists opt "block-ipv6") in
  match configure_builder_head tb server_addr config opt eer_factory quiet w with
  | (Err e, w1) => run = (Err e, w1) /\ stats_errors w1 = stats_errors w
  | (Ok (ipv, flags), w1) =>
      exists d_head r_block d_fallback d_rest,
        calls w1 = calls w ++ d_head
        /\ stats_errors w1 = stats_errors w
        /\ has_F_ADD_DNS flags = existsb dns_accepted d_head
        /\ calls (snd run) = calls w1 ++ (block, r_block) :: d_fallback ++ d_rest
        /\ forallb (fun cr => not_add_dns_server (fst cr)) d_rest = true
        /\ if rgv4 ipv && negb (existsb dns_accepted d_head)
           then if google_dns_fallback config
                then stats_errors (snd run) = stats_errors w
                     /\ (d_fallback = [(google1, false)]
                         \/ exists r2,
                              d_fallback = [(google1, true); (google2, r2)])
                     /\ (d_fallback = [(google1, true); (google2, true)]
                         \/ fst run =
                            Err (tun_prop_dhcp_option_error
                                   "tun_builder_add_dns_server failed for Google DNS"))
                else d_fallback = []
                     /\ stats_errors (snd run) =
                        stats_errors w
                        ++ (if stats then [REROUTE_GW_NO_DNS] else [])
           else d_fallback = [] /\ stats_errors (snd run) = stats_errors w
  end.
Proof.
  intros run google1 google2 block.
  pose proof (configure_builder_head_tracks tb server_addr config opt
                eer_factory quiet w) as (d_head & Hd & Hf).
  pose proof (configure_builder_head_same_stats tb server_addr config opt
                eer_factory quiet w) as Hs.
  unfold same_stats in Hs.
  unfold run, configure_builder, bind.
  destruct (configure_builder_head tb server_addr config opt eer_factory quiet w)
    as [[[ipv flags] | e] w1]; simpl in *.
  - pose proof (configure_builder_tail_dns tb stats server_addr config opt
                  quiet ipv flags w1) as (r_block & d_fb & d_rest & Hc & Hn & Hcase).
    cbv zeta in Hc, Hcase.
    exists d_head, r_block, d_fb, d_rest.
    rewrite <- (Hf _ eq_refl), <- Hs.
    repeat split; assumption.
  - split; [reflexivity | exact Hs].
Qed.

(** Counterexample to C2 as the specification states it (a [false] from the
    IPv6-blocking call would be fatal): the builder refuses exactly that
    call, and the pass still returns normally. *)
Lemma block_ipv6_refusal_is_not_fatal :
  let tb := Reference.refuse is_set_block_ipv6 in
  let run := configure_builder (ext := Reference.externals) tb true
               (IP.addr_v4 (IPv4.from_uint32 0x01020304)) Reference.config0
               [["ifconfig"; "10.8.0.1"; "10.8.0.2"]; ["block-ipv6"]]
               false false Reference.world0 in
  In (tun_builder_set_block_ipv6 true, false) (calls (snd run))
  /\ fst run = Ok tt.
Proof. vm_compute. split; [right; right; left |]; reflexivity. Qed.

(** The same finalization with a builder that accepts everything, an MTU and
    a session name: the four calls in order. *)
Example finalization_calls :
  let config := {| session_name := "office"; mtu := 1400;
                   google_dns_fallback := false; remote_list := None;
                   remote_bypass := false |} in
  let ipv := {| v4 := true; v6 := false; rgv4 := false; rgv6 := false;
                api_flags := 0 |} in
  configure_builder_tail (ext := Reference.externals) Reference.accept_all
    true (IP.addr_v4 (IPv4.from_uint32 0x01020304)) config [["block-ipv6"]]
    false ipv 0 Reference.world0
  = (Ok tt,
     set_calls Reference.world0
       [(tun_builder_set_block_ipv6 true, true);
        (tun_builder_set_remote_address "1.2.3.4" false, true);
        (tun_builder_set_mtu 1400, true);
        (tun_builder_set_session_name "office", true)]).
Proof. vm_compute. reflexivity. Qed.

(** Counterexample to C3 as the specification states it (once a DNS
    dhcp-option was seen, neither the fallback addresses nor the event
    occurs): a [dhcp-option DNS] directive is present, its argument is not
    an address, and with redirect-gateway active the two fallback servers
    are added (fallback enabled) or the event is reported (fallback
    disabled). *)
Lemma dns_directive_seen_but_fallback_taken :
  let opt := [["ifconfig"; "10.8.0.1"; "10.8.0.2"]; ["redirect-gateway"];
              ["dhcp-option"; "DNS"; "ns1.example.net"]] in
  let server := IP.addr_v4 (IPv4.from_uint32 0x01020304) in
  let with_fallback :=
    {| session_name := ""; mtu := 0; google_dns_fallback := true;
       remote_list := None; remote_bypass := false |} in
  let run1 := configure_builder (ext := Reference.externals)
                Reference.accept_all true server with_fallback opt false false
                Reference.world0 in
  let run2 := configure_builder (ext := Reference.externals)
                Reference.accept_all true server Reference.config0 opt false
                false Reference.world0 in
  OptionList_find opt "dhcp-option" = Some [["dhcp-option"; "DNS"; "ns1.example.net"]]
  /\ fst run1 = Ok tt
  /\ calls (snd run1) =
     [(tun_builder_add_address "10.8.0.1" 30 "10.8.0.2" false true, true);
      (tun_builder_reroute_gw true false 0, true);
      (tun_builder_set_block_ipv6 false, true);
      (tun_builder_add_dns_server "8.8.8.8" false, true);
      (tun_builder_add_dns_server "8.8.4.4" false, true);
      (tun_builder_set_remote_address "1.2.3.4" false, true)]
  /\ fst run2 = Ok tt
  /\ stats_errors (snd run2) = [REROUTE_GW_NO_DNS].
Proof. vm_compute. repeat split; reflexivity. Qed.

(** The testable property of the specification: [dhcp-option DNS 8.8.8.8]
    with redirect-gateway active and the fallback enabled adds that one
    server only. *)
Example dns_pushed_no_fallback :
  let opt := [["ifconfig"; "10.8.0.1"; "10.8.0.2"]; ["redirect-gateway"];
              ["dhcp-option"; "DNS"; "8.8.8.8"]] in
  let with_fallback :=
    {| session_name := ""; mtu := 0; google_dns_fallback := true;
       remote_list := None; remote_bypass := false |} in
  let run := configure_builder (ext := Reference.externals)
               Reference.accept_all true
               (IP.addr_v4 (IPv4.from_uint32 0x01020304)) with_fallback opt
               false false Reference.world0 in
  filter dns_accepted (calls (snd run)) =
    [(tun_builder_add_dns_server "8.8.8.8" false, true)]
  /\ stats_errors (snd run) = [].
Proof. vm_compute. split; reflexivity. Qed.

(** A builder that refuses the remote address: the pass stops with the
    error of that call. *)
Lemma finalization_order_and_failures_witness :
  let ipv := {| v4 := true; v6 := false; rgv4 := false; rgv6 := false;
                api_flags := 0 |} in
  fst (configure_builder_tail (ext := Reference.externals)
         (Reference.refuse is_set_remote_address) true
         (IP.addr_v4 (IPv4.from_uint32 0x01020304)) Reference.config0 []
         false ipv 0 Reference.world0)
  = Err (tun_prop_error "tun_builder_set_remote_address failed").
Proof.
  intros ipv.
  pose proof (@finalization_order_and_failures Reference.externals
                (Reference.refuse is_set_remote_address) true
                (IP.addr_v4 (IPv4.from_uint32 0x01020304)) Reference.config0 []
                false ipv 0 Reference.world0) as H.
  vm_compute in H.
  destruct H as [_ (d & Hd & _ & _ & Hremote & _)].
  injection Hd as <-.
  exact (Hremote (or_introl eq_refl)).
Defined.

(** Redirect-gateway, no DNS option, fallback disabled, a statistics sink:
    exactly one event. *)
Lemma dns_fallback_policy_witness :
  stats_errors
    (snd (configure_builder (ext := Reference.externals) Reference.accept_all
            true (IP.addr_v4 (IPv4.from_uint32 0x01020304)) Reference.config0
            [["ifconfig"; "10.8.0.1"; "10.8.0.2"]; ["redirect-gateway"]]
            false false Reference.world0))
  = [REROUTE_GW_NO_DNS].
Proof.
  pose proof (@dns_fallback_policy Reference.externals Reference.accept_all
                true (IP.addr_v4 (IPv4.from_uint32 0x01020304))
                Reference.config0
                [["ifconfig"; "10.8.0.1"; "10.8.0.2"]; ["redirect-gateway"]]
                false false Reference.world0) as H.
  vm_compute in H.
  destruct H as (d_head & r_block & d_fb & d_rest & Hd & _ & _ & _ & _ & Hcase).
  subst d_head. vm_compute in Hcase.
  exact (proj2 Hcase).
Defined.

(** Counterexample to C4 as the specification states it (whenever the two
    addresses are in the same /30, the call is made and the V4 address of
    the state is set): the builder refuses the add-address call; the call is
    in the trace, [tun_ifconfig] throws, and the V4 address of the state is
    still unset. *)
Lemma net30_refusal_leaves_state_unset :
  let tb := Reference.refuse is_add_address in
  let run := tun_ifconfig (ext := Reference.externals) tb
               [["ifconfig"; "10.8.0.1"; "10.8.0.2"]] Reference.world0 in
  calls (snd run) =
    [(tun_builder_add_address "10.8.0.1" 30 "10.8.0.2" false true, false)]
  /\ fst run =
     Err (tun_prop_error "tun_builder_add_address IPv4 failed (topology net30)")
  /\ option_map vpn_ip4_addr (state (snd run)) = Some None.
Proof. vm_compute. repeat split; reflexivity. Qed.

(** Counterexample to C9 as the specification states it (with an emulator,
    every route that goes through [add_exclude_route] is recorded, an "add"
    route giving both the builder call and a record): the builder refuses
    the add-route call; the call is in the trace and the emulator has
    recorded nothing, for [add_exclude_route] alone and over a whole pass
    with a [route] directive, which still returns normally. *)
Lemma refused_add_route_is_not_recorded :
  let tb := Reference.refuse is_add_route in
  let route := add_exclude_route (ext := Reference.externals) tb true
                 (IP.addr_v4 (IPv4.from_uint32 0x0A000000)) 8 false true
                 Reference.world0 in
  let pass := configure_builder (ext := Reference.externals) tb true
                (IP.addr_v4 (IPv4.from_uint32 0x01020304)) Reference.config0
                [["ifconfig"; "10.8.0.1"; "10.8.0.2"];
                 ["route"; "10.0.0.0"; "255.0.0.0"]]
                true false Reference.world0 in
  calls (snd route) = [(tun_builder_add_route "10.0.0.0" 8 false, false)]
  /\ eer_routes (snd route) = []
  /\ fst route = Err (tun_prop_route_error "tun_builder_add_route failed")
  /\ fst pass = Ok tt
  /\ In (tun_builder_add_route "10.0.0.0" 8 false, false) (calls (snd pass))
  /\ eer_routes (snd pass) = [].
Proof.
  vm_compute.
  split; [reflexivity |]. split; [reflexivity |]. split; [reflexivity |].
  split; [reflexivity |]. split; [right; left; reflexivity | reflexivity].
Qed.

(** ** Proxy options *)

Section Proxy.

Context {ext : Externals}.
Variable tb : TunBuilderBase.

Lemma add_dhcp_options_iter_never_throws quiet o lw :
  fst (add_dhcp_options_iter tb quiet o lw) = Ok tt.
Proof.
  apply try_catch_log_never_throws. intros e [l w]. reflexivity.
Qed.



Variables (o : Option) (host ps : string).
Hypothesis Hargs : exact_args o 4 = Ok tt.
Hypothesis Hhost : Option_get o 2 256 = Ok host.
Hypothesis Hport : Option_get o 3 256 = Ok ps.
Hypothesis Hbad : validate_port ps = None.




End Proxy.



(** ** More on the IPv4 netmask arithmetic *)

(** The netmask of length [p], as a number. *)
Lemma netmask_value_cases (p : Z) :
  1 <= p <= 32 ->
  IPv4.prefix_len_to_netmask_unchecked p = 2 ^ 32 - 2 ^ (32 - p).
Proof.
  intros H. apply Z_range_cases_1_32 in H. simpl in H.
  repeat (destruct H as [<- | H]; [vm_compute; reflexivity |]).
  contradiction.
Qed.

Lemma netmask_has_top_bits_set_aux (p : Z) :
  1 <= p <= 32 ->
  IPv4.prefix_len_to_netmask p = Ok (2 ^ 32 - 2 ^ (32 - p))
  /\ 2 ^ 31 <= 2 ^ 32 - 2 ^ (32 - p) < 2 ^ 32.
Proof.
  intros H. split.
  - unfold IPv4.prefix_len_to_netmask.
    replace ((1 <=? p) && (p <=? 32)) with true
      by (symmetry; apply andb_true_iff; split; apply Z.leb_le; lia).
    rewrite netmask_value_cases by exact H. reflexivity.
  - assert (0 < 2 ^ (32 - p)) by (apply Z.pow_pos_nonneg; lia).
    assert (2 ^ (32 - p) <= 2 ^ 31) by (apply Z.pow_le_mono_r; lia).
    change (2 ^ 32) with (2 * 2 ^ 31). lia.
Qed.

(** X1: for every prefix length in [1..32] the [int] arithmetic of
    [prefix_len_to_netmask_unchecked], overflow at [p = 1] included, yields
    the 32-bit value with the top [p] bits set, [2^32 - 2^(32-p)]; it is a
    32-bit value whose top bit is set. *)
Theorem netmask_has_top_bits_set (p : Z) :
  1 <= p <= 32 ->
  IPv4.prefix_len_to_netmask p = Ok (2 ^ 32 - 2 ^ (32 - p))
  /\ 2 ^ 31 <= 2 ^ 32 - 2 ^ (32 - p) < 2 ^ 32
  /\ (forall i, 0 <= i < 32 ->
        Z.testbit (IPv4.prefix_len_to_netmask_unchecked p) i = (32 - p <=? i)).
Proof.
  intros H. split; [| split].
  - unfold IPv4.prefix_len_to_netmask.
    replace ((1 <=? p) && (p <=? 32)) with true
      by (symmetry; apply andb_true_iff; split; apply Z.leb_le; lia).
    rewrite netmask_value_cases by exact H. reflexivity.
  - assert (0 < 2 ^ (32 - p)) by (apply Z.pow_pos_nonneg; lia).
    assert (2 ^ (32 - p) <= 2 ^ 31) by (apply Z.pow_le_mono_r; lia).
    change (2 ^ 32) with (2 * 2 ^ 31). lia.
  - intros i Hi. rewrite netmask_value_cases by exact H.
    replace (2 ^ 32 - 2 ^ (32 - p)) with (Z.shiftl (Z.ones p) (32 - p)).
    + destruct (32 - p <=? i) eqn:E.
      * apply Z.leb_le in E. rewrite Z.shiftl_spec by lia.
        apply Z.ones_spec_low. lia.
      * apply Z.leb_gt in E. apply Z.shiftl_spec_low. exact E.
    + rewrite Z.shiftl_mul_pow2, Z.ones_equiv by lia.
      rewrite <- Z.sub_1_r, Z.mul_sub_distr_r, <- Z.pow_add_r by lia.
      replace (p + (32 - p)) with 32 by lia. lia.
Qed.

Lemma netmask_has_top_bits_set_witness :
  IPv4.prefix_len_to_netmask 1 = Ok 0x80000000
  /\ IPv4.prefix_len_to_netmask 24 = Ok 0xFFFFFF00.
Proof.
  split.
  - exact (proj1 (netmask_has_top_bits_set (p := 1) ltac:(lia))).
  - exact (proj1 (netmask_has_top_bits_set (p := 24) ltac:(lia))).
Defined.

(** X2: a longer prefix gives a numerically larger netmask, which is what
    the comparison [u.addr > test] of the binary search relies on; so two
    lengths with the same netmask are equal. *)
Theorem netmask_increases_with_prefix_len (p q : Z) :
  1 <= p <= 32 -> 1 <= q <= 32 ->
  (p < q ->
   IPv4.prefix_len_to_netmask_unchecked p < IPv4.prefix_len_to_netmask_unchecked q)
  /\ (forall m, IPv4.netmask_from_prefix_len p = Ok m ->
                IPv4.netmask_from_prefix_len q = Ok m -> p = q).
Proof.
  intros Hp Hq.
  assert (Hlt : forall a b, 1 <= a <= 32 -> 1 <= b <= 32 -> a < b ->
                IPv4.prefix_len_to_netmask_unchecked a
                < IPv4.prefix_len_to_netmask_unchecked b).
  { intros a b Ha Hb Hab. rewrite !netmask_value_cases by assumption.
    assert (2 ^ (32 - b) < 2 ^ (32 - a)) by (apply Z.pow_lt_mono_r; lia). lia. }
  split; [apply Hlt; assumption |].
  intros m Hmp Hmq.
  unfold IPv4.netmask_from_prefix_len, IPv4.prefix_len_to_netmask in *.
  replace ((1 <=? p) && (p <=? 32)) with true in Hmp
    by (symmetry; apply andb_true_iff; split; apply Z.leb_le; lia).
  replace ((1 <=? q) && (q <=? 32)) with true in Hmq
    by (symmetry; apply andb_true_iff; split; apply Z.leb_le; lia).
  injection Hmp as Hmp. injection Hmq as Hmq.
  assert (E : IPv4.prefix_len_to_netmask_unchecked p
              = IPv4.prefix_len_to_netmask_unchecked q)
    by (rewrite <- Hmq in Hmp; injection Hmp; auto).
  destruct (Z.lt_trichotomy p q) as [L | [L | L]]; [| exact L |].
  - pose proof (Hlt p q Hp Hq L). lia.
  - pose proof (Hlt q p Hq Hp L). lia.
Qed.

Lemma netmask_increases_with_prefix_len_witness :
  IPv4.prefix_len_to_netmask_unchecked 8 < IPv4.prefix_len_to_netmask_unchecked 24.
Proof.
  exact (proj1 (netmask_increases_with_prefix_len (p := 8) (q := 24)
                  ltac:(lia) ltac:(lia)) ltac:(lia)).
Defined.

Lemma netmask_testbit (p i : Z) :
  1 <= p <= 32 -> 0 <= i ->
  Z.testbit (IPv4.prefix_len_to_netmask_unchecked p) i
  = (32 - p <=? i) && (i <? 32).
Proof.
  intros Hp Hi. rewrite netmask_value_cases by exact Hp.
  replace (2 ^ 32 - 2 ^ (32 - p)) with (Z.shiftl (Z.ones p) (32 - p)).
  - destruct (32 - p <=? i) eqn:E.
    + apply Z.leb_le in E. rewrite Z.shiftl_spec by lia.
      rewrite Z.testbit_ones_nonneg by lia.
      destruct (i - (32 - p) <? p) eqn:F, (i <? 32) eqn:G; try reflexivity;
        rewrite ?Z.ltb_lt, ?Z.ltb_ge in *; lia.
    + apply Z.leb_gt in E. rewrite Z.shiftl_spec_low by exact E. reflexivity.
  - rewrite Z.shiftl_mul_pow2, Z.ones_equiv by lia.
    rewrite <- Z.sub_1_r, Z.mul_sub_distr_r, <- Z.pow_add_r by lia.
    replace (p + (32 - p)) with 32 by lia. lia.
Qed.

(** X3: [operator&] of two netmasks is the netmask of the shorter prefix and
    [operator|] is the netmask of the longer one. *)
Theorem netmask_and_or (p q : Z) :
  1 <= p <= 32 -> 1 <= q <= 32 ->
  forall mp mq,
    IPv4.netmask_from_prefix_len p = Ok mp ->
    IPv4.netmask_from_prefix_len q = Ok mq ->
    IPv4.netmask_from_prefix_len (Z.min p q) = Ok (IPv4.bit_and mp mq)
    /\ IPv4.netmask_from_prefix_len (Z.max p q) = Ok (IPv4.bit_or mp mq).
Proof.
  intros Hp Hq mp mq Hmp Hmq.
  assert (Hok : forall n, 1 <= n <= 32 ->
                IPv4.netmask_from_prefix_len n
                = Ok (IPv4.from_uint32 (IPv4.prefix_len_to_netmask_unchecked n))).
  { intros n Hn. unfold IPv4.netmask_from_prefix_len, IPv4.prefix_len_to_netmask.
    replace ((1 <=? n) && (n <=? 32)) with true
      by (symmetry; apply andb_true_iff; split; apply Z.leb_le; lia).
    reflexivity. }
  rewrite Hok in Hmp, Hmq by assumption.
  injection Hmp as <-. injection Hmq as <-.
  rewrite !Hok by lia. unfold IPv4.bit_and, IPv4.bit_or. cbn [IPv4.u_addr].
  split; do 2 f_equal; apply Z.bits_inj'; intros i Hi;
    rewrite ?Z.land_spec, ?Z.lor_spec, !netmask_testbit by lia;
    destruct (i <? 32);
    rewrite ?andb_true_r, ?andb_false_r; try reflexivity.
  - destruct (Z.min_spec p q) as [[? ->] | [? ->]];
      destruct (32 - p <=? i) eqn:A, (32 - q <=? i) eqn:B; try reflexivity;
      rewrite ?Z.leb_le, ?Z.leb_gt in *; lia.
  - destruct (Z.max_spec p q) as [[? ->] | [? ->]];
      destruct (32 - p <=? i) eqn:A, (32 - q <=? i) eqn:B; try reflexivity;
      rewrite ?Z.leb_le, ?Z.leb_gt in *; lia.
Qed.

Lemma netmask_and_or_witness :
  IPv4.netmask_from_prefix_len (Z.min 8 24)
  = Ok (IPv4.bit_and (IPv4.from_uint32 0xFF000000) (IPv4.from_uint32 0xFFFFFF00))
  /\ IPv4.netmask_from_prefix_len (Z.max 8 24)
     = Ok (IPv4.bit_or (IPv4.from_uint32 0xFF000000) (IPv4.from_uint32 0xFFFFFF00)).
Proof.
  exact (netmask_and_or (p := 8) (q := 24) ltac:(lia) ltac:(lia)
                        eq_refl eq_refl).
Defined.

(** X4: on 32-bit values [negate] is its own inverse and never yields the
    value it was given; [from_zero_complement] is the all-ones netmask, of
    prefix length 32; the complement of the netmask of length [p] is the
    host mask [2^(32-p) - 1]. *)
Theorem negate_involutive (a : IPv4.Addr) :
  0 <= IPv4.u_addr a < 2 ^ 32 ->
  IPv4.negate (IPv4.negate a) = a
  /\ IPv4.eqb (IPv4.negate a) a = false
  /\ 0 <= IPv4.u_addr (IPv4.negate a) < 2 ^ 32
  /\ IPv4.prefix_len IPv4.from_zero_complement = Ok 32
  /\ (forall p m, 1 <= p <= 32 ->
        IPv4.netmask_from_prefix_len p = Ok m ->
        IPv4.u_addr (IPv4.negate m) = 2 ^ (32 - p) - 1).
Proof.
  intros Ha.
  assert (Hneg : forall x, 0 <= x < 2 ^ 32 ->
                 IPv4.to_uint32 (Z.lnot x) = 2 ^ 32 - 1 - x).
  { intros x Hx. unfold IPv4.to_uint32, Z.lnot.
    symmetry. apply (Z.mod_unique_pos _ _ (-1)); lia. }
  destruct a as [x]. cbn [IPv4.u_addr] in *.
  unfold IPv4.negate, IPv4.eqb. cbn [IPv4.u_addr].
  rewrite (Hneg x Ha). rewrite Hneg by lia.
  split; [f_equal; lia |]. split; [apply Z.eqb_neq; lia |].
  split; [lia |]. split; [reflexivity |].
  intros p m Hp Hm.
  unfold IPv4.netmask_from_prefix_len in Hm.
  rewrite (proj1 (netmask_has_top_bits_set_aux Hp)) in Hm.
  apply (f_equal (fun r => match r with
                           | Ok b => IPv4.u_addr b
                           | Err _ => 0
                           end)) in Hm.
  cbv beta iota in Hm. cbn [IPv4.u_addr] in Hm. rewrite <- Hm.
  assert (0 < 2 ^ (32 - p) <= 2 ^ 32).
  { split; [apply Z.pow_pos_nonneg; lia | apply Z.pow_le_mono_r; lia]. }
  rewrite Hneg by lia. lia.
Qed.

Lemma negate_involutive_witness :
  IPv4.negate (IPv4.negate (IPv4.from_uint32 0x0A080001))
  = IPv4.from_uint32 0x0A080001.
Proof.
  exact (proj1 (negate_involutive (IPv4.from_uint32 0x0A080001)
                  ltac:(simpl; lia))).
Defined.

(** ** More on [tun_ifconfig] *)

(** X5: [tun_ifconfig] refuses a configuration before any builder call and
    without touching the world when the [topology] directive names anything
    but [subnet] or [net30] (even if no [ifconfig] directive follows), when
    its argument cannot be read, and when neither [ifconfig] nor
    [ifconfig-ipv6] is present. *)
Theorem tun_ifconfig_rejects {ext : Externals} (tb : TunBuilderBase)
        (opt : OptionList) (w : World) :
  (forall ot s,
      get_ptr opt "topology" = Some ot -> Option_get ot 1 16 = Ok s ->
      s <> "subnet" -> s <> "net30" ->
      tun_ifconfig tb opt w =
      (Err (option_error "only topology 'subnet' and 'net30' supported"), w))
  /\ (forall ot e,
        get_ptr opt "topology" = Some ot -> Option_get ot 1 16 = Err e ->
        tun_ifconfig tb opt w = (Err e, w))
  /\ (forall top,
        tun_ifconfig_topology opt w = (Ok top, w) ->
        get_ptr opt "ifconfig" = None ->
        get_ptr opt "ifconfig-ipv6" = None ->
        tun_ifconfig tb opt w =
        (Err (tun_prop_error "one of ifconfig or ifconfig-ipv6 must be specified"),
         w)).
Proof.
  split; [| split].
  - intros ot s Hot Hs Hsub Hnet. unfold tun_ifconfig, tun_ifconfig_topology.
    rewrite Hot. unfold_monad. rewrite Hs.
    destruct (String.eqb_spec s "subnet"); [contradiction |].
    destruct (String.eqb_spec s "net30"); [contradiction |]. reflexivity.
  - intros ot e Hot He. unfold tun_ifconfig, tun_ifconfig_topology.
    rewrite Hot. unfold_monad. rewrite He. reflexivity.
  - intros top Htop H4 H6. rewrite (tun_ifconfig_after_topology tb opt Htop).
    unfold tun_ifconfig_ipv4, tun_ifconfig_ipv6. rewrite H4, H6. reflexivity.
Qed.

Lemma tun_ifconfig_rejects_witness :
  tun_ifconfig (ext := Reference.externals) Reference.accept_all
               [["topology"; "p2p"]; ["ifconfig"; "10.8.0.1"; "10.8.0.2"]]
               Reference.world0
  = (Err (option_error "only topology 'subnet' and 'net30' supported"),
     Reference.world0)
  /\ tun_ifconfig (ext := Reference.externals) Reference.accept_all
                  [["topology"; "subnet"]] Reference.world0
     = (Err (tun_prop_error "one of ifconfig or ifconfig-ipv6 must be specified"),
        Reference.world0).
Proof.
  split.
  - refine (proj1 (@tun_ifconfig_rejects Reference.externals Reference.accept_all
                     [["topology"; "p2p"]; ["ifconfig"; "10.8.0.1"; "10.8.0.2"]]
                     Reference.world0) ["topology"; "p2p"] "p2p"
                  eq_refl eq_refl _ _); discriminate.
  - exact (proj2 (proj2 (@tun_ifconfig_rejects Reference.externals
                           Reference.accept_all [["topology"; "subnet"]]
                           Reference.world0))
                 SUBNET eq_refl eq_refl eq_refl).
Defined.

(** X6: under topology subnet the [ifconfig] directive is read as an
    address/netmask pair (second token optional); a pair that is not V4, a
    netmask without a prefix length and a [route-gateway] that does not parse
    or is not V4 are fatal before any builder call.  Otherwise exactly one
    V4 [tun_builder_add_address] call is added to the trace, with the
    address, the prefix length of the netmask, the route gateway (the empty
    string when there is no [route-gateway] directive), [ipv6 = false] and
    [net30 = false]; a refusal is fatal and leaves the state as it was, and
    once the call is accepted the V4 address of the caller's state is the
    address of the pair.  The pair need not be canonical. *)
Theorem subnet_ifconfig {ext : Externals} (tb : TunBuilderBase)
        (opt : OptionList) (o : Option) (w : World) :
  tun_ifconfig_topology opt w = (Ok SUBNET, w) ->
  get_ptr opt "ifconfig" = Some o ->
  let run := tun_ifconfig tb opt w in
  (forall e, route_ipv4_pair o = Err e -> run = (Err e, w))
  /\ (forall pair,
        route_ipv4_pair o = Ok pair ->
        (IP.pair_version pair <> IP.V4 ->
         run = (Err (tun_prop_error "ifconfig address is not IPv4 (topology subnet)"), w))
        /\ (IP.pair_version pair = IP.V4 ->
            (forall e, Addr_prefix_len (IP.netmask pair) = Err e ->
                       run = (Err e, w))
            /\ (forall p,
                  Addr_prefix_len (IP.netmask pair) = Ok p ->
                  (forall e, fst (route_gateway opt w) = Err e ->
                             run = (Err e, w))
                  /\ (forall gw,
                        fst (route_gateway opt w) = Ok gw ->
                        let c := tun_builder_add_address
                                   (addr_to_string (IP.addr pair)) p gw
                                   false false in
                        (get_ptr opt "route-gateway" = None -> gw = "")
                        /\ (exists rest,
                               calls (snd run) =
                                 calls w ++ (c, tb (calls w) c) :: rest
                               /\ (List.length rest <= 1)%nat
                               /\ forallb (fun cr =>
                                             is_add_address_for true (fst cr))
                                          rest = true)
                        /\ (tb (calls w) c = false ->
                            fst run = Err (tun_prop_error "tun_builder_add_address IPv4 failed (topology subnet)")
                            /\ calls (snd run) = calls w ++ [(c, false)]
                            /\ state (snd run) = state w)
                        /\ (tb (calls w) c = true ->
                            (forall st,
                                state w = Some st ->
                                exists st',
                                  state (snd run) = Some st'
                                  /\ vpn_ip4_addr st' = Some (IP.addr pair))
                            /\ (get_ptr opt "ifconfig-ipv6" = None ->
                                fst run = Ok IP.V4_MASK
                                /\ calls (snd run) = calls w ++ [(c, true)])))))).
Proof.
  intros Htop Hif run.
  assert (Hdef : run = tun_ifconfig tb opt w) by reflexivity.
  assert (Hrun : run = bind (tun_ifconfig_ipv4 tb opt SUBNET)
                            (tun_ifconfig_ipv6 tb opt) w)
    by (apply tun_ifconfig_after_topology; exact Htop).
  clearbody run.
  assert (H4 : forall r, route_ipv4_pair o = r ->
             tun_ifconfig_ipv4 tb opt SUBNET w =
             match r with
             | Err e => (Err e, w)
             | Ok pr =>
                 (if negb (IP.Version_eqb (IP.pair_version pr) IP.V4)
                  then throw (tun_prop_error "ifconfig address is not IPv4 (topology subnet)")
                  else
                    p <- lift (Addr_prefix_len (IP.netmask pr)) ;;
                    gw <- route_gateway opt ;;
                    ok <- call tb (tun_builder_add_address
                                     (addr_to_string (IP.addr pr)) p gw
                                     false false) ;;
                    if negb ok
                    then throw (tun_prop_error "tun_builder_add_address IPv4 failed (topology subnet)")
                    else
                      store_vpn_ip4_addr (IP.addr pr) ;;;
                      ret (Z.lor 0 IP.V4_MASK)) w
             end).
  { intros r Hr. unfold tun_ifconfig_ipv4. rewrite Hif.
    unfold route_ipv4_pair, rbind in Hr.
    unfold bind at 1. unfold lift at 1.
    destruct (Option_get o 1 256) as [s1 | e]; [| subst r; reflexivity].
    unfold bind at 1. unfold lift at 1.
    destruct (Option_get_optional o 2 256) as [s2 | e]; [| subst r; reflexivity].
    unfold bind at 1. unfold lift at 1. rewrite Hr.
    destruct r; reflexivity. }
  split.
  - intros e He. rewrite Hrun. unfold bind. rewrite (H4 _ He). reflexivity.
  - intros pair Hp. specialize (H4 _ Hp). cbv beta iota in H4. split.
    + intros Hv. rewrite Hrun. unfold bind at 1. rewrite H4.
      destruct (IP.pair_version pair); [congruence | reflexivity].
    + intros Hv. rewrite Hv in H4. cbn [IP.Version_eqb negb] in H4. split.
      * intros e He. rewrite Hrun. unfold bind at 1. rewrite H4.
        unfold_monad. rewrite He. reflexivity.
      * intros p Hpl.
        pose proof (route_gateway_pure opt w) as Hgw.
        destruct (route_gateway opt w) as [rg wg] eqn:Eg. simpl in Hgw. subst wg.
        cbv beta iota delta [fst]. split.
        -- intros e ->. rewrite Hrun. unfold bind at 1. rewrite H4.
           unfold bind, lift. rewrite Hpl, Eg. reflexivity.
        -- intros gw -> c.
           assert (H4' : tun_ifconfig_ipv4 tb opt SUBNET w =
                         if tb (calls w) (add_address_call false (IP.addr pair) p gw false)
                         then (Ok IP.V4_MASK,
                               assigned false (IP.addr pair) p gw false w)
                         else (Err (tun_prop_error "tun_builder_add_address IPv4 failed (topology subnet)"),
                               refused false (IP.addr pair) p gw false w)).
           { rewrite H4. unfold bind at 1. unfold lift at 1. rewrite Hpl.
             unfold bind at 1. rewrite Eg. unfold bind at 1. unfold call at 1.
             unfold add_address_call. cbv beta iota zeta.
             destruct (tb (calls w) _); reflexivity. }
           pose proof (@tun_ifconfig_v4_call_reads _ tb opt SUBNET w
                         (IP.addr pair) p gw false _ Htop H4') as Hreads.
           cbv zeta in Hreads. unfold add_address_call in Hreads.
           fold c in Hreads. rewrite <- Hdef in Hreads.
           destruct Hreads as (Hcalls & _ & _ & _ & Href & Hacc).
           split.
           { intros Hnone. unfold route_gateway in Eg. rewrite Hnone in Eg.
             injection Eg as <-. reflexivity. }
           split; [exact Hcalls |]. split; [exact Href |].
           intros Hc. destruct (Hacc Hc) as (_ & Hst & Hnone).
           split.
           ++ intros st Hw. destruct (Hst st Hw) as (st' & E1 & E2 & _).
              exists st'. split; assumption.
           ++ intros Hn. destruct (Hnone Hn) as (E1 & E2 & _).
              split; assumption.
Qed.

Lemma subnet_ifconfig_witness :
  let opt := [["topology"; "subnet"]; ["ifconfig"; "10.8.0.5"; "255.255.255.0"];
              ["route-gateway"; "10.8.0.1"]] in
  let run := tun_ifconfig (ext := Reference.externals) Reference.accept_all opt
                          Reference.world0 in
  fst run = Ok IP.V4_MASK
  /\ calls (snd run) =
     [(tun_builder_add_address "10.8.0.5" 24 "10.8.0.1" false false, true)]
  /\ exists st',
       state (snd run) = Some st'
       /\ vpn_ip4_addr st' = Some (IP.addr_v4 (IPv4.from_uint32 0x0A080005)).
Proof.
  intros opt run.
  destruct (@subnet_ifconfig Reference.externals Reference.accept_all opt
              ["ifconfig"; "10.8.0.5"; "255.255.255.0"] Reference.world0
              eq_refl eq_refl) as [_ H].
  destruct (H _ eq_refl) as [_ H1].
  destruct (H1 eq_refl) as [_ H2].
  destruct (H2 24 eq_refl) as [_ H3].
  destruct (H3 "10.8.0.1" eq_refl) as (_ & _ & _ & H4).
  destruct (H4 eq_refl) as (Hst & Hnone).
  destruct (Hnone eq_refl) as (E1 & E2).
  split; [exact E1 |]. split; [exact E2 |].
  exact (Hst Reference.empty_state eq_refl).
Defined.

(** X7: the worlds a successful [tun_ifconfig] leaves, with the family mask
    it returns.  The mask is never zero; each family in it stands for
    exactly one accepted [tun_builder_add_address] call, V4 before V6, and
    the address given to that call is the one written to the caller's state
    for that family.  Nothing else is called or written. *)
Theorem tun_ifconfig_success {ext : Externals} (tb : TunBuilderBase)
        (opt : OptionList) (w w' : World) (f : Z) :
  tun_ifconfig tb opt w = (Ok f, w') ->
  (f = IP.V4_MASK
   /\ exists a p gw n30, w' = assigned false a p gw n30 w)
  \/ (f = IP.V6_MASK
      /\ exists a p gw, w' = assigned true a p gw false w)
  \/ (f = Z.lor IP.V4_MASK IP.V6_MASK
      /\ exists a4 p4 gw4 n30 a6 p6 gw6,
           w' = assigned true a6 p6 gw6 false (assigned false a4 p4 gw4 n30 w)).
Proof.
  intros Hrun. unfold tun_ifconfig in Hrun. unfold bind at 1 in Hrun.
  pose proof (tun_ifconfig_topology_pure opt w) as Htop.
  destruct (tun_ifconfig_topology opt w) as [[top | e] w0]; simpl in Htop;
    subst w0; [| discriminate].
  unfold bind in Hrun.
  destruct (tun_ifconfig_ipv4_stage tb opt top w)
    as [[_ H4] | [(a & p & gw & n30 & H4) | [[_ [e H4]] | (e & a & p & gw & n30 & H4)]]];
    cbv zeta in H4; rewrite H4 in Hrun; try discriminate.
  - destruct (tun_ifconfig_ipv6_stage tb opt 0 w)
      as [[_ H6] | [[_ (a & p & gw & H6)] | [[_ [e H6]] | [_ (e & a & p & gw & H6)]]]];
      cbv zeta in H6; rewrite H6 in Hrun; try discriminate.
    injection Hrun as <- <-. right. left. split; [reflexivity | eauto].
  - destruct (tun_ifconfig_ipv6_stage tb opt IP.V4_MASK (assigned false a p gw n30 w))
      as [[_ H6] | [[_ (a6 & p6 & gw6 & H6)] | [[_ [e H6]] | [_ (e & a6 & p6 & gw6 & H6)]]]];
      cbv zeta in H6; rewrite H6 in Hrun; try discriminate.
    + injection Hrun as <- <-. left. split; [reflexivity | eauto].
    + injection Hrun as <- <-. right. right. split; [reflexivity |].
      exists a, p, gw, n30, a6, p6, gw6. reflexivity.
Qed.

Lemma tun_ifconfig_success_witness :
  exists a4 p4 gw4 n30 a6 p6 gw6,
    snd (tun_ifconfig (ext := Reference6.externals) Reference.accept_all
           [["ifconfig"; "10.8.0.1"; "10.8.0.2"];
            ["ifconfig-ipv6"; "fd00:0:0:0:0:0:0:2/64"; "fd00:0:0:0:0:0:0:1"]]
           Reference.world0)
    = assigned (ext := Reference6.externals) true a6 p6 gw6 false
        (assigned (ext := Reference6.externals) false a4 p4 gw4 n30
                  Reference.world0).
Proof.
  destruct (@tun_ifconfig_success Reference6.externals Reference.accept_all
              [["ifconfig"; "10.8.0.1"; "10.8.0.2"];
               ["ifconfig-ipv6"; "fd00:0:0:0:0:0:0:2/64"; "fd00:0:0:0:0:0:0:1"]]
              Reference.world0 _ _ eq_refl)
    as [[H _] | [[H _] | [_ H]]]; [discriminate H | discriminate H | exact H].
Defined.

(** X8: the worlds a failing [tun_ifconfig] leaves.  Either nothing was
    called, or the first call was refused, or the [ifconfig] call had been
    accepted before the [ifconfig-ipv6] part failed; in that last case the
    accepted call stays in the trace and the V4 address stays written to the
    caller's state: nothing is undone.  The V6 address is never written by a
    run that fails. *)
Theorem tun_ifconfig_failure {ext : Externals} (tb : TunBuilderBase)
        (opt : OptionList) (w w' : World) (e : exn) :
  tun_ifconfig tb opt w = (Err e, w') ->
  w' = w
  \/ (exists v6 a p gw n30, w' = refused v6 a p gw n30 w)
  \/ (exists a4 p4 gw4 n30,
         get_ptr opt "ifconfig-ipv6" <> None
         /\ (w' = assigned false a4 p4 gw4 n30 w
             \/ exists a6 p6 gw6,
                  w' = refused true a6 p6 gw6 false
                         (assigned false a4 p4 gw4 n30 w))).
Proof.
  intros Hrun. unfold tun_ifconfig in Hrun. unfold bind at 1 in Hrun.
  pose proof (tun_ifconfig_topology_pure opt w) as Htop.
  destruct (tun_ifconfig_topology opt w) as [[top | e0] w0]; simpl in Htop;
    subst w0; [| injection Hrun as _ <-; left; reflexivity].
  unfold bind in Hrun.
  destruct (tun_ifconfig_ipv4_stage tb opt top w)
    as [[_ H4] | [(a & p & gw & n30 & H4) | [[_ [e4 H4]] | (e4 & a & p & gw & n30 & H4)]]];
    cbv zeta in H4; rewrite H4 in Hrun.
  - destruct (tun_ifconfig_ipv6_stage tb opt 0 w)
      as [[_ H6] | [[_ (a & p & gw & H6)] | [[_ [e6 H6]] | [_ (e6 & a & p & gw & H6)]]]];
      cbv zeta in H6; rewrite H6 in Hrun; try discriminate.
    + simpl in Hrun. injection Hrun as _ <-. left. reflexivity.
    + injection Hrun as _ <-. left. reflexivity.
    + injection Hrun as _ <-. right. left. exists true, a, p, gw, false.
      reflexivity.
  - destruct (tun_ifconfig_ipv6_stage tb opt IP.V4_MASK (assigned false a p gw n30 w))
      as [[_ H6] | [[_ (a6 & p6 & gw6 & H6)] | [[Hd [e6 H6]] | [Hd (e6 & a6 & p6 & gw6 & H6)]]]];
      cbv zeta in H6; rewrite H6 in Hrun; try discriminate.
    + injection Hrun as _ <-. right. right. exists a, p, gw, n30.
      split; [exact Hd | left; reflexivity].
    + injection Hrun as _ <-. right. right. exists a, p, gw, n30.
      split; [exact Hd | right; exists a6, p6, gw6; reflexivity].
  - injection Hrun as _ <-. left. reflexivity.
  - injection Hrun as _ <-. right. left. exists false, a, p, gw, n30.
    reflexivity.
Qed.

Lemma tun_ifconfig_failure_witness :
  let w' := snd (tun_ifconfig (ext := Reference.externals) Reference.accept_all
                   [["ifconfig"; "10.8.0.1"; "10.8.0.2"];
                    ["ifconfig-ipv6"; "10.9.0.1"]] Reference.world0) in
  w' = Reference.world0
  \/ (exists v6 a p gw n30,
         w' = refused (ext := Reference.externals) v6 a p gw n30 Reference.world0)
  \/ (exists a4 p4 gw4 n30,
         Reference.get_ptr [["ifconfig"; "10.8.0.1"; "10.8.0.2"];
                            ["ifconfig-ipv6"; "10.9.0.1"]] "ifconfig-ipv6" <> None
         /\ (w' = assigned (ext := Reference.externals) false a4 p4 gw4 n30
                           Reference.world0
             \/ exists a6 p6 gw6,
                  w' = refused (ext := Reference.externals) true a6 p6 gw6 false
                         (assigned (ext := Reference.externals) false a4 p4 gw4
                                   n30 Reference.world0))).
Proof.
  intros w'.
  exact (@tun_ifconfig_failure Reference.externals Reference.accept_all
           [["ifconfig"; "10.8.0.1"; "10.8.0.2"]; ["ifconfig-ipv6"; "10.9.0.1"]]
           Reference.world0 _ _ eq_refl).
Defined.
(** ** What each pass leaves alone *)

#[local] Instance keeps_PreOrder {A} (proj : World -> A) : PreOrder (keeps proj).
Proof.
  split.
  - intros w. reflexivity.
  - intros a b c H1 H2. unfold keeps in *. congruence.
Qed.

#[local] Instance same_state_frame_PreOrder : PreOrder same_state_frame.
Proof.
  split.
  - intros w. unfold same_state_frame. destruct (state w); auto.
  - intros a b c. unfold same_state_frame.
    destruct (state a), (state b), (state c); try tauto.
    intros [H1 H2] [H3 H4]. split; congruence.
Qed.

#[local] Instance keeps_flags_small_PreOrder : PreOrder keeps_flags_small.
Proof.
  split.
  - intros a H. exact H.
  - intros a b c H1 H2 H. apply H2, H1, H.
Qed.

Section Footprints.

Context {ext : Externals}.
Variable tb : TunBuilderBase.

Lemma keeps_call {A} (proj : World -> A) (c : BuilderCall) :
  (forall w r, proj (called c r w) = proj w) ->
  preserves (keeps proj) (call tb c).
Proof. intros H w. unfold call, keeps. simpl. apply H. Qed.

Lemma keeps_modify {A} (proj : World -> A) (f : World -> World) :
  (forall w, proj (f w) = proj w) -> preserves (keeps proj) (modify f).
Proof. intros H w. unfold modify, keeps. simpl. apply H. Qed.

Lemma same_state_frame_call (c : BuilderCall) :
  preserves same_state_frame (call tb c).
Proof.
  intros w. unfold call, same_state_frame. simpl. destruct (state w); auto.
Qed.

Lemma same_state_frame_modify (f : World -> World) :
  (forall w, same_state_frame w (f w)) -> preserves same_state_frame (modify f).
Proof. intros H w. unfold modify. simpl. apply H. Qed.

Lemma keeps_flags_small_zoom {A} (m : M World A) :
  preserves keeps_flags_small (zoom m).
Proof.
  intros [l w] H. unfold zoom. simpl. destruct (m w) as [r w']. exact H.
Qed.

Lemma flags_small_set (f : Z) :
  flags_small f -> flags_small (Z.lor f F_ADD_DNS).
Proof. intros [-> | ->]; right; reflexivity. Qed.

Lemma keeps_flags_small_update (f : DhcpLocals -> DhcpLocals) :
  (forall l, flags_small (flags l) -> flags_small (flags (f l))) ->
  preserves keeps_flags_small (update_locals f).
Proof. intros Hf [l w] H. unfold update_locals, modify. simpl. apply Hf, H. Qed.

Ltac frame_leaf :=
  first [ apply trace_extends_call; reflexivity
        | apply trace_extends_modify; reflexivity
        | apply keeps_call; reflexivity
        | apply keeps_modify; reflexivity
        | apply same_stats_call
        | apply same_stats_modify; reflexivity
        | apply same_state_frame_call
        | apply same_state_frame_modify;
          intros w0; unfold same_state_frame; simpl; destruct (state w0);
          simpl; auto; fail
        | apply keeps_flags_small_zoom
        | apply keeps_flags_small_update; intros l0 H0; simpl;
          first [exact H0 | apply flags_small_set; exact H0]
        | apply preserves_zoom
        | solve [apply update_locals_preserves; try exact _]
        | apply add_dhcp_options_preserves; try exact _; [intros] ].

(** A step that first removes what is guarded by [!quiet] in quiet mode. *)
Ltac quiet_step :=
  first [ progress cbn [negb]
        | match goal with
          | |- preserves _ (when false _) => apply preserves_ret; exact _
          end
        | preserves_step frame_leaf ].

Ltac frame_tac := repeat quiet_step.

(** *** [add_routes] *)

Lemma add_routes_only_route_calls opt server_addr ipv eer quiet :
  preserves (trace_extends is_route_call)
            (add_routes tb opt server_addr ipv eer quiet).
Proof. unfold_engine. frame_tac. Qed.

Lemma add_routes_with_emulator_only_adds opt server_addr ipv quiet :
  preserves (trace_extends is_add_route)
            (add_routes tb opt server_addr ipv true quiet).
Proof. unfold_engine. frame_tac. Qed.

(** *** [add_dhcp_options] *)

Lemma add_dhcp_options_body_never_throws dopt quiet lw :
  fst (add_dhcp_options_body tb dopt quiet lw) = Ok tt.
Proof.
  unfold add_dhcp_options_body.
  apply bind_never_throws.
  - intros s. apply ok_tt_is_ok. apply for_each_never_throws.
    intros o s0. apply add_dhcp_options_iter_never_throws.
  - intros _ s. apply try_catch_log_never_throws. intros e [l w]. reflexivity.
Qed.

Lemma add_dhcp_options_returns opt quiet w :
  exists f, fst (add_dhcp_options tb opt quiet w) = Ok f /\ flags_small f.
Proof.
  unfold add_dhcp_options.
  destruct (OptionList_find opt "dhcp-option") as [dopt |].
  - pose proof (add_dhcp_options_body_never_throws dopt quiet
                  (dhcp_locals_init, w)) as Hok.
    assert (Hfl : preserves keeps_flags_small
                            (add_dhcp_options_body tb dopt quiet))
      by (unfold_engine; frame_tac).
    specialize (Hfl (dhcp_locals_init, w)).
    destruct (add_dhcp_options_body tb dopt quiet (dhcp_locals_init, w))
      as [[[] | e] [l w']]; [| discriminate].
    exists (flags l). split; [reflexivity |]. apply Hfl. left. reflexivity.
  - exists 0. split; [reflexivity | left; reflexivity].
Qed.

Lemma add_dhcp_options_only_dhcp_calls opt quiet :
  preserves (trace_extends is_dhcp_call) (add_dhcp_options tb opt quiet).
Proof. unfold_engine. frame_tac. Qed.

End Footprints.

(** ** Relations kept by a whole pass, from what they allow *)

Lemma preserves_when_if {S} (R : S -> S -> Prop) {R_pre : PreOrder R}
      (b : bool) (m : M S unit) :
  (b = true -> preserves R m) -> preserves R (when b m).
Proof.
  intros H. unfold when. destruct b; [apply H; reflexivity | apply preserves_ret].
  exact _.
Qed.

Ltac bool_side :=
  first [ reflexivity
        | assumption
        | match goal with
          | H : negb ?q = true |- ?q = false =>
              destruct q; [discriminate H | reflexivity]
          end ].

(** Takes [preserves R m] apart like [preserves_step], keeping the
    equations of the tests it goes through. *)
Ltac frame_step leaf :=
  first
    [ solve [apply preserves_ret; try exact _]
    | solve [apply preserves_throw; try exact _]
    | solve [apply preserves_lift; try exact _]
    | solve [apply preserves_gets; try exact _]
    | apply preserves_when_if; try exact _; [intros ?]
    | apply preserves_for_each; try exact _; [intros]
    | apply preserves_try_catch; try exact _; [| intros]
    | leaf
    | apply preserves_bind; try exact _; [| intros]
    | match goal with
      | |- preserves _ (if ?b then _ else _) => destruct b eqn:?
      | |- preserves _ (match ?x with _ => _ end) => destruct x
      end ].

Section Frames.

Context {ext : Externals}.
Variable tb : TunBuilderBase.
Variable R : World -> World -> Prop.
Context {R_pre : PreOrder R}.

(** The leaves, from the parts of [frame_ok]. *)
Ltac world_leaf H :=
  first [ apply (proj1 H)
        | apply (proj1 (proj2 H)); bool_side
        | apply (proj1 (proj2 (proj2 H))); bool_side
        | apply (proj1 (proj2 (proj2 (proj2 H)))); bool_side
        | apply (proj2 (proj2 (proj2 (proj2 H)))); bool_side ].

Lemma add_exclude_route_frame eer quiet stats add addr p ipv6 :
  frame_ok tb R eer quiet stats ->
  preserves R (add_exclude_route tb add addr p ipv6 eer).
Proof.
  intros H. unfold add_exclude_route.
  repeat frame_step ltac:(world_leaf H).
Qed.

Lemma add_routes_frame eer quiet stats opt server_addr ipv :
  frame_ok tb R eer quiet stats ->
  preserves R (add_routes tb opt server_addr ipv eer quiet).
Proof.
  intros H. pose proof (fun add addr p v6 =>
                @add_exclude_route_frame eer quiet stats add addr p v6 H)
    as Hex.
  unfold add_routes, add_routes_ipv4_iter, add_routes_ipv4_try,
         add_routes_ipv6_iter, add_routes_ipv6_try.
  repeat frame_step ltac:(first [apply Hex | world_leaf H]).
Qed.

Lemma add_remote_bypass_routes_frame eer quiet stats addrlist server_addr :
  frame_ok tb R eer quiet stats ->
  preserves R (add_remote_bypass_routes tb addrlist server_addr eer quiet).
Proof.
  intros H. pose proof (fun add addr p v6 =>
                @add_exclude_route_frame eer quiet stats add addr p v6 H)
    as Hex.
  unfold add_remote_bypass_routes, add_remote_bypass_routes_iter.
  repeat frame_step ltac:(first [apply Hex | world_leaf H]).
Qed.

Lemma add_dhcp_options_frame eer quiet stats opt :
  frame_ok tb R eer quiet stats ->
  preserves R (add_dhcp_options tb opt quiet).
Proof.
  intros H.
  apply add_dhcp_options_preserves; [exact _ |]. intros dopt.
  unfold add_dhcp_options_body, add_dhcp_options_iter, add_dhcp_options_try,
         add_dhcp_options_proxy_try, dhcp_forward_words.
  repeat frame_step
         ltac:(first [ solve [apply update_locals_preserves; try exact _]
                     | apply preserves_zoom; world_leaf H ]).
Qed.

Lemma eer_run_emulate_frame quiet stats ipv server_addr :
  frame_ok tb R true quiet stats ->
  preserves R (eer_run_emulate tb ipv server_addr).
Proof.
  intros H. unfold eer_run_emulate.
  repeat frame_step ltac:(world_leaf H).
Qed.

Lemma configure_builder_tail_frame eer quiet stats server_addr config opt
      ipv dhcp_option_flags :
  frame_ok tb R eer quiet stats ->
  preserves R (configure_builder_tail tb stats server_addr config opt quiet
                                      ipv dhcp_option_flags).
Proof.
  intros H. unfold configure_builder_tail, configure_builder_settings, dns_fallback,
         add_google_dns.
  repeat frame_step ltac:(world_leaf H).
Qed.

Lemma tun_ifconfig_frame eer quiet stats opt :
  frame_ok tb R eer quiet stats ->
  (forall a, preserves R (store_vpn_ip4_addr a)) ->
  (forall a, preserves R (store_vpn_ip6_addr a)) ->
  preserves R (tun_ifconfig tb opt).
Proof.
  intros H H4 H6.
  unfold tun_ifconfig, tun_ifconfig_topology, tun_ifconfig_ipv4,
         tun_ifconfig_ipv6, route_gateway.
  repeat frame_step ltac:(first [apply H4 | apply H6 | world_leaf H]).
Qed.

Lemma configure_builder_frame eer quiet stats server_addr config opt :
  frame_ok tb R eer quiet stats ->
  (forall a, preserves R (store_vpn_ip4_addr a)) ->
  (forall a, preserves R (store_vpn_ip6_addr a)) ->
  preserves R (configure_builder tb stats server_addr config opt eer quiet).
Proof.
  intros H H4 H6.
  pose proof (@tun_ifconfig_frame eer quiet stats opt H H4 H6) as Hif.
  pose proof (fun l => @add_remote_bypass_routes_frame eer quiet stats l
                         server_addr H) as Hbp.
  pose proof (fun ipv => @add_routes_frame eer quiet stats opt server_addr
                           ipv H) as Hrt.
  pose proof (@add_dhcp_options_frame eer quiet stats opt H) as Hdh.
  pose proof (fun ipv f => @configure_builder_tail_frame eer quiet stats
                             server_addr config opt ipv f H) as Htl.
  assert (Hem : eer = true ->
                forall ipv, preserves R (eer_run_emulate tb ipv server_addr)).
  { intros -> ipv. eapply eer_run_emulate_frame. exact H. }
 
  unfold configure_builder, configure_builder_head, configure_remote_bypass.
  repeat frame_step
         ltac:(first [ apply Hif | apply Hbp | apply Hrt | apply Hdh
                     | apply Htl | apply Hem; bool_side | world_leaf H ]).
Qed.

End Frames.

(** The relations that the passes keep. *)
Lemma frame_ok_keeps_state {ext : Externals} tb eer quiet stats :
  frame_ok tb (keeps state) eer quiet stats.
Proof. repeat split; intros; intros w; reflexivity. Qed.

Lemma frame_ok_state_frame {ext : Externals} tb eer quiet stats :
  frame_ok tb same_state_frame eer quiet stats.
Proof.
  repeat split; intros; intros w; unfold same_state_frame; simpl;
    destruct (state w); auto.
Qed.

Lemma frame_ok_keeps_stats {ext : Externals} tb eer quiet :
  frame_ok tb (keeps stats_errors) eer quiet false.
Proof.
  repeat split; intros; try discriminate; intros w; reflexivity.
Qed.

Lemma frame_ok_keeps_eer_routes {ext : Externals} tb quiet stats :
  frame_ok tb (keeps eer_routes) false quiet stats.
Proof.
  repeat split; intros; try discriminate; intros w; reflexivity.
Qed.

Lemma frame_ok_keeps_log {ext : Externals} tb eer stats :
  frame_ok tb (keeps log) eer true stats.
Proof.
  repeat split; intros; try discriminate; intros w; reflexivity.
Qed.

(** X9: what [add_routes] can and cannot do.  It never throws: every route
    error is caught inside the loops.  It makes only
    [tun_builder_add_route] and [tun_builder_exclude_route] calls, and with
    an emulator only [tun_builder_add_route] calls.  It leaves the caller's
    state and the statistics alone, the emulator's routes too when there is
    no emulator, and the log in quiet mode. *)
Theorem add_routes_footprint {ext : Externals} (tb : TunBuilderBase)
        (opt : OptionList) (server_addr : IP.Addr) (ipv : IPVerFlags)
        (eer quiet : bool) (w : World) :
  let run e q := add_routes tb opt server_addr ipv e q w in
  fst (run eer quiet) = Ok tt
  /\ trace_extends is_route_call w (snd (run eer quiet))
  /\ trace_extends is_add_route w (snd (run true quiet))
  /\ state (snd (run eer quiet)) = state w
  /\ stats_errors (snd (run eer quiet)) = stats_errors w
  /\ eer_routes (snd (run false quiet)) = eer_routes w
  /\ log (snd (run eer true)) = log w.
Proof.
  intros run. subst run. cbv beta.
  split; [apply add_routes_never_throws |].
  split; [apply add_routes_only_route_calls |].
  split; [apply add_routes_with_emulator_only_adds |].
  split; [| split; [| split]].
  - apply (add_routes_frame (R := keeps state) opt server_addr ipv
             (frame_ok_keeps_state tb eer quiet false)).
  - apply (add_routes_frame (R := keeps stats_errors) opt server_addr ipv
             (frame_ok_keeps_stats tb eer quiet)).
  - apply (add_routes_frame (R := keeps eer_routes) opt server_addr ipv
             (frame_ok_keeps_eer_routes tb quiet false)).
  - apply (add_routes_frame (R := keeps log) opt server_addr ipv
             (frame_ok_keeps_log tb eer false)).
Qed.

(** X10: what [add_dhcp_options] can and cannot do.  It never throws, and
    the flags it returns are 0 or [F_ADD_DNS].  It makes only the calls of
    the DHCP options (DNS and WINS servers, search domains, proxy bypass and
    the three proxy settings).  It leaves the caller's state, the statistics
    and the emulator's routes alone, and the log in quiet mode. *)
Theorem add_dhcp_options_footprint {ext : Externals} (tb : TunBuilderBase)
        (opt : OptionList) (quiet : bool) (w : World) :
  let run q := add_dhcp_options tb opt q w in
  (exists f, fst (run quiet) = Ok f /\ (f = 0 \/ f = F_ADD_DNS))
  /\ trace_extends is_dhcp_call w (snd (run quiet))
  /\ state (snd (run quiet)) = state w
  /\ stats_errors (snd (run quiet)) = stats_errors w
  /\ eer_routes (snd (run quiet)) = eer_routes w
  /\ log (snd (run true)) = log w.
Proof.
  intros run. subst run. cbv beta.
  split; [apply add_dhcp_options_returns |].
  split; [apply add_dhcp_options_only_dhcp_calls |].
  split; [| split; [| split]].
  - apply (add_dhcp_options_frame (R := keeps state) opt
             (frame_ok_keeps_state tb false quiet false)).
  - apply (add_dhcp_options_frame (R := keeps stats_errors) opt
             (frame_ok_keeps_stats tb false quiet)).
  - apply (add_dhcp_options_frame (R := keeps eer_routes) opt
             (frame_ok_keeps_eer_routes tb quiet false)).
  - apply (add_dhcp_options_frame (R := keeps log) opt
             (frame_ok_keeps_log tb false false)).
Qed.

(** X11: what a whole [configure_builder] pass leaves alone, whether it
    returns or throws.  A null state stays null, and the interface name and
    the prefix flag of a state are never written.  Without a statistics sink
    nothing is reported; without an emulator factory the emulator's routes
    are not touched; in quiet mode nothing is logged. *)
Theorem configure_builder_footprint {ext : Externals} (tb : TunBuilderBase)
        (stats : bool) (server_addr : IP.Addr) (config : Config)
        (opt : OptionList) (eer_factory quiet : bool) (w : World) :
  let run s e q := snd (configure_builder tb s server_addr config opt e q w) in
  same_state_frame w (run stats eer_factory quiet)
  /\ stats_errors (run false eer_factory quiet) = stats_errors w
  /\ eer_routes (run stats false quiet) = eer_routes w
  /\ log (run stats eer_factory true) = log w.
Proof.
  intros run. subst run. cbv beta.
  split; [| split; [| split]].
  - apply (configure_builder_frame (R := same_state_frame) server_addr config
             opt (frame_ok_state_frame tb eer_factory quiet stats)).
    + intros a w0. unfold store_vpn_ip4_addr, modify, same_state_frame. simpl.
      destruct (state w0); simpl; auto.
    + intros a w0. unfold store_vpn_ip6_addr, modify, same_state_frame. simpl.
      destruct (state w0); simpl; auto.
  - apply (configure_builder_frame (R := keeps stats_errors) server_addr config
             opt (frame_ok_keeps_stats tb eer_factory quiet));
      intros a w0; reflexivity.
  - apply (configure_builder_frame (R := keeps eer_routes) server_addr config
             opt (frame_ok_keeps_eer_routes tb quiet stats));
      intros a w0; reflexivity.
  - apply (configure_builder_frame (R := keeps log) server_addr config
             opt (frame_ok_keeps_log tb eer_factory stats));
      intros a w0; reflexivity.
Qed.
(** ** IPv6 routes *)

Lemma leaves_nothing (w : World) : leaves w w [] [] [].
Proof. unfold leaves. rewrite !app_nil_r. repeat split. Qed.

(** X12: one iteration of the IPv6 loop of [add_routes], for a
    [route-ipv6] directive whose pair parses and is canonical.  It never
    throws.  A pair that is not V6 is logged and makes no call.  Otherwise
    the target is read from token 2 (not 3 as for IPv4): an "add" route
    makes one [tun_builder_add_route] call with the IPv6 flag set, unless
    redirect-gateway V6 is active, when it does nothing; an "exclude" route
    is recorded by the emulator when there is one and is else one
    [tun_builder_exclude_route] call; another target is logged, with no call.
    A refused call is logged and not passed on, and an accepted add call is
    also recorded by the emulator.  The redirect-gateway flag of V4 plays no
    role. *)
Theorem ipv6_route_rule {ext : Externals} (tb : TunBuilderBase)
        (o : Option) (ipv : IPVerFlags) (eer quiet : bool) (w : World)
        (pair : IP.AddrMaskPair) :
  route_ipv6_pair o = Ok pair ->
  IP.is_canonical pair = Ok true ->
  let a := addr_to_string (IP.addr pair) in
  let step := add_routes_ipv6_iter tb ipv eer quiet o w in
  let line := fun e => if quiet then [] else [log_ipv6_route_error o e] in
  fst step = Ok tt
  /\ (IP.pair_version pair <> IP.V6 ->
      leaves w (snd step) [] [] (line (tun_prop_error "route is not IPv6")))
  /\ (IP.pair_version pair = IP.V6 ->
      forall p, Addr_prefix_len (IP.netmask pair) = Ok p ->
      let add_call := tun_builder_add_route a p true in
      let exclude_call := tun_builder_exclude_route a p true in
      let record := fun add =>
        {| eer_add := add; eer_addr := IP.addr pair; eer_prefix_len := p |} in
      (route_target o 2 = Ok true -> rgv6 ipv = false ->
       let r := tb (calls w) add_call in
       leaves w (snd step) [(add_call, r)]
              (if r && eer then [record true] else [])
              (if r then []
               else line (tun_prop_route_error "tun_builder_add_route failed")))
      /\ (route_target o 2 = Ok true -> rgv6 ipv = true -> snd step = w)
      /\ (route_target o 2 = Ok false ->
          let r := tb (calls w) exclude_call in
          leaves w (snd step)
                 (if eer then [] else [(exclude_call, r)])
                 (if eer then [record false] else [])
                 (if eer || r then []
                  else line (tun_prop_route_error
                               "tun_builder_exclude_route failed")))
      /\ (forall e, route_target o 2 = Err e ->
          leaves w (snd step) [] [] (line e)))
  /\ (forall ipv', rgv6 ipv' = rgv6 ipv ->
      add_routes_ipv6_iter tb ipv' eer quiet o w = step).
Proof.
  intros Hparse Hcan a step line. subst step a.
  split; [apply add_routes_ipv6_iter_never_throws |].
  split; [| split].
  - intros Hv. unfold add_routes_ipv6_iter, add_routes_ipv6_try. unfold_monad.
    rewrite Hparse, Hcan. destruct (IP.pair_version pair); [| congruence].
    unfold leaves, line. destruct quiet; cbn; rewrite ?app_nil_r; repeat split.
  - intros Hv p Hp add_call exclude_call record.
    subst add_call exclude_call record.
    unfold add_routes_ipv6_iter, add_routes_ipv6_try, add_exclude_route.
    unfold_monad. rewrite Hparse, Hcan, Hv. cbn [IP.Version_eqb negb fst snd].
    split; [| split; [| split]].
    + intros -> ->. cbn [negb orb]. rewrite Hp. cbn [fst snd].
      unfold leaves, line.
      destruct (tb (calls w) _), eer, quiet; cbn; rewrite ?app_nil_r;
        repeat split.
    + intros -> ->. reflexivity.
    + intros ->. rewrite orb_true_r, Hp. cbn [fst snd negb].
      unfold leaves, line.
      destruct eer; cbn [negb orb fst snd];
        [cbn; rewrite ?app_nil_r; repeat split |].
      destruct (tb (calls w) _), quiet; cbn; rewrite ?app_nil_r; repeat split.
    + intros e ->. unfold leaves, line.
      destruct quiet; cbn; rewrite ?app_nil_r; repeat split.
  - intros ipv' Hrg. unfold add_routes_ipv6_iter, add_routes_ipv6_try.
    rewrite Hrg. reflexivity.
Qed.

Lemma ipv6_route_rule_witness :
  let o := ["route-ipv6"; "fd00:1::/32"] in
  let ipv := {| v4 := false; v6 := true; rgv4 := true; rgv6 := false;
                api_flags := 0 |} in
  calls (snd (add_routes_ipv6_iter (ext := Reference6.externals)
                Reference.accept_all ipv false false o Reference.world0))
  = [(tun_builder_add_route "fd00:1::" 32 true, true)].
Proof.
  intros o ipv.
  destruct (@ipv6_route_rule Reference6.externals Reference.accept_all o ipv
              false false Reference.world0
              {| IP.addr := IP.addr_v6 (Z.shiftl 0xfd000001 96);
                 IP.netmask := IP.addr_v6 (2 ^ 128 - 2 ^ 96) |}
              eq_refl eq_refl) as (_ & _ & H & _).
  destruct (H eq_refl 32 eq_refl) as (Hadd & _).
  exact (proj1 (Hadd eq_refl eq_refl)).
Defined.
(** ** The stages of a pass *)

Section PassOrder.

Context {ext : Externals}.
Variable tb : TunBuilderBase.

Ltac order_leaf :=
  first [ apply trace_extends_call; reflexivity
        | apply trace_extends_modify; reflexivity ].

Lemma tun_ifconfig_only_add_address opt :
  preserves (trace_extends is_add_address) (tun_ifconfig tb opt).
Proof. unfold_engine. preserves_tac order_leaf. Qed.

Lemma remote_bypass_only_route_calls config server_addr eer quiet :
  preserves (trace_extends is_route_call)
            (configure_remote_bypass tb config server_addr eer quiet).
Proof. unfold_engine. preserves_tac order_leaf. Qed.

Lemma eer_run_emulate_only_route_calls ipv server_addr :
  preserves (trace_extends is_route_call) (eer_run_emulate tb ipv server_addr).
Proof. unfold_engine. preserves_tac order_leaf. Qed.

Lemma configure_builder_tail_only_final_calls stats server_addr config opt
      quiet ipv dhcp_option_flags :
  preserves (trace_extends is_final_call)
            (configure_builder_tail tb stats server_addr config opt quiet ipv
                                    dhcp_option_flags).
Proof. unfold_engine. preserves_tac order_leaf. Qed.

Lemma configure_remote_bypass_never_throws config server_addr eer quiet w :
  fst (configure_remote_bypass tb config server_addr eer quiet w) = Ok tt.
Proof.
  unfold configure_remote_bypass.
  destruct (remote_list config) as [addrlist |]; [| reflexivity].
  apply when_never_throws. intros w0. unfold add_remote_bypass_routes.
  apply for_each_never_throws. intros a w1.
  apply remote_bypass_iter_never_throws.
Qed.

(** The world a pass starts [tun_ifconfig] in: the emulator, when there is
    a factory, is new. *)
Lemma configure_builder_routes_unfold server_addr config opt eer quiet w :
  configure_builder_routes tb server_addr config opt eer quiet w =
  match tun_ifconfig tb opt (if eer then set_eer_routes w [] else w) with
  | (Err e, w1) => (Err e, w1)
  | (Ok f, w1) =>
      let ipv := IPVerFlags_new opt f in
      let w3 := snd (add_routes tb opt server_addr ipv eer quiet
                       (snd (configure_remote_bypass tb config server_addr
                                                     eer quiet w1))) in
      if eer
      then match eer_run_emulate tb ipv server_addr w3 with
           | (Err e, w4) => (Err e, w4)
           | (Ok _, w4) => (Ok ipv, w4)
           end
      else (Ok ipv, w3)
  end.
Proof.
  unfold configure_builder_routes. unfold bind, ret.
  assert (Hw : when eer (modify (fun w0 => set_eer_routes w0 [])) w
               = (Ok tt, if eer then set_eer_routes w [] else w))
    by (destruct eer; reflexivity).
  rewrite Hw. cbv beta iota.
  destruct (tun_ifconfig tb opt _) as [[f | e] w1]; [| reflexivity].
  cbv zeta.
  pose proof (configure_remote_bypass_never_throws config server_addr eer
                quiet w1) as Hbp.
  destruct (configure_remote_bypass tb config server_addr eer quiet w1)
    as [[[] | e] w2]; [| discriminate]. cbn [snd].
  pose proof (add_routes_never_throws tb opt server_addr
                (IPVerFlags_new opt f) eer quiet w2) as Hrt.
  destruct (add_routes tb opt server_addr (IPVerFlags_new opt f) eer quiet w2)
    as [[[] | e] w3]; [| discriminate]. cbn [snd].
  destruct eer; [| reflexivity].
  unfold when.
  destruct (eer_run_emulate tb (IPVerFlags_new opt f) server_addr w3)
    as [[[] | e] w4]; reflexivity.
Qed.

(** The rest of the pass, from the [tun_builder_reroute_gw] call on. *)
Lemma configure_builder_split stats server_addr config opt eer quiet w :
  configure_builder tb stats server_addr config opt eer quiet w =
  match configure_builder_routes tb server_addr config opt eer quiet w with
  | (Err e, w4) => (Err e, w4)
  | (Ok ipv, w4) =>
      let c := tun_builder_reroute_gw (rgv4 ipv) (rgv6 ipv) (api_flags ipv) in
      if tb (calls w4) c
      then (dhcp_option_flags <- add_dhcp_options tb opt quiet ;;
            configure_builder_tail tb stats server_addr config opt quiet ipv
                                   dhcp_option_flags) (called c true w4)
      else (Err (tun_prop_route_error
                   "tun_builder_reroute_gw for redirect-gateway failed"),
            called c false w4)
  end.
Proof.
  unfold configure_builder, configure_builder_head, configure_builder_routes.
  unfold bind, ret, call, called.
  destruct (when eer _ w) as [[[] | e] w0]; [| reflexivity].
  destruct (tun_ifconfig tb opt w0) as [[f | e] w1]; [| reflexivity].
  cbv zeta.
  destruct (configure_remote_bypass tb config server_addr eer quiet w1)
    as [[[] | e] w2]; [| reflexivity].
  destruct (add_routes tb opt server_addr (IPVerFlags_new opt f) eer quiet w2)
    as [[[] | e] w3]; [| reflexivity].
  destruct (when eer (eer_run_emulate tb (IPVerFlags_new opt f) server_addr) w3)
    as [[[] | e] w4]; [| reflexivity].
  destruct (tb (calls w4) _); cbn [negb]; [| reflexivity].
  destruct (add_dhcp_options tb opt quiet _) as [[fl | e] w6]; reflexivity.
Qed.

End PassOrder.

(** X13: a failure of [tun_ifconfig] ends the pass with the same error and
    in the same world: no route, option or finalization call follows, only
    [tun_builder_add_address] calls were made.  [tun_ifconfig] starts in the
    world where the emulator, when there is a factory, is new. *)
Theorem ifconfig_failure_aborts_pass {ext : Externals} (tb : TunBuilderBase)
        (stats : bool) (server_addr : IP.Addr) (config : Config)
        (opt : OptionList) (eer_factory quiet : bool) (w w' : World) (e : exn) :
  tun_ifconfig tb opt (if eer_factory then set_eer_routes w [] else w)
    = (Err e, w') ->
  configure_builder tb stats server_addr config opt eer_factory quiet w
    = (Err e, w')
  /\ trace_extends is_add_address w w'.
Proof.
  intros H. split.
  - rewrite configure_builder_split, configure_builder_routes_unfold, H.
    reflexivity.
  - pose proof (tun_ifconfig_only_add_address tb opt
                  (if eer_factory then set_eer_routes w [] else w)) as Ht.
    rewrite H in Ht. cbn [snd] in Ht.
    destruct Ht as (d & Hd & Pd). exists d. split; [| exact Pd].
    rewrite Hd. destruct eer_factory; reflexivity.
Qed.

Lemma ifconfig_failure_aborts_pass_witness :
  let pass := configure_builder (ext := Reference.externals)
                Reference.accept_all true (IP.addr_v4 (IPv4.from_uint32 1))
                Reference.config0 [["route"; "10.0.0.0"; "255.0.0.0"]]
                false false Reference.world0 in
  fst pass =
    Err (tun_prop_error "one of ifconfig or ifconfig-ipv6 must be specified")
  /\ calls (snd pass) = [].
Proof.
  intros pass.
  pose proof (proj1 (@ifconfig_failure_aborts_pass Reference.externals
                       Reference.accept_all true
                       (IP.addr_v4 (IPv4.from_uint32 1))
                       Reference.config0 [["route"; "10.0.0.0"; "255.0.0.0"]]
                       false false Reference.world0 _ _ eq_refl)) as H.
  split; [exact (f_equal fst H) | exact (f_equal (fun r => calls (snd r)) H)].
Defined.

(** X14: a pass without an emulator, once [tun_ifconfig] has returned.
    Nothing between it and the [tun_builder_reroute_gw] call can fail: the
    remote bypass routes and the routes are added, errors caught, and the
    call is made in the world they leave.  When the builder refuses it the
    pass ends at once with a route error, that call being the last of the
    trace, before any DHCP option is read; when it accepts, the pass goes on
    with [add_dhcp_options] and the finalization. *)
Theorem pass_reaches_reroute_gw {ext : Externals} (tb : TunBuilderBase)
        (stats : bool) (server_addr : IP.Addr) (config : Config)
        (opt : OptionList) (quiet : bool) (w w1 : World) (f : Z) :
  tun_ifconfig tb opt w = (Ok f, w1) ->
  let ipv := IPVerFlags_new opt f in
  let w3 := snd (add_routes tb opt server_addr ipv false quiet
                   (snd (configure_remote_bypass tb config server_addr false
                                                 quiet w1))) in
  let c := tun_builder_reroute_gw (rgv4 ipv) (rgv6 ipv) (api_flags ipv) in
  let pass := configure_builder tb stats server_addr config opt false quiet w in
  (tb (calls w3) c = false ->
   fst pass = Err (tun_prop_route_error
                     "tun_builder_reroute_gw for redirect-gateway failed")
   /\ leaves w3 (snd pass) [(c, false)] [] [])
  /\ (tb (calls w3) c = true ->
      exists w4,
        leaves w3 w4 [(c, true)] [] []
        /\ pass = (dhcp_option_flags <- add_dhcp_options tb opt quiet ;;
                   configure_builder_tail tb stats server_addr config opt quiet
                                          ipv dhcp_option_flags) w4).
Proof.
  intros H ipv w3 c pass. subst pass.
  rewrite configure_builder_split, configure_builder_routes_unfold, H.
  subst ipv w3 c. cbv beta iota zeta.
  split; intros Hc; rewrite Hc.
  - split; [reflexivity |]. unfold leaves, called.
    cbn [fst snd calls eer_routes state stats_errors log set_calls].
    rewrite !app_nil_r. repeat split.
  - eexists. split; [| reflexivity]. unfold leaves, called.
    cbn [fst snd calls eer_routes state stats_errors log set_calls].
    rewrite !app_nil_r. repeat split.
Qed.

Lemma pass_reaches_reroute_gw_witness :
  let opt := [["ifconfig"; "10.8.0.1"; "10.8.0.2"];
              ["route"; "10.0.0.0"; "255.0.0.0"];
              ["dhcp-option"; "DNS"; "10.8.0.1"]] in
  let pass := configure_builder (ext := Reference.externals)
                (Reference.refuse is_reroute_gw) true
                (IP.addr_v4 (IPv4.from_uint32 1)) Reference.config0
                opt false false Reference.world0 in
  fst pass = Err (tun_prop_route_error
                    "tun_builder_reroute_gw for redirect-gateway failed")
  /\ calls (snd pass) =
     [(tun_builder_add_address "10.8.0.1" 30 "10.8.0.2" false true, true);
      (tun_builder_add_route "10.0.0.0" 8 false, true);
      (tun_builder_reroute_gw false false 0, false)].
Proof.
  intros opt pass.
  destruct (proj1 (@pass_reaches_reroute_gw Reference.externals
                     (Reference.refuse is_reroute_gw) true
                     (IP.addr_v4 (IPv4.from_uint32 1)) Reference.config0 opt
                     false Reference.world0 _ _ eq_refl) eq_refl)
    as (H1 & H2 & _).
  split; [exact H1 | exact H2].
Defined.

(** X15: the order of the builder calls of a pass, whether it returns or
    throws.  The trace grows by [tun_builder_add_address] calls, then route
    calls ([tun_builder_add_route] and [tun_builder_exclude_route]: remote
    bypass, routes, emulator), then at most one [tun_builder_reroute_gw]
    call, then the calls of the DHCP options, then the finalization calls.
    Nothing follows the route calls when [tun_builder_reroute_gw] was not
    reached or was refused. *)
Theorem pass_call_order {ext : Externals} (tb : TunBuilderBase)
        (stats : bool) (server_addr : IP.Addr) (config : Config)
        (opt : OptionList) (eer_factory quiet : bool) (w : World) :
  let w' := snd (configure_builder tb stats server_addr config opt
                                   eer_factory quiet w) in
  exists d1 d2 d3 d4 d5,
    calls w' = calls w ++ d1 ++ d2 ++ d3 ++ d4 ++ d5
    /\ all_calls is_add_address d1
    /\ all_calls is_route_call d2
    /\ after_routes d3 d4 d5
    /\ all_calls is_dhcp_call d4
    /\ all_calls is_final_call d5.
Proof.
  intros w'. subst w'.
  rewrite configure_builder_split, configure_builder_routes_unfold.
  set (w0 := if eer_factory then set_eer_routes w [] else w).
  assert (H0 : calls w0 = calls w) by (subst w0; destruct eer_factory; reflexivity).
  destruct (tun_ifconfig_only_add_address tb opt w0) as (d1 & H1 & P1).
  rewrite H0 in H1.
  destruct (tun_ifconfig tb opt w0) as [[f | e] w1]; cbn [snd] in H1.
  2:{ exists d1, [], [], [], []. cbn [snd]. rewrite H1, !app_nil_r.
      repeat split; assumption. }
  cbv zeta.
  set (ipv := IPVerFlags_new opt f).
  assert (H23 : trace_extends is_route_call w1
            (snd (add_routes tb opt server_addr ipv eer_factory quiet
                    (snd (configure_remote_bypass tb config server_addr
                                                  eer_factory quiet w1))))).
  { etransitivity; [apply remote_bypass_only_route_calls |].
    apply add_routes_only_route_calls. }
  set (w3 := snd (add_routes _ _ _ _ _ _ _)) in *.
  assert (H4 : exists r w4,
             (if eer_factory
              then match eer_run_emulate tb ipv server_addr w3 with
                   | (Err e, w4) => (Err e, w4)
                   | (Ok _, w4) => (Ok ipv, w4)
                   end
              else (Ok ipv, w3)) = (r, w4)
             /\ (forall i, r = Ok i -> i = ipv)
             /\ trace_extends is_route_call w1 w4).
  { destruct eer_factory.
    - pose proof (eer_run_emulate_only_route_calls tb ipv server_addr w3) as He.
      destruct (eer_run_emulate tb ipv server_addr w3) as [[[] | e] w4];
        cbn [snd] in He; eexists; eexists;
        (split; [reflexivity |]);
        (split; [intros i Hi; congruence |]);
        (etransitivity; [exact H23 | exact He]).
    - eexists; eexists. split; [reflexivity |].
      split; [intros i Hi; congruence | exact H23]. }
  destruct H4 as (r & w4 & -> & Hr & (d2 & H2 & P2)).
  destruct r as [i | e].
  2:{ exists d1, d2, [], [], []. cbn [snd]. rewrite H2, H1, !app_nil_r, app_assoc.
      repeat split; assumption. }
  rewrite (Hr i eq_refl). clear Hr i.
  set (c := tun_builder_reroute_gw (rgv4 ipv) (rgv6 ipv) (api_flags ipv)).
  destruct (tb (calls w4) c).
  2:{ exists d1, d2, [(c, false)], [], []. cbn [snd]. unfold called. simpl calls.
      rewrite H2, H1, !app_nil_r, <- !app_assoc.
      repeat split; try assumption; reflexivity. }
  unfold bind.
  destruct (add_dhcp_options_only_dhcp_calls tb opt quiet (called c true w4))
    as (d4 & H4 & P4).
  destruct (add_dhcp_options tb opt quiet (called c true w4)) as [[fl | e] w6];
    cbn [snd] in H4.
  2:{ exists d1, d2, [(c, true)], d4, []. cbn [snd].
      rewrite H4. unfold called. simpl calls.
      rewrite H2, H1, !app_nil_r, <- !app_assoc.
      repeat split; try assumption; try reflexivity; discriminate. }
  destruct (configure_builder_tail_only_final_calls tb stats server_addr config
              opt quiet ipv fl w6) as (d5 & H5 & P5).
  exists d1, d2, [(c, true)], d4, d5.
  rewrite H5, H4. unfold called. simpl calls.
  rewrite H2, H1, <- !app_assoc.
  repeat split; try assumption; try reflexivity; discriminate.
Qed.
(** ** [search_domains_exist] *)

Lemma search_domains_exist_loop_spec {ext : Externals} (quiet : bool)
      (dopt : list Option) :
  forall w,
    fst (search_domains_exist_loop dopt quiet w)
      = Ok (existsb is_domain_option dopt)
    /\ same_effects w (snd (search_domains_exist_loop dopt quiet w))
    /\ snd (search_domains_exist_loop dopt true w) = w.
Proof.
  induction dopt as [| o rest IH]; intros w.
  - repeat split.
  - cbn [search_domains_exist_loop existsb]. unfold is_domain_option at 1.
    unfold_monad.
    destruct (Option_get o 1 64) as [type | e]; cbn [fst snd negb].
    + destruct (String.eqb type "DOMAIN"); cbn [orb].
      * repeat split.
      * apply IH.
    + cbn [orb]. destruct (IH w) as (_ & _ & Hq).
      split; [| split; [| exact Hq]].
      * destruct quiet; cbn [negb fst snd]; apply IH.
      * destruct quiet; cbn [negb fst snd]; [apply IH |].
        destruct (IH (set_log w (log w ++ [log_dhcp_option_error o e])))
          as (_ & (H1 & H2 & H3 & H4) & _).
        repeat split; assumption.
Qed.

(** X16: [search_domains_exist] returns whether some [dhcp-option]
    directive has a readable type equal to [DOMAIN]; a directive whose type
    cannot be read counts as no and does not stop the search.  It never
    throws, makes no builder call and changes nothing but the log, and not
    even the log in quiet mode. *)
Theorem search_domains_exist_spec {ext : Externals} (opt : OptionList)
        (quiet : bool) (w : World) :
  fst (search_domains_exist opt quiet w)
    = Ok (existsb is_domain_option (filter (Option_name_is "dhcp-option") opt))
  /\ same_effects w (snd (search_domains_exist opt quiet w))
  /\ snd (search_domains_exist opt true w) = w.
Proof.
  unfold search_domains_exist, OptionList_find.
  destruct (filter (Option_name_is "dhcp-option") opt) as [| o l].
  - repeat split.
  - apply search_domains_exist_loop_spec.
Qed.
(** ** The calls of the DHCP options *)

Lemma run_calls_app (tb : TunBuilderBase) (cs1 cs2 : list BuilderCall) :
  forall tr,
    run_calls tb tr (cs1 ++ cs2) =
    if snd (run_calls tb tr cs1)
    then run_calls tb (fst (run_calls tb tr cs1)) cs2
    else run_calls tb tr cs1.
Proof.
  induction cs1 as [| c cs1 IH]; intros tr; simpl.
  - reflexivity.
  - destruct (tb tr c); [apply IH | reflexivity].
Qed.

Lemma skipn_as_nth {A} (d : A) (l : list A) (k : nat) :
  map (fun j => nth j l d) (seq k (List.length l - k)) = skipn k l.
Proof.
  revert k. induction l as [| a l IH]; intros k.
  - destruct k; reflexivity.
  - destruct k as [| k].
    + cbn [List.length Nat.sub seq map nth skipn]. f_equal.
      rewrite <- seq_shift, map_map. specialize (IH 0%nat).
      rewrite Nat.sub_0_r in IH. cbn [skipn] in IH. exact IH.
    + cbn [List.length Nat.sub skipn]. rewrite <- seq_shift, map_map.
      apply IH.
Qed.

Section DhcpOrder.

Context {ext : Externals}.
Variable tb : TunBuilderBase.

(** The inner loop of [dhcp_forward_words]. *)
Lemma forward_words_inner (mk : string -> BuilderCall) (msg : string)
      (l : DhcpLocals) (words : list string) :
  forall w,
    for_each words
      (fun vk =>
         ok <- zoom (call tb (mk vk)) ;;
         if negb ok then throw (tun_prop_dhcp_option_error msg) else ret tt)
      (l, w)
    = let rc := run_calls tb (calls w) (map mk words) in
      (if snd rc then Ok tt else Err (tun_prop_dhcp_option_error msg),
       (l, set_calls w (fst rc))).
Proof.
  induction words as [| vk words IH]; intros w.
  - destruct w; reflexivity.
  - cbn [for_each map run_calls]. unfold bind at 1. unfold bind at 1.
    unfold zoom at 1. unfold call at 1. cbn [fst snd].
    destruct (tb (calls w) (mk vk)); cbn [negb].
    + unfold ret at 1. cbv beta iota. rewrite IH. reflexivity.
    + reflexivity.
Qed.

(** The outer loop, over tokens that [Option::get] accepts. *)
Lemma forward_words_outer (o : Option) (mk : string -> BuilderCall)
      (msg : string) (l : DhcpLocals) (n : nat) :
  forall k w,
    (forall j, (k <= j < k + n)%nat ->
               Option_get o j 256 = Ok (nth j o "")) ->
    for_each (seq k n)
      (fun j =>
         s <- lift (Option_get o j 256) ;;
         for_each (by_space s)
           (fun vk =>
              ok <- zoom (call tb (mk vk)) ;;
              if negb ok then throw (tun_prop_dhcp_option_error msg)
              else ret tt))
      (l, w)
    = let rc := run_calls tb (calls w)
                  (map mk (flat_map by_space
                             (map (fun j => nth j o "") (seq k n)))) in
      (if snd rc then Ok tt else Err (tun_prop_dhcp_option_error msg),
       (l, set_calls w (fst rc))).
Proof.
  induction n as [| n IH]; intros k w Hget.
  - destruct w; reflexivity.
  - cbn [seq for_each map flat_map]. unfold bind at 1. unfold bind at 1.
    rewrite (Hget k) by lia. unfold lift at 1. cbv beta iota.
    rewrite forward_words_inner. cbv zeta.
    rewrite map_app, run_calls_app.
    destruct (run_calls tb (calls w) (map mk (by_space (nth k o ""))))
      as [tr1 [|]]; cbn [fst snd]; [| reflexivity].
    rewrite IH by (intros j Hj; apply Hget; lia). reflexivity.
Qed.

Lemma Option_get_accepted (o : Option) (j : nat) :
  forallb (fun s => arg_ok s 256) (skipn 2 o) = true ->
  (2 <= j < 2 + (Option_size o - 2))%nat ->
  Option_get o j 256 = Ok (nth j o "").
Proof.
  intros Hall Hj. unfold Option_get, Option_size in *.
  assert (Hlt : (j < List.length o)%nat) by lia.
  rewrite (nth_error_nth' o "" Hlt).
  rewrite forallb_forall in Hall.
  rewrite Hall; [reflexivity |].
  replace j with (2 + (j - 2))%nat by lia.
  rewrite <- nth_skipn. apply nth_In. rewrite length_skipn. lia.
Qed.

Lemma dhcp_forward_words_spec (o : Option) (mk : string -> BuilderCall)
      (msg : string) (l : DhcpLocals) (w : World) :
  forallb (fun s => arg_ok s 256) (skipn 2 o) = true ->
  dhcp_forward_words tb o mk msg (l, w)
  = let rc := run_calls tb (calls w) (map mk (dhcp_words o)) in
    (if snd rc then Ok tt else Err (tun_prop_dhcp_option_error msg),
     (l, set_calls w (fst rc))).
Proof.
  intros Hall. unfold dhcp_forward_words, dhcp_words.
  rewrite forward_words_outer
    by (intros j Hj; apply Option_get_accepted; assumption).
  unfold Option_size. rewrite skipn_as_nth. reflexivity.
Qed.

End DhcpOrder.

(** One iteration of the loop on a [DOMAIN] or [PROXY_BYPASS] option. *)
Lemma dhcp_words_iter_spec {ext : Externals} (tb : TunBuilderBase)
      (o : Option) (quiet : bool) (l : DhcpLocals) (w : World) :
  (3 <= Option_size o)%nat ->
  forallb (fun s => arg_ok s 256) (skipn 2 o) = true ->
  let outcome mk msg :=
    let rc := run_calls tb (calls w) (map mk (dhcp_words o)) in
    (Ok tt,
     (l, if snd rc then set_calls w (fst rc)
         else logged quiet
                (log_dhcp_option_error o (tun_prop_dhcp_option_error msg))
                (set_calls w (fst rc)))) in
  (Option_get o 1 64 = Ok "DOMAIN" ->
   add_dhcp_options_iter tb quiet o (l, w)
   = outcome tun_builder_add_search_domain
             "tun_builder_add_search_domain failed")
  /\ (Option_get o 1 64 = Ok "PROXY_BYPASS" ->
      add_dhcp_options_iter tb quiet o (l, w)
      = outcome tun_builder_add_proxy_bypass "tun_builder_add_proxy_bypass").
Proof.
  intros Hsz Hall outcome. subst outcome. cbv beta zeta.
  assert (Hmin : min_args o 3 = Ok tt).
  { unfold min_args. apply Nat.leb_le in Hsz. rewrite Hsz. reflexivity. }
  split; intros Ht; unfold add_dhcp_options_iter, add_dhcp_options_try;
    unfold try_catch; unfold bind at 1; rewrite Ht; unfold lift at 1;
    cbv beta iota; cbn [String.eqb Ascii.eqb Bool.eqb];
    unfold bind at 1; rewrite Hmin; unfold lift at 1; cbv beta iota;
    rewrite (dhcp_forward_words_spec tb o _ _ l w Hall); cbv zeta;
    destruct (snd (run_calls tb (calls w) _)); try reflexivity;
    unfold when, logged, zoom, OPENVPN_LOG, modify; destruct quiet; reflexivity.
Qed.

(** X17: a [DOMAIN] or [PROXY_BYPASS] option with at least three tokens,
    all acceptable to [Option::get].  Every space-separated word of every
    token from index 2 on goes to the builder, in order, as a
    [tun_builder_add_search_domain] (or [tun_builder_add_proxy_bypass]) call,
    up to the first word the builder refuses: the words before it stay
    added, the words after it are not tried, and the error is logged, not
    passed on.  The local variables and the rest of the world do not
    change. *)
Theorem dhcp_words_forwarded_in_order {ext : Externals} (tb : TunBuilderBase)
        (o : Option) (quiet : bool) (l : DhcpLocals) (w : World) :
  (3 <= Option_size o)%nat ->
  forallb (fun s => arg_ok s 256) (skipn 2 o) = true ->
  let step := add_dhcp_options_iter tb quiet o (l, w) in
  let outcome mk msg :=
    let rc := run_calls tb (calls w) (map mk (dhcp_words o)) in
    fst step = Ok tt
    /\ fst (snd step) = l
    /\ calls (snd (snd step)) = fst rc
    /\ eer_routes (snd (snd step)) = eer_routes w
    /\ state (snd (snd step)) = state w
    /\ stats_errors (snd (snd step)) = stats_errors w
    /\ log (snd (snd step)) =
       log w ++ (if snd rc || quiet then []
                 else [log_dhcp_option_error o
                         (tun_prop_dhcp_option_error msg)]) in
  (Option_get o 1 64 = Ok "DOMAIN" ->
   outcome tun_builder_add_search_domain "tun_builder_add_search_domain failed")
  /\ (Option_get o 1 64 = Ok "PROXY_BYPASS" ->
      outcome tun_builder_add_proxy_bypass "tun_builder_add_proxy_bypass").
Proof.
  intros Hsz Hall step outcome. subst outcome step. cbv beta zeta.
  destruct (dhcp_words_iter_spec tb o quiet l w Hsz Hall) as [Hd Hp].
  cbv beta zeta in Hd, Hp.
  split; intros Ht; [rewrite (Hd Ht) | rewrite (Hp Ht)];
    match goal with
    | |- context [run_calls ?a ?b ?c] => destruct (run_calls a b c) as [tr [|]]
    end; cbn [fst snd orb];
    unfold logged; destruct quiet;
    cbn [calls eer_routes state stats_errors log set_calls set_log];
    rewrite ?app_nil_r; repeat split.
Qed.

Lemma dhcp_words_forwarded_in_order_witness :
  let o := ["dhcp-option"; "DOMAIN"; "a.example b.example"; "c.example"] in
  let tb := Reference.refuse
              (fun c => match c with
                        | tun_builder_add_search_domain d =>
                            String.eqb d "b.example"
                        | _ => false
                        end) in
  calls (snd (snd (add_dhcp_options_iter (ext := Reference.externals) tb true o
                     (dhcp_locals_init, Reference.world0))))
  = [(tun_builder_add_search_domain "a.example", true);
     (tun_builder_add_search_domain "b.example", false)].
Proof.
  intros o tb.
  destruct (proj1 (@dhcp_words_forwarded_in_order Reference.externals tb o true
                     dhcp_locals_init Reference.world0
                     ltac:(cbv; lia) eq_refl) eq_refl)
    as (_ & _ & H & _).
  exact H.
Defined.

(** The [try] block after the loop and its [catch]. *)
Lemma proxy_block_spec {ext : Externals} (tb : TunBuilderBase) (quiet : bool)
      (l : DhcpLocals) (w : World) :
  try_catch (add_dhcp_options_proxy_try tb)
            (fun e => when (negb quiet) (zoom (OPENVPN_LOG (log_proxy_error e))))
            (l, w)
  = let rc := run_calls tb (calls w) (proxy_calls l) in
    (Ok tt,
     (l, if snd rc then set_calls w (fst rc)
         else logged quiet
                (log_proxy_error
                   (tun_prop_dhcp_option_error
                      (proxy_call_name (last_call (fst rc)))))
                (set_calls w (fst rc)))).
Proof.
  destruct w as [c e s st lg].
  unfold add_dhcp_options_proxy_try, proxy_calls. unfold_monad.
  cbn [fst snd].
  destruct (string_empty (http_host l)), (string_empty (https_host l)),
    (string_empty (auto_config_url l)); cbn;
    repeat (match goal with
            | |- context [tb ?t ?x] => destruct (tb t x) eqn:?; cbn
            end);
    unfold logged, last_call; rewrite ?last_last; cbn;
    destruct quiet; reflexivity.
Qed.

(** [add_dhcp_options], from what its loop leaves. *)
Lemma add_dhcp_options_after_loop {ext : Externals} (tb : TunBuilderBase)
      (opt : OptionList) (dopt : list Option) (quiet : bool)
      (w w1 : World) (l1 : DhcpLocals) :
  OptionList_find opt "dhcp-option" = Some dopt ->
  for_each dopt (add_dhcp_options_iter tb quiet) (dhcp_locals_init, w)
    = (Ok tt, (l1, w1)) ->
  let rc := run_calls tb (calls w1) (proxy_calls l1) in
  add_dhcp_options tb opt quiet w
  = (Ok (flags l1),
     if snd rc then set_calls w1 (fst rc)
     else logged quiet
            (log_proxy_error
               (tun_prop_dhcp_option_error
                  (proxy_call_name (last_call (fst rc)))))
            (set_calls w1 (fst rc))).
Proof.
  intros Hfind Hloop rc. subst rc.
  unfold add_dhcp_options. rewrite Hfind.
  unfold add_dhcp_options_body. unfold bind at 1. rewrite Hloop.
  rewrite proxy_block_spec. reflexivity.
Qed.

(** X18: the proxy settings of [add_dhcp_options].  After the loop over
    the [dhcp-option] directives, the settings the loop left are sent to the
    builder in the order HTTP proxy, HTTPS proxy, auto-config URL, each only
    when its host (or URL) is not empty, up to the first call the builder
    refuses; the error names the refused method and is logged, not passed
    on.  The flags returned are those the loop left, and nothing but the
    trace and the log changes. *)
Theorem proxy_settings_order {ext : Externals} (tb : TunBuilderBase)
        (opt : OptionList) (dopt : list Option) (quiet : bool)
        (w w1 : World) (l1 : DhcpLocals) :
  OptionList_find opt "dhcp-option" = Some dopt ->
  for_each dopt (add_dhcp_options_iter tb quiet) (dhcp_locals_init, w)
    = (Ok tt, (l1, w1)) ->
  let rc := run_calls tb (calls w1) (proxy_calls l1) in
  let run := add_dhcp_options tb opt quiet w in
  fst run = Ok (flags l1)
  /\ calls (snd run) = fst rc
  /\ eer_routes (snd run) = eer_routes w1
  /\ state (snd run) = state w1
  /\ stats_errors (snd run) = stats_errors w1
  /\ log (snd run) =
     log w1 ++ (if snd rc || quiet then []
                else [log_proxy_error
                        (tun_prop_dhcp_option_error
                           (proxy_call_name (last_call (fst rc))))]).
Proof.
  intros Hfind Hloop rc run. subst rc run.
  pose proof (add_dhcp_options_after_loop tb opt quiet w Hfind Hloop) as H.
  cbv zeta in H. rewrite H. clear H.
  destruct (run_calls tb (calls w1) (proxy_calls l1)) as [tr [|]];
    cbn [fst snd orb]; unfold logged; destruct quiet;
    cbn [calls eer_routes state stats_errors log set_calls set_log];
    rewrite ?app_nil_r; repeat split.
Qed.

Lemma proxy_settings_order_witness :
  let opt := [["dhcp-option"; "PROXY_HTTPS"; "s.example"; "443"];
              ["dhcp-option"; "PROXY_AUTO_CONFIG_URL"; "http://pac.example/"];
              ["dhcp-option"; "PROXY_HTTP"; "p.example"; "8080"]] in
  let tb := Reference.refuse
              (fun c => match c with
                        | tun_builder_set_proxy_https _ _ => true
                        | _ => false
                        end) in
  let run := add_dhcp_options (ext := Reference.externals) tb opt false
                              Reference.world0 in
  calls (snd run) =
    [(tun_builder_set_proxy_http "p.example" (Some 8080), true);
     (tun_builder_set_proxy_https "s.example" (Some 443), false)]
  /\ log (snd run) =
     [log_proxy_error (tun_prop_dhcp_option_error "tun_builder_set_proxy_https")].
Proof.
  intros opt tb run.
  destruct (@proxy_settings_order Reference.externals tb opt opt false
              Reference.world0 _ _ eq_refl eq_refl)
    as (_ & H1 & _ & _ & _ & H2).
  split; [exact H1 | exact H2].
Defined.
(** ** Quiet mode *)

Section Sim.

Context {S : Type} (R : S -> S -> Prop).

Lemma sim_ret {A} (a : A) : sim R (ret a) (ret a).
Proof. intros s s' H. split; [reflexivity | exact H]. Qed.

Lemma sim_throw {A} (e : exn) : sim R (@throw S A e) (throw e).
Proof. intros s s' H. split; [reflexivity | exact H]. Qed.

Lemma sim_lift {A} (r : result A) : sim R (lift r) (lift r).
Proof. intros s s' H. split; [reflexivity | exact H]. Qed.

Lemma sim_gets {A} (f : S -> A) :
  (forall s s', R s s' -> f s = f s') -> sim R (gets f) (gets f).
Proof. intros Hf s s' H. split; [simpl; f_equal; apply Hf, H | exact H]. Qed.

Lemma sim_modify (f : S -> S) :
  (forall s s', R s s' -> R (f s) (f s')) -> sim R (modify f) (modify f).
Proof. intros Hf s s' H. split; [reflexivity | apply Hf, H]. Qed.

Lemma sim_bind {A B} (m1 m2 : M S A) (k1 k2 : A -> M S B) :
  sim R m1 m2 -> (forall a, sim R (k1 a) (k2 a)) ->
  sim R (bind m1 k1) (bind m2 k2).
Proof.
  intros Hm Hk s s' H. unfold bind. destruct (Hm s s' H) as [Hr Hs].
  destruct (m1 s) as [[a | e] s1], (m2 s') as [[a' | e'] s1'];
    simpl in Hr, Hs; try discriminate.
  - injection Hr as <-. apply Hk, Hs.
  - injection Hr as <-. split; [reflexivity | exact Hs].
Qed.

Lemma sim_try_catch {A} (b1 b2 : M S A) (h1 h2 : exn -> M S A) :
  sim R b1 b2 -> (forall e, sim R (h1 e) (h2 e)) ->
  sim R (try_catch b1 h1) (try_catch b2 h2).
Proof.
  intros Hb Hh s s' H. unfold try_catch. destruct (Hb s s' H) as [Hr Hs].
  destruct (b1 s) as [[a | e] s1], (b2 s') as [[a' | e'] s1'];
    simpl in Hr, Hs; try discriminate.
  - injection Hr as <-. split; [reflexivity | exact Hs].
  - injection Hr as <-. apply Hh, Hs.
Qed.

Lemma sim_when (b : bool) (m1 m2 : M S unit) :
  sim R m1 m2 -> sim R (when b m1) (when b m2).
Proof. intros Hm. unfold when. destruct b; [exact Hm | apply sim_ret]. Qed.

Lemma sim_for_each {A} (l : list A) (b1 b2 : A -> M S unit) :
  (forall x, sim R (b1 x) (b2 x)) -> sim R (for_each l b1) (for_each l b2).
Proof.
  intros Hb. induction l as [| x l IH]; simpl.
  - apply sim_ret.
  - apply sim_bind; [apply Hb | intros _; exact IH].
Qed.

End Sim.

Ltac same_effects_side :=
  let c := fresh in let e := fresh in let s := fresh in let st := fresh in
  let l := fresh in
  let c' := fresh in let e' := fresh in let s' := fresh in let st' := fresh in
  let l' := fresh in
  let Hc := fresh in let He := fresh in let Hs := fresh in let Hst := fresh in
  intros [c e s st l] [c' e' s' st' l'] (Hc & He & Hs & Hst);
  simpl in *; subst; repeat split.

Section SimWorld.

Context {ext : Externals}.
Variable tb : TunBuilderBase.

Lemma sim_call (c : BuilderCall) : sim same_effects (call tb c) (call tb c).
Proof.
  intros w w' H. unfold call. cbn [fst snd].
  destruct w as [cs e s st l], w' as [cs' e' s' st' l'].
  destruct H as (Hc & He & Hs & Hst). simpl in *. subst.
  repeat split.
Qed.

Lemma sim_world_modify (f : World -> World) :
  (forall w w', same_effects w w' -> same_effects (f w) (f w')) ->
  sim same_effects (modify f) (modify f).
Proof. apply sim_modify. Qed.

(** A log line written or not on either side. *)
Lemma sim_log (b1 b2 : bool) (l : LogLine) :
  sim same_effects (when b1 (OPENVPN_LOG l)) (when b2 (OPENVPN_LOG l)).
Proof.
  intros w w' H. unfold when, OPENVPN_LOG, modify, ret.
  destruct w as [cs e s st lg], w' as [cs' e' s' st' lg'].
  destruct H as (Hc & He & Hs & Hst). simpl in *. subst.
  destruct b1, b2; repeat split.
Qed.

Lemma sim_zoom {A} (m1 m2 : M World A) :
  sim same_effects m1 m2 ->
  sim same_effects_dhcp (zoom (L := DhcpLocals) m1) (zoom m2).
Proof.
  intros Hm [l w] [l' w'] [Hl Hw]. simpl in Hl, Hw. subst l'.
  unfold zoom. cbn [fst snd]. destruct (Hm w w' Hw) as [Hr Hs].
  destruct (m1 w) as [r1 w1], (m2 w') as [r2 w2]. simpl in *.
  split; [exact Hr | split; [reflexivity | exact Hs]].
Qed.

Lemma sim_zoom_log (b1 b2 : bool) (l : LogLine) :
  sim same_effects_dhcp
      (when b1 (zoom (L := DhcpLocals) (OPENVPN_LOG l)))
      (when b2 (zoom (OPENVPN_LOG l))).
Proof.
  intros [lc w] [lc' w'] [Hl Hw]. simpl in Hl, Hw. subst lc'.
  unfold when, zoom, OPENVPN_LOG, modify, ret.
  destruct w as [cs e s st lg], w' as [cs' e' s' st' lg'].
  destruct Hw as (Hc & He & Hs & Hst). simpl in *. subst.
  destruct b1, b2; repeat split.
Qed.

Lemma sim_update_locals (f : DhcpLocals -> DhcpLocals) :
  sim same_effects_dhcp (update_locals f) (update_locals f).
Proof.
  intros [l w] [l' w'] [Hl Hw]. simpl in Hl, Hw. subst l'.
  unfold update_locals, modify. cbn [fst snd].
  split; [reflexivity | split; [reflexivity | exact Hw]].
Qed.

Lemma sim_gets_locals {A} (f : DhcpLocals * World -> A) :
  (forall l w w', f (l, w) = f (l, w')) ->
  sim same_effects_dhcp (gets f) (gets f).
Proof.
  intros Hf. apply sim_gets. intros [l w] [l' w'] [Hl Hw].
  simpl in Hl. subst l'. apply Hf.
Qed.

Lemma sim_add_dhcp_options opt q1 q2 :
  (forall dopt, sim same_effects_dhcp (add_dhcp_options_body tb dopt q1)
                    (add_dhcp_options_body tb dopt q2)) ->
  sim same_effects (add_dhcp_options tb opt q1) (add_dhcp_options tb opt q2).
Proof.
  intros Hbody. unfold add_dhcp_options.
  destruct (OptionList_find opt "dhcp-option") as [dopt |];
    [| apply sim_ret].
  intros w w' H.
  destruct (Hbody dopt (dhcp_locals_init, w) (dhcp_locals_init, w')
                  (conj eq_refl H)) as [Hr [Hl Hs]].
  destruct (add_dhcp_options_body tb dopt q1 (dhcp_locals_init, w))
    as [[[] | e] [l1 w1]],
     (add_dhcp_options_body tb dopt q2 (dhcp_locals_init, w'))
    as [[[] | e'] [l2 w2]]; simpl in *; try discriminate.
  - subst l2. split; [reflexivity | exact Hs].
  - injection Hr as <-. split; [reflexivity | exact Hs].
Qed.

(** Takes [sim R m1 m2] apart along the common structure of [m1] and
    [m2]. *)
Ltac sim_step :=
  first
    [ solve [apply sim_ret]
    | solve [apply sim_throw]
    | solve [apply sim_lift]
    | apply sim_call
    | apply sim_log
    | apply sim_zoom_log
    | solve [apply sim_update_locals]
    | apply sim_zoom
    | apply sim_world_modify; same_effects_side; fail
    | apply sim_gets; same_effects_side; fail
    | apply sim_gets_locals; reflexivity
    | apply sim_add_dhcp_options; intros
    | apply sim_when
    | apply sim_for_each; intros
    | apply sim_try_catch; [| intros]
    | apply sim_bind; [| intros]
    | match goal with
      | |- sim _ (if ?b then _ else _) _ => destruct b
      | |- sim _ (match ?x with _ => _ end) _ => destruct x
      end ].

Ltac unfold_passes :=
  unfold configure_builder, configure_builder_head, configure_builder_tail,
         configure_builder_settings,
         configure_remote_bypass, dns_fallback, add_google_dns,
         eer_run_emulate, tun_ifconfig, tun_ifconfig_topology,
         tun_ifconfig_ipv4, tun_ifconfig_ipv6, route_gateway,
         add_remote_bypass_routes, add_remote_bypass_routes_iter,
         add_routes, add_routes_ipv4_iter, add_routes_ipv4_try,
         add_routes_ipv6_iter, add_routes_ipv6_try, add_exclude_route,
         add_dhcp_options_body, add_dhcp_options_iter, add_dhcp_options_try,
         add_dhcp_options_proxy_try, dhcp_forward_words,
         store_vpn_ip4_addr, store_vpn_ip6_addr, eer_add_route, stats_error.

Lemma tun_ifconfig_sim opt :
  sim same_effects (tun_ifconfig tb opt) (tun_ifconfig tb opt).
Proof. unfold_passes. repeat sim_step. Qed.

Lemma add_exclude_route_sim add addr p ipv6 eer :
  sim same_effects (add_exclude_route tb add addr p ipv6 eer)
      (add_exclude_route tb add addr p ipv6 eer).
Proof. unfold_passes. repeat sim_step. Qed.

Lemma add_routes_sim opt server_addr ipv eer q1 q2 :
  sim same_effects (add_routes tb opt server_addr ipv eer q1)
      (add_routes tb opt server_addr ipv eer q2).
Proof.
  unfold add_routes, add_routes_ipv4_iter, add_routes_ipv4_try,
         add_routes_ipv6_iter, add_routes_ipv6_try.
  repeat first [apply add_exclude_route_sim | sim_step].
Qed.

Lemma configure_remote_bypass_sim config server_addr eer q1 q2 :
  sim same_effects (configure_remote_bypass tb config server_addr eer q1)
      (configure_remote_bypass tb config server_addr eer q2).
Proof.
  unfold configure_remote_bypass, add_remote_bypass_routes,
         add_remote_bypass_routes_iter.
  repeat first [apply add_exclude_route_sim | sim_step].
Qed.

Lemma eer_run_emulate_sim ipv server_addr :
  sim same_effects (eer_run_emulate tb ipv server_addr)
      (eer_run_emulate tb ipv server_addr).
Proof.
  unfold eer_run_emulate. repeat sim_step.
Qed.

Lemma add_dhcp_options_sim opt q1 q2 :
  sim same_effects (add_dhcp_options tb opt q1) (add_dhcp_options tb opt q2).
Proof.
  apply sim_add_dhcp_options. intros dopt.
  unfold add_dhcp_options_body, add_dhcp_options_iter, add_dhcp_options_try,
         add_dhcp_options_proxy_try, dhcp_forward_words.
  repeat sim_step.
Qed.

Lemma configure_builder_tail_sim stats server_addr config opt q1 q2 ipv fl :
  sim same_effects
      (configure_builder_tail tb stats server_addr config opt q1 ipv fl)
      (configure_builder_tail tb stats server_addr config opt q2 ipv fl).
Proof.
  unfold configure_builder_tail, configure_builder_settings, dns_fallback,
         add_google_dns, stats_error.
  repeat sim_step.
Qed.

Lemma configure_builder_sim stats server_addr config opt eer q1 q2 :
  sim same_effects
      (configure_builder tb stats server_addr config opt eer q1)
      (configure_builder tb stats server_addr config opt eer q2).
Proof.
  unfold configure_builder, configure_builder_head.
  repeat first [ apply tun_ifconfig_sim
               | apply configure_remote_bypass_sim
               | apply add_routes_sim
               | apply eer_run_emulate_sim
               | apply add_dhcp_options_sim
               | apply configure_builder_tail_sim
               | sim_step ].
Qed.

End SimWorld.

(** X19: quiet mode changes nothing but the log.  A pass run quietly and
    the same pass run with logging, from the same world, end with the same
    result (the same error when they throw) and in worlds with the same
    builder trace, emulator routes, state and statistics. *)
Theorem quiet_only_changes_the_log {ext : Externals} (tb : TunBuilderBase)
        (stats : bool) (server_addr : IP.Addr) (config : Config)
        (opt : OptionList) (eer_factory : bool) (w : World) :
  let loud := configure_builder tb stats server_addr config opt eer_factory
                                false w in
  let quiet := configure_builder tb stats server_addr config opt eer_factory
                                 true w in
  fst quiet = fst loud
  /\ calls (snd quiet) = calls (snd loud)
  /\ eer_routes (snd quiet) = eer_routes (snd loud)
  /\ state (snd quiet) = state (snd loud)
  /\ stats_errors (snd quiet) = stats_errors (snd loud).
Proof.
  intros loud quiet. subst loud quiet.
  assert (Hw : same_effects w w) by (repeat split).
  pose proof (configure_builder_sim tb stats server_addr config opt
                eer_factory true false) as Hsim.
  unfold sim in Hsim.
  destruct (Hsim w w Hw) as [Hr (Hc & He & Hs & Hst)].
  repeat split; assumption.
Qed.
